(** * kanban.py: a shallow embedding of the kanban CLI and its lifecycle rules

    The program is a single Python script.  Every command loads the JSON
    store, validates, mutates the loaded dictionaries in place, saves and
    prints.  The embedding keeps that shape:

    - a Python [str] is a [string] holding its UTF-8 encoding, a value that
      may be [None] is an [option string];
    - a Python [dict] is an insertion-ordered association list ([dict]);
    - the JSON file, the console and the number of [save_data] calls form
      the [World]; a command is a function in the monad [Cmd], whose
      outcome tells a normal end from a bare [return] and from an uncaught
      exception;
    - the two things the script takes from its environment, the date parser
      [datetime.strptime] and the external editor, are Section variables.

    The file on disk is taken to hold a store of the shape the script
    writes, the editor to start and to end, and a command to be given
    the arguments [argparse] accepts. *)

From Stdlib Require Import String Ascii List Bool Arith NArith Lia.
From Stdlib Require Import DecimalString.
Import ListNotations.
Open Scope string_scope.

(* ------------------------------------------------------------------ *)
(** ** Python strings *)
(* ------------------------------------------------------------------ *)

Definition nl_char : ascii := ascii_of_nat 10.

(** The one-character string "\n". *)
Definition nl : string := String nl_char EmptyString.

(** [bool(x)] for a value that is a [str] or [None]. *)
Definition truthy (o : option string) : bool :=
  match o with
  | Some s => negb (s =? "")
  | None => false
  end.

(** [x or d] for a value that is a [str] or [None]. *)
Definition py_or (o : option string) (d : string) : string :=
  match o with
  | Some s => if s =? "" then d else s
  | None => d
  end.

(** [f"{x}"] for a value that is a [str] or [None]. *)
Definition py_fmt (o : option string) : string :=
  match o with
  | Some s => s
  | None => "None"
  end.

(** [f"{n}"] for an [int] that is a natural number. *)
Definition py_fmt_nat (n : nat) : string :=
  NilZero.string_of_uint (Nat.to_uint n).

(** [sep.join(l)]. *)
Fixpoint str_join (sep : string) (l : list string) : string :=
  match l with
  | [] => ""
  | [s] => s
  | s :: rest => s ++ sep ++ str_join sep rest
  end.

(** [c * n] for a one-character string [c]. *)
Fixpoint str_mul (c : string) (n : nat) : string :=
  match n with
  | O => ""
  | S m => c ++ str_mul c m
  end.

(** [s.startswith(p)]. *)
Definition startswith (p s : string) : bool := String.prefix p s.

(** [s.split(c, 1)] for a one-byte separator: [None] when [c] does not
    occur in [s], otherwise the text before and after its first
    occurrence.  [c in s] is [split_once c s <> None]. *)
Fixpoint split_once (c : ascii) (s : string) : option (string * string) :=
  match s with
  | EmptyString => None
  | String a rest =>
      if Ascii.eqb a c then Some ("", rest)
      else match split_once c rest with
           | Some (k, v) => Some (String a k, v)
           | None => None
           end
  end.

(** [s.rstrip("\n")]: every trailing newline goes. *)
Fixpoint rstrip_nl (s : string) : string :=
  match s with
  | EmptyString => EmptyString
  | String a rest =>
      let rest' := rstrip_nl rest in
      if (rest' =? "") && Ascii.eqb a nl_char then "" else String a rest'
  end.

(** [f.readlines()] on a text whose line ends are "\n" (text mode has
    translated the others): each line keeps its newline, and a last line
    without one is a line too. *)
Fixpoint readlines_from (cur : string) (s : string) : list string :=
  match s with
  | EmptyString => if cur =? "" then [] else [cur]
  | String a rest =>
      if Ascii.eqb a nl_char
      then (cur ++ nl) :: readlines_from "" rest
      else readlines_from (cur ++ String a "") rest
  end.

Definition readlines (s : string) : list string := readlines_from "" s.

(** *** Characters of a UTF-8 string

    [len], [strip] and [rstrip] work on characters, not on bytes.  A
    character is a lead byte with the continuation bytes (10xxxxxx) that
    follow it. *)

Definition is_continuation (a : ascii) : bool :=
  let n := N_of_ascii a in ((128 <=? n) && (n <? 192))%N.

Fixpoint chars_from (cur : string) (s : string) : list string :=
  match s with
  | EmptyString => if cur =? "" then [] else [cur]
  | String a rest =>
      if is_continuation a || (cur =? "")
      then chars_from (cur ++ String a "") rest
      else cur :: chars_from (String a "") rest
  end.

Definition chars (s : string) : list string := chars_from "" s.

(** [len(s)]: the number of characters. *)
Definition py_len (s : string) : nat := List.length (chars s).

(** The code point of one character. *)
Definition codepoint (c : string) : N :=
  match list_ascii_of_string c with
  | [] => 0%N
  | a :: rest =>
      let n := N_of_ascii a in
      let lead :=
        (if n <? 128 then n
         else if n <? 224 then n - 192
         else if n <? 240 then n - 224
         else n - 240)%N in
      fold_left (fun acc b => (acc * 64 + (N_of_ascii b - 128))%N) rest lead
  end.

(** [c.isspace()], the characters [str.strip] removes: U+0009..U+000D,
    U+001C..U+0020, U+0085, U+00A0, U+1680, U+2000..U+200A, U+2028,
    U+2029, U+202F, U+205F, U+3000. *)
Definition isspace (c : string) : bool :=
  let n := codepoint c in
  (((9 <=? n) && (n <=? 13)) || ((28 <=? n) && (n <=? 32))
   || (n =? 133) || (n =? 160) || (n =? 5760)
   || ((8192 <=? n) && (n <=? 8202))
   || (n =? 8232) || (n =? 8233) || (n =? 8239) || (n =? 8287)
   || (n =? 12288))%N.

Fixpoint drop_spaces (l : list string) : list string :=
  match l with
  | [] => []
  | c :: rest => if isspace c then drop_spaces rest else l
  end.

(** [s.rstrip()] and [s.strip()]. *)
Definition py_rstrip (s : string) : string :=
  String.concat "" (rev (drop_spaces (rev (chars s)))).

Definition py_strip (s : string) : string :=
  String.concat "" (rev (drop_spaces (rev (drop_spaces (chars s))))).

(* ------------------------------------------------------------------ *)
(** ** Python dictionaries with string keys *)
(* ------------------------------------------------------------------ *)

(** Entries are kept in insertion order, as a Python [dict] keeps them. *)
Definition dict (V : Type) : Type := list (string * V).

(** [d.get(k)]. *)
Fixpoint dict_get {V : Type} (k : string) (d : dict V) : option V :=
  match d with
  | [] => None
  | (k', v) :: rest => if k' =? k then Some v else dict_get k rest
  end.

(** [k in d]. *)
Definition dict_mem {V : Type} (k : string) (d : dict V) : bool :=
  match dict_get k d with
  | Some _ => true
  | None => false
  end.

(** [d[k] = v]: a present key keeps its place, a new key goes last. *)
Fixpoint dict_set {V : Type} (k : string) (v : V) (d : dict V) : dict V :=
  match d with
  | [] => [(k, v)]
  | (k', v') :: rest =>
      if k' =? k then (k', v) :: rest else (k', v') :: dict_set k v rest
  end.

(** [d.keys()] and [d.values()]. *)
Definition dict_keys {V : Type} (d : dict V) : list string := map fst d.
Definition dict_values {V : Type} (d : dict V) : list V := map snd d.

(* ------------------------------------------------------------------ *)
(** ** The data model: tasks, sprints, the store *)
(* ------------------------------------------------------------------ *)

(** A task record, with the keys of the dictionary [add_task] builds, in
    its order.  Every value is a [str] or [None]: the editor-based edit
    can store [None] under any key. *)
Record Task : Type := mkTask {
  task_code : option string;
  task_name : option string;
  task_start_date : option string;
  task_review_date : option string;
  task_end_date : option string;
  task_status : option string;
  task_sprint_code : option string;
  task_comment : option string;
  task_estimated_time : option string;
  task_actual_time : option string
}.

(** A sprint record, as [sprint_add] builds it. *)
Record Sprint : Type := mkSprint {
  sprint_code : string;
  sprint_name : string;
  sprint_start_date : string;
  sprint_end_date : string;
  sprint_closed : bool
}.

(** The content of kanban.json: [{"tasks": {...}, "sprints": {...}}]. *)
Record Store : Type := mkStore {
  tasks : dict Task;
  sprints : dict Sprint
}.

Definition empty_store : Store := {| tasks := []; sprints := [] |}.

Definition STATUS_ORDER : list string :=
  ["TODO"; "IN_PROGRESS"; "REVIEW"; "TESTING_DEPLOYMENT"; "DONE"].

(** [s in STATUSES]. *)
Definition in_STATUSES (s : string) : bool :=
  existsb (String.eqb s) STATUS_ORDER.

(** *** Assignments to one key of a record *)

Definition set_task_code (v : option string) (t : Task) : Task :=
  mkTask v (task_name t) (task_start_date t) (task_review_date t)
    (task_end_date t) (task_status t) (task_sprint_code t) (task_comment t)
    (task_estimated_time t) (task_actual_time t).

Definition set_task_name (v : option string) (t : Task) : Task :=
  mkTask (task_code t) v (task_start_date t) (task_review_date t)
    (task_end_date t) (task_status t) (task_sprint_code t) (task_comment t)
    (task_estimated_time t) (task_actual_time t).

Definition set_task_start_date (v : option string) (t : Task) : Task :=
  mkTask (task_code t) (task_name t) v (task_review_date t)
    (task_end_date t) (task_status t) (task_sprint_code t) (task_comment t)
    (task_estimated_time t) (task_actual_time t).

Definition set_task_review_date (v : option string) (t : Task) : Task :=
  mkTask (task_code t) (task_name t) (task_start_date t) v
    (task_end_date t) (task_status t) (task_sprint_code t) (task_comment t)
    (task_estimated_time t) (task_actual_time t).

Definition set_task_end_date (v : option string) (t : Task) : Task :=
  mkTask (task_code t) (task_name t) (task_start_date t) (task_review_date t)
    v (task_status t) (task_sprint_code t) (task_comment t)
    (task_estimated_time t) (task_actual_time t).

Definition set_task_status (v : option string) (t : Task) : Task :=
  mkTask (task_code t) (task_name t) (task_start_date t) (task_review_date t)
    (task_end_date t) v (task_sprint_code t) (task_comment t)
    (task_estimated_time t) (task_actual_time t).

Definition set_task_sprint_code (v : option string) (t : Task) : Task :=
  mkTask (task_code t) (task_name t) (task_start_date t) (task_review_date t)
    (task_end_date t) (task_status t) v (task_comment t)
    (task_estimated_time t) (task_actual_time t).

Definition set_task_comment (v : option string) (t : Task) : Task :=
  mkTask (task_code t) (task_name t) (task_start_date t) (task_review_date t)
    (task_end_date t) (task_status t) (task_sprint_code t) v
    (task_estimated_time t) (task_actual_time t).

Definition set_task_estimated_time (v : option string) (t : Task) : Task :=
  mkTask (task_code t) (task_name t) (task_start_date t) (task_review_date t)
    (task_end_date t) (task_status t) (task_sprint_code t) (task_comment t)
    v (task_actual_time t).

Definition set_task_actual_time (v : option string) (t : Task) : Task :=
  mkTask (task_code t) (task_name t) (task_start_date t) (task_review_date t)
    (task_end_date t) (task_status t) (task_sprint_code t) (task_comment t)
    (task_estimated_time t) v.

Definition set_sprint_closed (b : bool) (s : Sprint) : Sprint :=
  mkSprint (sprint_code s) (sprint_name s) (sprint_start_date s)
    (sprint_end_date s) b.

(** The keys of a task dictionary. *)
Definition task_keys : list string :=
  ["code"; "name"; "start_date"; "review_date"; "end_date"; "status";
   "sprint_code"; "comment"; "estimated_time"; "actual_time"].

(** [k in task]. *)
Definition task_has_key (k : string) : bool := existsb (String.eqb k) task_keys.

(** [task[k] = v] for a key the task has (another key leaves [t] as it
    is here; the script only assigns under [k in task]). *)
Definition task_setitem (k : string) (v : option string) (t : Task) : Task :=
  if k =? "code" then set_task_code v t
  else if k =? "name" then set_task_name v t
  else if k =? "start_date" then set_task_start_date v t
  else if k =? "review_date" then set_task_review_date v t
  else if k =? "end_date" then set_task_end_date v t
  else if k =? "status" then set_task_status v t
  else if k =? "sprint_code" then set_task_sprint_code v t
  else if k =? "comment" then set_task_comment v t
  else if k =? "estimated_time" then set_task_estimated_time v t
  else if k =? "actual_time" then set_task_actual_time v t
  else t.

(** The store after the task object held under [code] was mutated into
    [t]: the object is shared with [data["tasks"]], so [data] sees it. *)
Definition with_task (code : string) (t : Task) (data : Store) : Store :=
  {| tasks := dict_set code t (tasks data); sprints := sprints data |}.

Definition with_sprint (code : string) (s : Sprint) (data : Store) : Store :=
  {| tasks := tasks data; sprints := dict_set code s (sprints data) |}.

(* ------------------------------------------------------------------ *)
(** ** The world a command runs in, and the command monad *)
(* ------------------------------------------------------------------ *)

(** [disk] is the parsed content of kanban.json ([None]: no such file),
    [stdout] the lines printed so far, one entry per [print] call, and
    [saves] the number of [save_data] calls so far. *)
Record World : Type := mkWorld {
  disk : option Store;
  stdout : list string;
  saves : nat
}.

(** How a piece of a command ends: with a value, with a bare [return]
    that leaves the function, or with an exception nobody catches. *)
Inductive outcome (A : Type) : Type :=
| Value (a : A)
| Returned
| Raised (exc : string).

Arguments Value {A} a.
Arguments Returned {A}.
Arguments Raised {A} exc.

Definition Cmd (A : Type) : Type := World -> outcome A * World.

Definition ret {A : Type} (a : A) : Cmd A := fun w => (Value a, w).

Definition bind {A B : Type} (m : Cmd A) (f : A -> Cmd B) : Cmd B :=
  fun w =>
    match m w with
    | (Value a, w') => f a w'
    | (Returned, w') => (Returned, w')
    | (Raised e, w') => (Raised e, w')
    end.

(** A bare [return]. *)
Definition return_ {A : Type} : Cmd A := fun w => (Returned, w).

(** [raise exc]. *)
Definition raise {A : Type} (exc : string) : Cmd A := fun w => (Raised exc, w).

Notation "x <- m ;; k" := (bind m (fun x => k))
  (at level 61, m at next level, right associativity).
Notation "m ;; k" := (bind m (fun _ => k))
  (at level 61, right associativity).

(** The world after one more printed line, everything else as it was. *)
Definition printed (s : string) (w : World) : World :=
  {| disk := disk w; stdout := (stdout w ++ [s])%list; saves := saves w |}.

(** [print(s)]. *)
Definition print (s : string) : Cmd unit := fun w => (Value tt, printed s w).

(** What [load_data] reads from a world. *)
Definition stored (w : World) : Store :=
  match disk w with
  | Some d => d
  | None => empty_store
  end.

(** [load_data()]: the file's content, or the empty store when there is
    no file. *)
Definition load_data : Cmd Store := fun w => (Value (stored w), w).

(** [save_data(data)]: the file is replaced by [data]. *)
Definition saved (data : Store) (w : World) : World :=
  {| disk := Some data; stdout := stdout w; saves := S (saves w) |}.

Definition save_data (data : Store) : Cmd unit := fun w => (Value tt, saved data w).

(** [if not check: return]. *)
Definition check (m : Cmd bool) : Cmd unit :=
  ok <- m ;; if ok then ret tt else return_.

(** [for x in l: body(x)]. *)
Fixpoint for_each {A : Type} (l : list A) (body : A -> Cmd unit) : Cmd unit :=
  match l with
  | [] => ret tt
  | x :: rest => body x ;; for_each rest body
  end.

(** [if x: body else: otherwise], for an [x] that is a [str] or [None]:
    inside the first branch [x] is a non-empty string. *)
Definition if_truthy {A : Type} (x : option string)
    (body : string -> Cmd A) (otherwise : Cmd A) : Cmd A :=
  match x with
  | Some s => if s =? "" then otherwise else body s
  | None => otherwise
  end.

(** [if x: body]. *)
Definition when_truthy (x : option string) (body : string -> Cmd unit) : Cmd unit :=
  if_truthy x body (ret tt).

(** [d[k]], a [KeyError] when the key is missing. *)
Definition dict_getitem {V : Type} (k : string) (d : dict V) : Cmd V :=
  match dict_get k d with
  | Some v => ret v
  | None => raise "KeyError"
  end.

(** [x == s] for an [x] that is a [str] or [None] and a string [s]. *)
Definition eq_str (x : option string) (s : string) : bool :=
  match x with
  | Some v => v =? s
  | None => false
  end.

Definition is_some {A : Type} (x : option A) : bool :=
  match x with
  | Some _ => true
  | None => false
  end.

(* ------------------------------------------------------------------ *)
(** ** A date parser for ASCII input

    [datetime.strptime(s, "%Y-%m-%d")] belongs to Python, not to the
    script, and the commands below take it as a parameter.  This is the
    instance the examples run with.  It reads the format the way
    CPython's [_strptime] does for ASCII text: four digits, a month
    [1[0-2]|0[1-9]|[1-9]], a day [3[01]|[12]\d|0[1-9]|[1-9]| [1-9]],
    nothing after it, and the date has to exist (year 1 at least). *)
(* ------------------------------------------------------------------ *)

Definition digit_of (a : ascii) : option nat :=
  let n := nat_of_ascii a in
  if ((48 <=? n) && (n <=? 57))%nat then Some (n - 48) else None.

Fixpoint number_of (l : list ascii) (acc : nat) : option nat :=
  match l with
  | [] => Some acc
  | a :: rest =>
      match digit_of a with
      | Some d => number_of rest (acc * 10 + d)
      | None => None
      end
  end.

Definition parse_year (s : string) : option nat :=
  if (String.length s =? 4)%nat then number_of (list_ascii_of_string s) 0 else None.

Definition parse_month (s : string) : option nat :=
  let n := String.length s in
  if ((1 <=? n) && (n <=? 2))%nat then number_of (list_ascii_of_string s) 0 else None.

Definition parse_day (s : string) : option nat :=
  match list_ascii_of_string s with
  | [sp; a] =>
      if Ascii.eqb sp " "%char then number_of [a] 0
      else number_of [sp; a] 0
  | l => if (List.length l =? 1)%nat then number_of l 0 else None
  end.

Definition is_leap (y : nat) : bool :=
  (((y mod 4 =? 0) && negb (y mod 100 =? 0)) || (y mod 400 =? 0))%nat.

Definition days_in_month (y m : nat) : nat :=
  match m with
  | 2 => if is_leap y then 29 else 28
  | 4 | 6 | 9 | 11 => 30
  | _ => 31
  end.

Definition strptime_Ymd_ascii (s : string) : bool :=
  match split_once "-" s with
  | Some (y, rest) =>
      match split_once "-" rest with
      | Some (m, d) =>
          match parse_year y, parse_month m, parse_day d with
          | Some yy, Some mm, Some dd =>
              ((1 <=? yy) && (1 <=? mm) && (mm <=? 12)
               && (1 <=? dd) && (dd <=? days_in_month yy mm))%nat
          | _, _, _ => false
          end
      | None => false
      end
  | None => false
  end.

(* ------------------------------------------------------------------ *)
(** ** Arguments of the commands, as [argparse] hands them over *)
(* ------------------------------------------------------------------ *)

(** [add]: --code, --name and --status are required. *)
Record add_args : Type := mkAddArgs {
  add_code : string;
  add_name : string;
  add_status : string;
  add_sprint : option string;
  add_estimate : option string;
  add_start_date : option string;
  add_review_date : option string;
  add_end_date : option string
}.

Record list_args : Type := mkListArgs {
  list_status : option string;
  list_sprint : option string
}.

Record board_args : Type := mkBoardArgs {
  board_sprint : option string;
  board_current : bool
}.

Record edit_args : Type := mkEditArgs {
  edit_code : string;
  edit_name : option string;
  edit_status : option string;
  edit_estimate : option string;
  edit_actual : option string;
  edit_start_date : option string;
  edit_review_date : option string;
  edit_end_date : option string
}.

Record sprint_add_args : Type := mkSprintAddArgs {
  sadd_code : string;
  sadd_name : string;
  sadd_start_date : string;
  sadd_end_date : string
}.

(** The command line after parsing: which function [main] calls, and
    with what. *)
Inductive Command : Type :=
| CmdAdd (args : add_args)
| CmdList (args : list_args)
| CmdMove (code status : string)
| CmdBoard (args : board_args)
| CmdTaskEdit (args : edit_args)
| CmdTaskVi (code : string)
| CmdTaskComment (code : string)
| CmdTaskShow (code : string)
| CmdSprintAdd (args : sprint_add_args)
| CmdSprintList
| CmdSprintClose (code : string).

(** [get_open_sprints(data)]. *)
Definition get_open_sprints (data : Store) : list Sprint :=
  filter (fun s => negb (sprint_closed s)) (dict_values (sprints data)).

(** The comment mark of the listings: ["💬" if t.get("comment") else ""]. *)
Definition comment_mark (t : Task) : string :=
  if truthy (task_comment t) then "💬" else "".

(** The marker line of the editor template. *)
Definition COMMENT_MARKER : string := "---COMMENT---".

(** The template [task_edit_vi] writes to the temporary file. *)
Definition vi_template (task : Task) : string :=
  "# Edit task fields below" ++ nl ++
  "# Lines starting with # are ignored" ++ nl ++
  "# Leave a value empty to keep current value" ++ nl ++
  "# ----------------------------" ++ nl ++
  nl ++
  "name=" ++ py_fmt (task_name task) ++ nl ++
  "status=" ++ py_fmt (task_status task) ++ nl ++
  "sprint=" ++ py_or (task_sprint_code task) "" ++ nl ++
  "start_date=" ++ py_or (task_start_date task) "" ++ nl ++
  "review_date=" ++ py_or (task_review_date task) "" ++ nl ++
  "end_date=" ++ py_or (task_end_date task) "" ++ nl ++
  "estimated_time=" ++ py_or (task_estimated_time task) "" ++ nl ++
  "actual_time=" ++ py_or (task_actual_time task) "" ++ nl ++
  nl ++
  COMMENT_MARKER ++ nl ++
  py_or (task_comment task) "" ++ nl.

(** What the loop over the lines of the edited file keeps: [updates],
    [comment_lines] and [in_comment]. *)
Record vi_scan : Type := mkScan {
  updates : dict (option string);
  comment_lines : list string;
  in_comment : bool
}.

(** One turn of the loop [for line in lines] of [task_edit_vi]. *)
Definition vi_scan_line (st : vi_scan) (line : string) : vi_scan :=
  let line := rstrip_nl line in
  if line =? COMMENT_MARKER
  then mkScan (updates st) (comment_lines st) true
  else if in_comment st
  then mkScan (updates st) (comment_lines st ++ [line])%list (in_comment st)
  else if (line =? "") || startswith "#" line then st
  else match split_once "=" line with
       | None => st
       | Some (k, v) =>
           let v := py_strip v in
           mkScan (dict_set k (if v =? "" then None else Some v) (updates st))
                  (comment_lines st) (in_comment st)
       end.

Definition vi_scan_lines (lines : list string) : vi_scan :=
  fold_left vi_scan_line lines (mkScan [] [] false).

(** [updates.get(k)]: [None] for a missing key as for a stored [None]. *)
Definition updates_get (k : string) (u : dict (option string)) : option string :=
  match dict_get k u with
  | Some v => v
  | None => None
  end.

(** The loop [for k, v in updates.items()] of [task_edit_vi]. *)
Definition vi_apply (u : dict (option string)) (task : Task) : Task :=
  fold_left
    (fun task kv =>
       if fst kv =? "sprint" then set_task_sprint_code (snd kv) task
       else if task_has_key (fst kv) then task_setitem (fst kv) (snd kv) task
       else task)
    u task.

(** [content if content.strip() else None]. *)
Definition comment_or_None (content : string) : option string :=
  if py_strip content =? "" then None else Some content.

(** The loop of [sprint_close] over [data["tasks"].values()]: the tasks
    after it, and [moved]. *)
Fixpoint close_loop (code : string) (ts : dict Task) (moved : nat) : dict Task * nat :=
  match ts with
  | [] => ([], moved)
  | (k, t) :: rest =>
      if eq_str (task_sprint_code t) code && negb (eq_str (task_status t) "DONE")
      then let (rest', m) := close_loop code rest (S moved) in
           ((k, set_task_sprint_code None t) :: rest', m)
      else let (rest', m) := close_loop code rest moved in
           ((k, t) :: rest', m)
  end.

(** The loop [for t in tasks: grouped[t["status"]].append(t)] of
    [board_tasks]. *)
Fixpoint group_tasks (ts : list Task) (grouped : dict (list Task)) : Cmd (dict (list Task)) :=
  match ts with
  | [] => ret grouped
  | t :: rest =>
      match task_status t with
      | Some s =>
          bucket <- dict_getitem s grouped ;;
          group_tasks rest (dict_set s (bucket ++ [t])%list grouped)
      | None => raise "KeyError"
      end
  end.


(* ------------------------------------------------------------------ *)
(** ** A small store to run the commands on *)
(* ------------------------------------------------------------------ *)

Definition demo_sprint (code : string) (closed : bool) : Sprint :=
  {| sprint_code := code; sprint_name := "Sprint " ++ code;
     sprint_start_date := "2024-01-01"; sprint_end_date := "2024-01-14";
     sprint_closed := closed |}.

Definition demo_task (code status : string) (sprint comment : option string) : Task :=
  {| task_code := Some code; task_name := Some ("Task " ++ code);
     task_start_date := None; task_review_date := None; task_end_date := None;
     task_status := Some status; task_sprint_code := sprint;
     task_comment := comment;
     task_estimated_time := Some "1h"; task_actual_time := None |}.

(** One open sprint S1 and one closed sprint S0; T1 and T2 are in S1, T2
    is done, T3 is in the backlog. *)
Definition demo_store : Store :=
  {| tasks := [("T1", demo_task "T1" "REVIEW" (Some "S1") (Some "keep me"));
               ("T2", demo_task "T2" "DONE" (Some "S1") None);
               ("T3", demo_task "T3" "TODO" None None)];
     sprints := [("S0", demo_sprint "S0" true); ("S1", demo_sprint "S1" false)] |}.

Definition world_of (data : Store) : World :=
  {| disk := Some data; stdout := []; saves := 0 |}.

Definition demo_world : World := world_of demo_store.

(** A store with no open sprint, and one with two. *)
Definition no_open_store : Store :=
  {| tasks := tasks demo_store; sprints := [("S0", demo_sprint "S0" true)] |}.

Definition two_open_store : Store :=
  {| tasks := tasks demo_store;
     sprints := [("S1", demo_sprint "S1" false); ("S2", demo_sprint "S2" false)] |}.

(** An editor session that leaves [text] in the file, whatever it held. *)
Definition editor_leaves (text : string) : string -> string := fun _ => text.

(** An editor session that changes nothing. *)
Definition editor_quits : string -> string := fun text => text.

(** The small store after an edit through the editor has emptied the
    status of T1. *)
Definition broken_store : Store :=
  {| tasks := [("T1", set_task_status None
                        (demo_task "T1" "REVIEW" (Some "S1") (Some "keep me")));
               ("T2", demo_task "T2" "DONE" (Some "S1") None)];
     sprints := sprints demo_store |}.

(** Arguments for the examples of [add_task] and [task_edit]. *)
Definition demo_add (code status : string) (sprint start : option string) : add_args :=
  mkAddArgs code ("Task " ++ code) status sprint None start None None.

Definition demo_edit (name status start : option string) : edit_args :=
  mkEditArgs "T1" name status None None start None None.
(* ------------------------------------------------------------------ *)
(** ** The commands *)
(* ------------------------------------------------------------------ *)

Section Kanban.

(** [strptime_Ymd s]: [datetime.strptime(s, "%Y-%m-%d")] returns, it does
    not raise [ValueError]. *)
Variable strptime_Ymd : string -> bool.

(** [editor text]: the content of the temporary file when the editor
    process ends, as [open(path)] reads it, for a file that held [text]
    when the editor started. *)
Variable editor : string -> string.

(** *** Validation (lines 41 to 65) *)

Definition validate_status (status : option string) : Cmd bool :=
  if negb (match status with Some s => in_STATUSES s | None => false end)
  then print ("Invalid status. Valid: " ++ str_join ", " STATUS_ORDER) ;; ret false
  else ret true.

Definition validate_date (date_str : option string) : Cmd bool :=
  match date_str with
  | None => ret true
  | Some s =>
      if strptime_Ymd s then ret true
      else print ("Invalid date format: " ++ s ++ " (expected YYYY-MM-DD)") ;; ret false
  end.

(** Every value the model can hold is a [str] or [None], so the
    [isinstance] test never fails. *)
Definition validate_time_value (value : option string) : Cmd bool :=
  match value with
  | None => ret true
  | Some _ => ret true
  end.

(** *** Tasks *)

(** [add_task], lines 76 to 116. *)
Definition add_task (args : add_args) : Cmd unit :=
  data <- load_data ;;
  (if dict_mem (add_code args) (tasks data)
   then print "Task already exists" ;; return_
   else ret tt) ;;
  check (validate_status (Some (add_status args))) ;;
  check (validate_time_value (add_estimate args)) ;;
  for_each [add_start_date args; add_review_date args; add_end_date args]
    (fun d => check (validate_date d)) ;;
  when_truthy (add_sprint args) (fun name =>
    match dict_get name (sprints data) with
    | None => print "Sprint not found" ;; return_
    | Some sprint =>
        if sprint_closed sprint then print "Sprint is closed" ;; return_
        else ret tt
    end) ;;
  let data :=
    with_task (add_code args)
      {| task_code := Some (add_code args);
         task_name := Some (add_name args);
         task_start_date := add_start_date args;
         task_review_date := add_review_date args;
         task_end_date := add_end_date args;
         task_status := Some (add_status args);
         task_sprint_code := add_sprint args;
         task_comment := None;
         task_estimated_time := add_estimate args;
         task_actual_time := None |} data in
  save_data data ;;
  print ("Task '" ++ add_code args ++ "' created").

(** [list_tasks], lines 119 to 141. *)
Definition list_tasks (args : list_args) : Cmd unit :=
  data <- load_data ;;
  let ts := dict_values (tasks data) in
  ts <- if_truthy (list_status args)
          (fun status =>
             check (validate_status (Some status)) ;;
             ret (filter (fun t => eq_str (task_status t) status) ts))
          (ret ts) ;;
  ts <- if_truthy (list_sprint args)
          (fun name =>
             (if negb (dict_mem name (sprints data))
              then print "Sprint not found" ;; return_
              else ret tt) ;;
             ret (filter (fun t => eq_str (task_sprint_code t) name) ts))
          (ret ts) ;;
  match ts with
  | [] => print "No tasks found" ;; return_
  | _ =>
      for_each ts (fun t =>
        let sprint := py_or (task_sprint_code t) "-" in
        print ("[" ++ py_fmt (task_status t) ++ "] " ++ py_fmt (task_code t)
               ++ " - " ++ py_fmt (task_name t) ++ " " ++ comment_mark t
               ++ " (sprint: " ++ sprint ++ ")"))
  end.

(** [move_task], lines 144 to 159. *)
Definition move_task (code status : string) : Cmd unit :=
  data <- load_data ;;
  match dict_get code (tasks data) with
  | None => print "Task not found" ;; return_
  | Some task =>
      check (validate_status (Some status)) ;;
      let old := task_status task in
      let task := set_task_status (Some status) task in
      save_data (with_task code task data) ;;
      print ("Task '" ++ code ++ "' moved: " ++ py_fmt old ++ " → " ++ status)
  end.

(** One block of [task_edit]: when the argument is there, validate it
    (a failure returns, and what the earlier blocks assigned is lost with
    the loaded data), assign it and set [updated]. *)
Definition edit_step (provided : bool) (valid : Cmd bool) (assign : Task -> Task)
    (st : Task * bool) : Cmd (Task * bool) :=
  if provided
  then check valid ;; ret (assign (fst st), true)
  else ret st.

(** [task_edit], lines 162 to 217.  [st] is the task object and
    [updated]. *)
Definition task_edit (args : edit_args) : Cmd unit :=
  data <- load_data ;;
  match dict_get (edit_code args) (tasks data) with
  | None => print "Task not found" ;; return_
  | Some task =>
      let updated := false in
      st <- edit_step (truthy (edit_name args)) (ret true)
              (set_task_name (edit_name args)) (task, updated) ;;
      st <- edit_step (truthy (edit_status args))
              (validate_status (edit_status args))
              (set_task_status (edit_status args)) st ;;
      st <- edit_step (is_some (edit_estimate args))
              (validate_time_value (edit_estimate args))
              (set_task_estimated_time (edit_estimate args)) st ;;
      st <- edit_step (is_some (edit_actual args))
              (validate_time_value (edit_actual args))
              (set_task_actual_time (edit_actual args)) st ;;
      st <- edit_step (is_some (edit_start_date args))
              (validate_date (edit_start_date args))
              (set_task_start_date (edit_start_date args)) st ;;
      st <- edit_step (is_some (edit_review_date args))
              (validate_date (edit_review_date args))
              (set_task_review_date (edit_review_date args)) st ;;
      st <- edit_step (is_some (edit_end_date args))
              (validate_date (edit_end_date args))
              (set_task_end_date (edit_end_date args)) st ;;
      let (task, updated) := st in
      if negb updated then print "No changes provided" ;; return_
      else
        save_data (with_task (edit_code args) task data) ;;
        print ("Task '" ++ edit_code args ++ "' updated")
  end.

(** *** Board *)

(** The scope of the board: the sprint it is about (if any) and the
    tasks it shows, lines 226 to 245 of [board_tasks]. *)
Definition board_scope (args : board_args) (data : Store) : Cmd (option Sprint * list Task) :=
  let ts := dict_values (tasks data) in
  if board_current args then
    let open_sprints := get_open_sprints data in
    match open_sprints with
    | [] => print "No active sprint found" ;; return_
    | sprint :: _ =>
        if (1 <? List.length open_sprints)%nat
        then print "More than one active sprint found" ;; return_
        else ret (Some sprint,
                  filter (fun t => eq_str (task_sprint_code t) (sprint_code sprint)) ts)
    end
  else
    if_truthy (board_sprint args)
      (fun name =>
         match dict_get name (sprints data) with
         | None => print "Sprint not found" ;; return_
         | Some sprint =>
             ret (Some sprint, filter (fun t => eq_str (task_sprint_code t) name) ts)
         end)
      (ret (None, ts)).

Definition board_title (sprint : option Sprint) : string :=
  match sprint with
  | Some s => "KANBAN BOARD" ++ " — " ++ sprint_code s ++ " (" ++ sprint_name s ++ ")"
  | None => "KANBAN BOARD"
  end.

(** The line of one task on the board. *)
Definition board_line (t : Task) : string :=
  py_fmt (task_code t) ++ "  " ++ py_fmt (task_name t) ++ " " ++ comment_mark t.

(** [board_tasks], lines 224 to 268. *)
Definition board_tasks (args : board_args) : Cmd unit :=
  data <- load_data ;;
  scope <- board_scope args data ;;
  let (sprint, ts) := scope in
  grouped <- group_tasks ts (map (fun s => (s, [])) STATUS_ORDER) ;;
  let title := board_title sprint in
  print title ;;
  print (str_mul "=" (py_len title)) ;;
  print "" ;;
  for_each STATUS_ORDER (fun status =>
    print status ;;
    print (str_mul "-" (py_len status)) ;;
    bucket <- dict_getitem status grouped ;;
    match bucket with
    | [] => print "(no tasks)"
    | _ => for_each bucket (fun t => print (board_line t))
    end ;;
    print "").

(** *** Task edit through the editor *)

(** [task_edit_vi], lines 275 to 365.  The temporary file is written
    with the template, the editor runs on it, and the file is read
    back. *)
Definition task_edit_vi (code : string) : Cmd unit :=
  data <- load_data ;;
  match dict_get code (tasks data) with
  | None => print "Task not found" ;; return_
  | Some task =>
      let lines := readlines (editor (vi_template task)) in
      let scan := vi_scan_lines lines in
      let updates := updates scan in
      (if truthy (updates_get "status" updates)
       then check (validate_status (updates_get "status" updates))
       else ret tt) ;;
      for_each ["start_date"; "review_date"; "end_date"] (fun d =>
        if truthy (updates_get d updates)
        then check (validate_date (updates_get d updates))
        else ret tt) ;;
      for_each ["estimated_time"; "actual_time"] (fun t =>
        if truthy (updates_get t updates)
        then check (validate_time_value (updates_get t updates))
        else ret tt) ;;
      when_truthy (updates_get "sprint" updates) (fun name =>
        match dict_get name (sprints data) with
        | None => print "Sprint not found" ;; return_
        | Some sprint =>
            if sprint_closed sprint then print "Sprint is closed" ;; return_
            else ret tt
        end) ;;
      let task := vi_apply updates task in
      let comment := py_rstrip (str_join nl (comment_lines scan)) in
      let task := set_task_comment (comment_or_None comment) task in
      save_data (with_task code task data) ;;
      print ("Task '" ++ code ++ "' updated via editor")
  end.

(** *** Task comments *)

(** [edit_task_comment], lines 372 to 397. *)
Definition edit_task_comment (code : string) : Cmd unit :=
  data <- load_data ;;
  match dict_get code (tasks data) with
  | None => print "Task not found" ;; return_
  | Some task =>
      let content := rstrip_nl (editor (py_or (task_comment task) "")) in
      let task := set_task_comment (comment_or_None content) task in
      save_data (with_task code task data) ;;
      print ("Comment updated for task '" ++ code ++ "'")
  end.

(** [task_show], lines 400 to 419. *)
Definition task_show (code : string) : Cmd unit :=
  data <- load_data ;;
  match dict_get code (tasks data) with
  | None => print "Task not found" ;; return_
  | Some task =>
      print ("Task:        " ++ py_fmt (task_code task)) ;;
      print ("Name:        " ++ py_fmt (task_name task)) ;;
      print ("Status:      " ++ py_fmt (task_status task)) ;;
      print ("Sprint:      " ++ py_or (task_sprint_code task) "-") ;;
      print ("Start date:  " ++ py_or (task_start_date task) "-") ;;
      print ("Review date: " ++ py_or (task_review_date task) "-") ;;
      print ("End date:    " ++ py_or (task_end_date task) "-") ;;
      print ("Estimate:    " ++ py_or (task_estimated_time task) "-") ;;
      print ("Actual:      " ++ py_or (task_actual_time task) "-") ;;
      print (str_mul "-" 40) ;;
      print ("Comment:" ++ nl) ;;
      print (py_or (task_comment task) "(no comment)")
  end.

(** *** Sprints *)

(** [sprint_add], lines 426 to 442. *)
Definition sprint_add (args : sprint_add_args) : Cmd unit :=
  data <- load_data ;;
  (if dict_mem (sadd_code args) (sprints data)
   then print "Sprint already exists" ;; return_
   else ret tt) ;;
  let data :=
    with_sprint (sadd_code args)
      {| sprint_code := sadd_code args;
         sprint_name := sadd_name args;
         sprint_start_date := sadd_start_date args;
         sprint_end_date := sadd_end_date args;
         sprint_closed := false |} data in
  save_data data ;;
  print ("Sprint '" ++ sadd_code args ++ "' created").

(** [sprint_list], lines 445 to 454. *)
Definition sprint_list : Cmd unit :=
  data <- load_data ;;
  match sprints data with
  | [] => print "No sprints found" ;; return_
  | _ =>
      for_each (dict_values (sprints data)) (fun s =>
        let state := if sprint_closed s then "CLOSED" else "OPEN" in
        print (sprint_code s ++ " - " ++ sprint_name s ++ " (" ++ sprint_start_date s
               ++ " → " ++ sprint_end_date s ++ ") [" ++ state ++ "]"))
  end.

(** [sprint_close], lines 457 to 479.  The loop mutates the task
    objects of [data] and the assignment mutates its sprint object. *)
Definition sprint_close (code : string) : Cmd unit :=
  data <- load_data ;;
  match dict_get code (sprints data) with
  | None => print "Sprint not found" ;; return_
  | Some sprint =>
      (if sprint_closed sprint then print "Sprint already closed" ;; return_
       else ret tt) ;;
      let (ts, moved) := close_loop code (tasks data) 0 in
      let data := {| tasks := ts; sprints := sprints data |} in
      let data := with_sprint code (set_sprint_closed true sprint) data in
      save_data data ;;
      print ("Sprint '" ++ code ++ "' closed") ;;
      print (py_fmt_nat moved ++ " unfinished tasks moved back to backlog")
  end.

(** *** The dispatcher: [args.func(args)] *)

Definition main (c : Command) : Cmd unit :=
  match c with
  | CmdAdd args => add_task args
  | CmdList args => list_tasks args
  | CmdMove code status => move_task code status
  | CmdBoard args => board_tasks args
  | CmdTaskEdit args => task_edit args
  | CmdTaskVi code => task_edit_vi code
  | CmdTaskComment code => edit_task_comment code
  | CmdTaskShow code => task_show code
  | CmdSprintAdd args => sprint_add args
  | CmdSprintList => sprint_list
  | CmdSprintClose code => sprint_close code
  end.

(* ------------------------------------------------------------------ *)
(** ** Vocabulary of the statements *)
(* ------------------------------------------------------------------ *)

(** The command gives up with a bare [return] after printing [msg], and
    neither the file nor the count of saves has moved. *)
Definition fails_with (m : Cmd unit) (w : World) (msg : string) : Prop :=
  exists w', m w = (Returned, w')
    /\ disk w' = disk w /\ saves w' = saves w
    /\ stdout w' = (stdout w ++ [msg])%list.

(** The command runs to its end, saves [data] once and prints [msgs]. *)
Definition saves_as (m : Cmd unit) (w : World) (data : Store) (msgs : list string) : Prop :=
  exists w', m w = (Value tt, w')
    /\ disk w' = Some data /\ saves w' = S (saves w)
    /\ stdout w' = (stdout w ++ msgs)%list.

(** The message of [validate_status]. *)
Definition invalid_status_msg : string :=
  "Invalid status. Valid: TODO, IN_PROGRESS, REVIEW, TESTING_DEPLOYMENT, DONE".

(** A status argument that is given (not empty) and is not in the enum. *)
Definition bad_status (x : option string) : bool :=
  truthy x && negb (match x with Some s => in_STATUSES s | None => false end).

(** A date argument that is given and does not parse. *)
Definition bad_date (x : option string) : bool :=
  match x with
  | Some s => negb (strptime_Ymd s)
  | None => false
  end.

Definition date_msg (x : option string) : string :=
  "Invalid date format: " ++ py_fmt x ++ " (expected YYYY-MM-DD)".

(** The arguments of [task_edit] hold an invalid field.  A name is never
    invalid, and neither is an estimate or an actual time: any string
    passes [validate_time_value]. *)
Definition has_invalid_field (args : edit_args) : bool :=
  bad_status (edit_status args)
  || bad_date (edit_start_date args)
  || bad_date (edit_review_date args)
  || bad_date (edit_end_date args).

(** The message of the first invalid field, in the order status, start,
    review, end. *)
Definition first_invalid_msg (args : edit_args) : string :=
  if bad_status (edit_status args) then invalid_status_msg
  else if bad_date (edit_start_date args) then date_msg (edit_start_date args)
  else if bad_date (edit_review_date args) then date_msg (edit_review_date args)
  else date_msg (edit_end_date args).

(** The task is in the sprint [code] and is not done. *)
Definition unfinished_in (code : string) (t : Task) : bool :=
  eq_str (task_sprint_code t) code && negb (eq_str (task_status t) "DONE").

(** What closing the sprint [code] does to one task. *)
Definition close_task (code : string) (t : Task) : Task :=
  if unfinished_in code t then set_task_sprint_code None t else t.


(** Every task of the list has a status of the enum, as the data model
    has it. *)
Definition valid_statuses (ts : list Task) : Prop :=
  Forall (fun t => exists s, task_status t = Some s /\ In s STATUS_ORDER) ts.

(** The lines of one status bucket of the board: the status, its
    underline, the tasks of [ts] with that status in the order of [ts]
    (or the placeholder when there is none), and an empty line. *)
Definition bucket_lines (status : string) (ts : list Task) : list string :=
  ([status; str_mul "-" (py_len status)]
   ++ match filter (fun t => eq_str (task_status t) status) ts with
      | [] => ["(no tasks)"]
      | bucket => map board_line bucket
      end
   ++ [""])%list.

(** [m] keeps the property [Inv] of the world. *)
Definition preserves {A : Type} (Inv : World -> Prop) (m : Cmd A) : Prop :=
  forall w, Inv w -> Inv (snd (m w)).

(** The file of [w] is the file of [w0], written as often. *)
Definition same_file (w0 w : World) : Prop :=
  disk w = disk w0 /\ saves w = saves w0.

(** The world after the lines [l] were printed. *)
Definition prints (l : list string) (w : World) : World :=
  {| disk := disk w; stdout := (stdout w ++ l)%list; saves := saves w |}.

(** The three lines above the buckets of the board. *)
Definition board_head (sprint : option Sprint) : list string :=
  [board_title sprint; str_mul "=" (py_len (board_title sprint)); ""].

(** What [task_edit_vi] reads from the file the editor left for [task]:
    the scan of its lines. *)
Definition vi_read (task : Task) : vi_scan :=
  vi_scan_lines (readlines (editor (vi_template task))).

(** The edited file has no line that is the comment marker. *)
Definition no_marker_line (text : string) : Prop :=
  ~ In COMMENT_MARKER (map rstrip_nl (readlines text)).

(** A date value of the edited file that is not empty and does not
    parse. *)
Definition vi_bad_date (x : option string) : bool := truthy x && bad_date x.

(** The report of the first check of [task_edit_vi] that the values [u]
    fail, in the order status, start, review, end, sprint; [None] when
    they pass them all. *)
Definition vi_reject_msg (u : dict (option string)) (data : Store) : option string :=
  if bad_status (updates_get "status" u) then Some invalid_status_msg
  else if vi_bad_date (updates_get "start_date" u)
  then Some (date_msg (updates_get "start_date" u))
  else if vi_bad_date (updates_get "review_date" u)
  then Some (date_msg (updates_get "review_date" u))
  else if vi_bad_date (updates_get "end_date" u)
  then Some (date_msg (updates_get "end_date" u))
  else if truthy (updates_get "sprint" u) then
    match dict_get (py_or (updates_get "sprint" u) "") (sprints data) with
    | None => Some "Sprint not found"
    | Some sprint => if sprint_closed sprint then Some "Sprint is closed" else None
    end
  else None.

(** The record [task_edit_vi] stores for [task] when the checks pass. *)
Definition vi_result (task : Task) : Task :=
  set_task_comment
    (comment_or_None (py_rstrip (str_join nl (comment_lines (vi_read task)))))
    (vi_apply (updates (vi_read task)) task).

(** The sprints of [w] are the sprints of [w0]. *)
Definition same_sprints (w0 w : World) : Prop :=
  sprints (stored w) = sprints (stored w0).

(** The closed flag of the sprint [k] before and after the command [c]:
    it is what it was, unless [c] closes [k], which was open and is now
    closed. *)
Definition closed_step (c : Command) (k : string) (s s' : Sprint) : Prop :=
  sprint_closed s' = sprint_closed s
  \/ (c = CmdSprintClose k /\ sprint_closed s = false /\ sprint_closed s' = true).

(* ------------------------------------------------------------------ *)
(** ** Vocabulary of the statements about the rest of the script *)
(* ------------------------------------------------------------------ *)

(** The command ends with a bare [return], and the file is the file it
    found. *)
Definition gives_up (m : Cmd unit) (w : World) : Prop :=
  fst (m w) = Returned /\ same_file w (snd (m w)).

(** The record [add_task] builds from its arguments. *)
Definition new_task (args : add_args) : Task :=
  {| task_code := Some (add_code args);
     task_name := Some (add_name args);
     task_start_date := add_start_date args;
     task_review_date := add_review_date args;
     task_end_date := add_end_date args;
     task_status := Some (add_status args);
     task_sprint_code := add_sprint args;
     task_comment := None;
     task_estimated_time := add_estimate args;
     task_actual_time := None |}.

(** The report of the sprint check that [add_task] and [task_edit_vi]
    share: the sprint named by a non-empty value has to be there and
    open. *)
Definition sprint_reject_msg (x : option string) (data : Store) : option string :=
  if truthy x then
    match dict_get (py_or x "") (sprints data) with
    | None => Some "Sprint not found"
    | Some sprint => if sprint_closed sprint then Some "Sprint is closed" else None
    end
  else None.

(** The report of the first check of [add_task] that its arguments fail,
    in the order code, status, start, review, end, sprint; [None] when
    the task is created. *)
Definition add_reject_msg (args : add_args) (data : Store) : option string :=
  if dict_mem (add_code args) (tasks data) then Some "Task already exists"
  else if negb (in_STATUSES (add_status args)) then Some invalid_status_msg
  else if bad_date (add_start_date args) then Some (date_msg (add_start_date args))
  else if bad_date (add_review_date args) then Some (date_msg (add_review_date args))
  else if bad_date (add_end_date args) then Some (date_msg (add_end_date args))
  else sprint_reject_msg (add_sprint args) data.

(** [task_edit] was given a field: a name or a status that is not empty,
    or any of the other five. *)
Definition provided_any (args : edit_args) : bool :=
  truthy (edit_name args) || truthy (edit_status args)
  || is_some (edit_estimate args) || is_some (edit_actual args)
  || is_some (edit_start_date args) || is_some (edit_review_date args)
  || is_some (edit_end_date args).

(** The record after the seven blocks of [task_edit], each assigning its
    field when the argument is there. *)
Definition edit_result (args : edit_args) (task : Task) : Task :=
  let task := if truthy (edit_name args)
              then set_task_name (edit_name args) task else task in
  let task := if truthy (edit_status args)
              then set_task_status (edit_status args) task else task in
  let task := if is_some (edit_estimate args)
              then set_task_estimated_time (edit_estimate args) task else task in
  let task := if is_some (edit_actual args)
              then set_task_actual_time (edit_actual args) task else task in
  let task := if is_some (edit_start_date args)
              then set_task_start_date (edit_start_date args) task else task in
  let task := if is_some (edit_review_date args)
              then set_task_review_date (edit_review_date args) task else task in
  if is_some (edit_end_date args)
  then set_task_end_date (edit_end_date args) task else task.

(** The line [list_tasks] prints for a task. *)
Definition list_line (t : Task) : string :=
  "[" ++ py_fmt (task_status t) ++ "] " ++ py_fmt (task_code t)
  ++ " - " ++ py_fmt (task_name t) ++ " " ++ comment_mark t
  ++ " (sprint: " ++ py_or (task_sprint_code t) "-" ++ ")".

(** The line [sprint_list] prints for a sprint. *)
Definition sprint_line (s : Sprint) : string :=
  sprint_code s ++ " - " ++ sprint_name s ++ " (" ++ sprint_start_date s
  ++ " → " ++ sprint_end_date s ++ ") ["
  ++ (if sprint_closed s then "CLOSED" else "OPEN") ++ "]".

(** A filter of [list_tasks] lets the value [x] of a task through: the
    filter is absent (or empty), or [x] is the string it asks for. *)
Definition passes (filter_arg x : option string) : bool :=
  negb (truthy filter_arg) || eq_str x (py_or filter_arg "").

(** A comment as the two comment-writing commands leave it: absent, or
    a text that is not blank and does not end in a newline. *)
Definition tidy_comment (c : option string) : Prop :=
  match c with
  | None => True
  | Some s => py_strip s <> "" /\ rstrip_nl s = s
  end.

(** The tasks [list_tasks] shows: the tasks of the store, in its order,
    that pass the status filter and the sprint filter. *)
Definition list_selection (args : list_args) (data : Store) : list Task :=
  filter (fun t => passes (list_status args) (task_status t)
                   && passes (list_sprint args) (task_sprint_code t))
    (dict_values (tasks data)).

(** The commands that only show something. *)
Definition is_query (c : Command) : bool :=
  match c with
  | CmdList _ | CmdBoard _ | CmdTaskShow _ | CmdSprintList => true
  | _ => false
  end.

(** [effect c data data']: the command [c], run on the store [data], has
    passed its checks and written [data'].  One rule per command that
    writes. *)
Inductive effect : Command -> Store -> Store -> Prop :=
| effect_add (args : add_args) (data : Store) :
    add_reject_msg args data = None ->
    effect (CmdAdd args) data (with_task (add_code args) (new_task args) data)
| effect_move (code status : string) (task : Task) (data : Store) :
    dict_get code (tasks data) = Some task ->
    In status STATUS_ORDER ->
    effect (CmdMove code status) data
      (with_task code (set_task_status (Some status) task) data)
| effect_edit (args : edit_args) (task : Task) (data : Store) :
    dict_get (edit_code args) (tasks data) = Some task ->
    has_invalid_field args = false ->
    provided_any args = true ->
    effect (CmdTaskEdit args) data
      (with_task (edit_code args) (edit_result args task) data)
| effect_vi (code : string) (task : Task) (data : Store) :
    dict_get code (tasks data) = Some task ->
    vi_reject_msg (updates (vi_read task)) data = None ->
    effect (CmdTaskVi code) data (with_task code (vi_result task) data)
| effect_comment (code : string) (task : Task) (data : Store) :
    dict_get code (tasks data) = Some task ->
    effect (CmdTaskComment code) data
      (with_task code
         (set_task_comment
            (comment_or_None (rstrip_nl (editor (py_or (task_comment task) ""))))
            task)
         data)
| effect_sprint_add (args : sprint_add_args) (data : Store) :
    dict_get (sadd_code args) (sprints data) = None ->
    effect (CmdSprintAdd args) data
      (with_sprint (sadd_code args)
         (mkSprint (sadd_code args) (sadd_name args) (sadd_start_date args)
            (sadd_end_date args) false)
         data)
| effect_sprint_close (code : string) (sprint : Sprint) (data : Store) :
    dict_get code (sprints data) = Some sprint ->
    sprint_closed sprint = false ->
    effect (CmdSprintClose code) data
      {| tasks := map (fun kt => (fst kt, close_task code (snd kt))) (tasks data);
         sprints := dict_set code (set_sprint_closed true sprint) (sprints data) |}.

(** Every task of the store has a status of the enum. *)
Definition statuses_ok (data : Store) : Prop :=
  valid_statuses (dict_values (tasks data)).

(** Every task of the store that names a sprint names a sprint of the
    store. *)
Definition sprint_refs_ok (data : Store) : Prop :=
  Forall (fun t => forall name, task_sprint_code t = Some name -> name <> "" ->
                                dict_mem name (sprints data) = true)
    (dict_values (tasks data)).

(** A line of the edited file that the scan of the field section skips:
    empty, a comment, or without "=". *)
Definition noise_line (line : string) : Prop :=
  rstrip_nl line = ""
  \/ startswith "#" (rstrip_nl line) = true
  \/ split_once "=" (rstrip_nl line) = None.

(** The lines of the comment section that are kept: all but the lines
    that are the marker again. *)
Definition kept_comment_lines (lines : list string) : list string :=
  filter (fun l => negb (l =? COMMENT_MARKER)) (map rstrip_nl lines).






(** What the scan stores for the text [v] after a key. *)
Definition scanned_value (v : string) : option string :=
  if py_strip v =? "" then None else Some (py_strip v).




(** The keys of the task dictionary with the field each one names,
    [sprint_code] and [comment] apart. *)
Definition plain_fields : list (string * (Task -> option string)) :=
  [("code", task_code); ("name", task_name); ("start_date", task_start_date);
   ("review_date", task_review_date); ("end_date", task_end_date);
   ("status", task_status); ("estimated_time", task_estimated_time);
   ("actual_time", task_actual_time)].

(** One turn of the loop [for k, v in updates.items()]. *)
Definition vi_assign (task : Task) (kv : string * option string) : Task :=
  if fst kv =? "sprint" then set_task_sprint_code (snd kv) task
  else if task_has_key (fst kv) then task_setitem (fst kv) (snd kv) task
  else task.
(* ------------------------------------------------------------------ *)
(** ** Dictionaries *)
(* ------------------------------------------------------------------ *)

Lemma dict_get_set_eq {V : Type} (k : string) (v : V) (d : dict V) :
  dict_get k (dict_set k v d) = Some v.
Proof.
  induction d as [|[k' v'] d IH]; simpl.
  - now rewrite String.eqb_refl.
  - destruct (k' =? k) eqn:E; simpl; rewrite E; auto.
Qed.

Lemma dict_get_set_neq {V : Type} (k k' : string) (v : V) (d : dict V) :
  k <> k' -> dict_get k' (dict_set k v d) = dict_get k' d.
Proof.
  intros Hne. induction d as [|[k0 v0] d IH]; simpl.
  - destruct (k =? k') eqn:E; auto. apply String.eqb_eq in E. contradiction.
  - destruct (k0 =? k) eqn:E; simpl.
    + apply String.eqb_eq in E. subst k0.
      destruct (k =? k') eqn:E'; auto. apply String.eqb_eq in E'. contradiction.
    + now rewrite IH.
Qed.

Lemma dict_keys_set_present {V : Type} (k : string) (v v0 : V) (d : dict V) :
  dict_get k d = Some v0 -> dict_keys (dict_set k v d) = dict_keys d.
Proof.
  induction d as [|[k' v'] d IH]; simpl; [discriminate|].
  destruct (k' =? k) eqn:E; simpl; auto.
  intros H. now rewrite IH.
Qed.

Lemma dict_mem_get {V : Type} (k : string) (d : dict V) :
  dict_mem k d = true <-> exists v, dict_get k d = Some v.
Proof.
  unfold dict_mem. destruct (dict_get k d).
  - split; eauto.
  - split; [discriminate | intros [v H]; discriminate].
Qed.

Lemma in_STATUSES_In (s : string) : in_STATUSES s = true <-> In s STATUS_ORDER.
Proof.
  unfold in_STATUSES. rewrite existsb_exists. split.
  - intros [x [Hin Heq]]. apply String.eqb_eq in Heq. now subst.
  - intros H. exists s. split; auto. apply String.eqb_refl.
Qed.

Lemma in_STATUSES_not_In (s : string) : in_STATUSES s = false <-> ~ In s STATUS_ORDER.
Proof.
  rewrite <- in_STATUSES_In. destruct (in_STATUSES s); split; congruence.
Qed.

(* ------------------------------------------------------------------ *)
(** ** move *)
(* ------------------------------------------------------------------ *)

Lemma validate_status_valid (s : string) (w : World) :
  In s STATUS_ORDER -> validate_status (Some s) w = (Value true, w).
Proof.
  intros H. apply in_STATUSES_In in H. unfold validate_status. now rewrite H.
Qed.

Lemma validate_status_invalid (s : string) (w : World) :
  ~ In s STATUS_ORDER ->
  validate_status (Some s) w = (Value false, printed invalid_status_msg w).
Proof.
  intros H. apply in_STATUSES_not_In in H. unfold validate_status. now rewrite H.
Qed.

(** C5: for an existing task and a status of the enum, [move_task] stores
    the task with the new status (whatever the old one was, and without
    looking at its sprint), saves once and prints the transition
    "old → new"; every other task and every sprint is kept.  For an absent
    task or a status outside the enum it prints why and returns, and the
    file is not written. *)
Theorem move_task_spec (w : World) (code status : string) :
  (forall task,
      dict_get code (tasks (stored w)) = Some task ->
      In status STATUS_ORDER ->
      saves_as (move_task code status) w
        (with_task code (set_task_status (Some status) task) (stored w))
        ["Task '" ++ code ++ "' moved: " ++ py_fmt (task_status task) ++ " → " ++ status]
      /\ dict_get code (tasks (with_task code (set_task_status (Some status) task) (stored w)))
         = Some (set_task_status (Some status) task)
      /\ (forall k, k <> code ->
            dict_get k (tasks (with_task code (set_task_status (Some status) task) (stored w)))
            = dict_get k (tasks (stored w))))
  /\ (dict_get code (tasks (stored w)) = None ->
      fails_with (move_task code status) w "Task not found")
  /\ (forall task,
      dict_get code (tasks (stored w)) = Some task ->
      ~ In status STATUS_ORDER ->
      fails_with (move_task code status) w invalid_status_msg).
Proof.
  split; [|split].
  - intros task Hget Hin. split; [|split].
    + unfold saves_as, move_task, bind, load_data, check. rewrite Hget.
      unfold bind. rewrite (validate_status_valid _ _ Hin). simpl.
      eexists. split; [reflexivity|]. simpl. auto.
    + simpl. apply dict_get_set_eq.
    + intros k Hk. simpl. now apply dict_get_set_neq.
  - intros Hget. unfold fails_with, move_task, bind, load_data. rewrite Hget.
    simpl. eexists. split; [reflexivity|]. simpl. auto.
  - intros task Hget Hout.
    unfold fails_with, move_task, bind, load_data, check. rewrite Hget.
    unfold bind. rewrite (validate_status_invalid _ _ Hout). simpl.
    eexists. split; [reflexivity|]. simpl. auto.
Qed.

(* ------------------------------------------------------------------ *)
(** ** add *)
(* ------------------------------------------------------------------ *)

(** C7: when the store holds a task under the code given to [add_task],
    the command prints "Task already exists" and returns before any
    validation: the file is not written, and the record under that code,
    like the whole store, is what it was. *)
Theorem add_task_duplicate (w : World) (args : add_args) (task : Task) :
  dict_get (add_code args) (tasks (stored w)) = Some task ->
  fails_with (add_task args) w "Task already exists"
  /\ stored (snd (add_task args w)) = stored w
  /\ dict_get (add_code args) (tasks (stored (snd (add_task args w))))
     = Some task.
Proof.
  intros Hget.
  assert (Hrun : add_task args w = (Returned, printed "Task already exists" w)).
  { unfold add_task, bind, load_data, dict_mem. rewrite Hget. reflexivity. }
  split; [|split].
  - exists (printed "Task already exists" w). rewrite Hrun. simpl. auto.
  - rewrite Hrun. reflexivity.
  - rewrite Hrun. exact Hget.
Qed.

(* ------------------------------------------------------------------ *)
(** ** task edit *)
(* ------------------------------------------------------------------ *)

Lemma edit_step_skip (v : Cmd bool) (a : Task -> Task) (st : Task * bool) (w : World) :
  edit_step false v a st w = (Value st, w).
Proof. reflexivity. Qed.

Lemma edit_step_ok (v : Cmd bool) (a : Task -> Task) (st : Task * bool) (w : World) :
  v w = (Value true, w) ->
  edit_step true v a st w = (Value (a (fst st), true), w).
Proof. intros H. unfold edit_step, check, bind. now rewrite H. Qed.

Lemma edit_step_bad (v : Cmd bool) (a : Task -> Task) (st : Task * bool) (w w' : World) :
  v w = (Value false, w') ->
  edit_step true v a st w = (Returned, w').
Proof. intros H. unfold edit_step, check, bind. now rewrite H. Qed.

(** A block of [task_edit] either goes on in the same world or returns
    after one message; it never writes the file. *)
Lemma edit_step_cases (p : bool) (v : Cmd bool) (a : Task -> Task)
    (st : Task * bool) (w : World) (bad : bool) (msg : string) :
  (p = true -> v w = if bad then (Value false, printed msg w) else (Value true, w)) ->
  edit_step p v a st w =
    if p && bad then (Returned, printed msg w)
    else (Value (if p then (a (fst st), true) else st), w).
Proof.
  intros Hv. destruct p; simpl; [|reflexivity].
  specialize (Hv eq_refl). destruct bad.
  - now apply edit_step_bad.
  - now apply edit_step_ok.
Qed.

Lemma validate_date_run (x : option string) (w : World) :
  validate_date x w =
    if bad_date x then (Value false, printed (date_msg x) w) else (Value true, w).
Proof.
  destruct x as [s|]; simpl; [|reflexivity].
  unfold bad_date. destruct (strptime_Ymd s); reflexivity.
Qed.

Lemma validate_status_run (x : option string) (w : World) :
  truthy x = true ->
  validate_status x w =
    if bad_status x then (Value false, printed invalid_status_msg w) else (Value true, w).
Proof.
  intros Ht. unfold validate_status, bad_status. rewrite Ht.
  destruct (match x with Some s => in_STATUSES s | None => false end); reflexivity.
Qed.

Lemma validate_time_value_run (x : option string) (w : World) :
  validate_time_value x w = (Value true, w).
Proof. destruct x; reflexivity. Qed.

(** One block of [task_edit] in a proof: rewrite the first [bind] with
    [edit_step_cases] for the given invalidity test and message. *)
Ltac edit_block bad msg :=
  unfold bind at 1;
  rewrite (edit_step_cases _ _ _ _ _ bad msg);
  [ | intros Hp; first [ reflexivity
                       | apply validate_time_value_run
                       | apply validate_date_run
                       | apply (validate_status_run _ _ Hp) ] ].

(** C3: when one of the fields given to [task_edit] is invalid, the
    command prints the message of the first invalid one (fields are
    looked at in the order name, status, estimate, actual, start, review,
    end) and returns: the file is not written, so the stored record is
    what it was, whatever valid fields came with the invalid one. *)
Theorem task_edit_all_or_nothing (w : World) (args : edit_args) (task : Task) :
  dict_get (edit_code args) (tasks (stored w)) = Some task ->
  has_invalid_field args = true ->
  fails_with (task_edit args) w (first_invalid_msg args)
  /\ stored (snd (task_edit args w)) = stored w
  /\ dict_get (edit_code args) (tasks (stored (snd (task_edit args w)))) = Some task.
Proof.
  intros Hget Hbad.
  assert (Hrun : task_edit args w = (Returned, printed (first_invalid_msg args) w)).
  { unfold task_edit. unfold bind at 1. unfold load_data. rewrite Hget.
    unfold has_invalid_field in Hbad. unfold first_invalid_msg.
    edit_block false "". rewrite andb_false_r.
    edit_block (bad_status (edit_status args)) invalid_status_msg.
    destruct (bad_status (edit_status args)) eqn:Est.
    { unfold bad_status in Est. apply andb_prop in Est. destruct Est as [Et _].
      rewrite Et. reflexivity. }
    rewrite andb_false_r.
    edit_block false "". rewrite andb_false_r.
    edit_block false "". rewrite andb_false_r.
    edit_block (bad_date (edit_start_date args)) (date_msg (edit_start_date args)).
    destruct (bad_date (edit_start_date args)) eqn:Es.
    { destruct (edit_start_date args); [reflexivity | discriminate]. }
    rewrite andb_false_r.
    edit_block (bad_date (edit_review_date args)) (date_msg (edit_review_date args)).
    destruct (bad_date (edit_review_date args)) eqn:Er.
    { destruct (edit_review_date args); [reflexivity | discriminate]. }
    rewrite andb_false_r.
    edit_block (bad_date (edit_end_date args)) (date_msg (edit_end_date args)).
    destruct (bad_date (edit_end_date args)) eqn:Ee.
    { destruct (edit_end_date args); [reflexivity | discriminate]. }
    discriminate. }
  split; [|split].
  - exists (printed (first_invalid_msg args) w). rewrite Hrun. simpl. auto.
  - rewrite Hrun. reflexivity.
  - rewrite Hrun. exact Hget.
Qed.

(* ------------------------------------------------------------------ *)
(** ** sprint close *)
(* ------------------------------------------------------------------ *)

Lemma eq_str_true (x : option string) (s : string) :
  eq_str x s = true <-> x = Some s.
Proof.
  destruct x as [v|]; simpl.
  - rewrite String.eqb_eq. split; congruence.
  - split; discriminate.
Qed.

Lemma unfinished_in_true (code : string) (t : Task) :
  unfinished_in code t = true <->
  task_sprint_code t = Some code /\ task_status t <> Some "DONE".
Proof.
  unfold unfinished_in. rewrite andb_true_iff, negb_true_iff, eq_str_true.
  split; intros [H1 H2]; split; auto.
  - intros H. apply eq_str_true in H. congruence.
  - destruct (eq_str (task_status t) "DONE") eqn:E; auto.
    apply eq_str_true in E. contradiction.
Qed.

Lemma close_loop_moved (code : string) (ts : dict Task) (moved : nat) :
  snd (close_loop code ts moved)
  = moved + List.length (filter (unfinished_in code) (dict_values ts)).
Proof.
  revert moved. induction ts as [|[k t] ts IH]; intros moved; simpl.
  - lia.
  - fold (unfinished_in code t). destruct (unfinished_in code t).
    + specialize (IH (S moved)). destruct (close_loop code ts (S moved)). simpl in *. lia.
    + specialize (IH moved). destruct (close_loop code ts moved). simpl in *. lia.
Qed.

Lemma close_loop_tasks (code : string) (ts : dict Task) (moved : nat) :
  fst (close_loop code ts moved)
  = map (fun kt => (fst kt, close_task code (snd kt))) ts.
Proof.
  revert moved. induction ts as [|[k t] ts IH]; intros moved; simpl.
  - reflexivity.
  - unfold close_task at 1. simpl.
    fold (unfinished_in code t). destruct (unfinished_in code t).
    + specialize (IH (S moved)). destruct (close_loop code ts (S moved)).
      simpl in *. now rewrite IH.
    + specialize (IH moved). destruct (close_loop code ts moved).
      simpl in *. now rewrite IH.
Qed.

Lemma dict_get_map {V : Type} (f : V -> V) (k : string) (d : dict V) :
  dict_get k (map (fun kv => (fst kv, f (snd kv))) d) = option_map f (dict_get k d).
Proof.
  induction d as [|[k' v] d IH]; simpl; [reflexivity|].
  destruct (k' =? k); auto.
Qed.

Lemma dict_keys_map {V : Type} (f : V -> V) (d : dict V) :
  dict_keys (map (fun kv => (fst kv, f (snd kv))) d) = dict_keys d.
Proof.
  unfold dict_keys. rewrite map_map. reflexivity.
Qed.

(** What [sprint_close] does on an open sprint, as one equation. *)
Lemma sprint_close_run (w : World) (code : string) (sprint : Sprint) :
  dict_get code (sprints (stored w)) = Some sprint ->
  sprint_closed sprint = false ->
  sprint_close code w =
    (Value tt,
     printed (py_fmt_nat (snd (close_loop code (tasks (stored w)) 0))
              ++ " unfinished tasks moved back to backlog")
       (printed ("Sprint '" ++ code ++ "' closed")
          (saved {| tasks := fst (close_loop code (tasks (stored w)) 0);
                    sprints := dict_set code (set_sprint_closed true sprint)
                                 (sprints (stored w)) |} w))).
Proof.
  intros Hget Hopen. unfold sprint_close, bind, load_data. rewrite Hget, Hopen.
  simpl. destruct (close_loop code (tasks (stored w)) 0). reflexivity.
Qed.

(** C1: closing an existing open sprint saves, once, a store in which
    - the tasks are the same codes in the same order;
    - a task of that sprint that is not done has lost its sprint
      ([sprint_code] is [None]) and nothing else;
    - every other task, a done task of that sprint among them, is the
      record it was;
    - the sprint is closed, the other sprints are what they were;
    and the report counts the tasks sent back to the backlog. *)
Theorem sprint_close_cascade (w : World) (code : string) (sprint : Sprint) :
  dict_get code (sprints (stored w)) = Some sprint ->
  sprint_closed sprint = false ->
  exists data',
    saves_as (sprint_close code) w data'
      ["Sprint '" ++ code ++ "' closed";
       py_fmt_nat (List.length (filter (unfinished_in code) (dict_values (tasks (stored w)))))
       ++ " unfinished tasks moved back to backlog"]
    /\ dict_keys (tasks data') = dict_keys (tasks (stored w))
    /\ (forall k t, dict_get k (tasks (stored w)) = Some t ->
          task_sprint_code t = Some code -> task_status t <> Some "DONE" ->
          dict_get k (tasks data') = Some (set_task_sprint_code None t))
    /\ (forall k t, dict_get k (tasks (stored w)) = Some t ->
          task_sprint_code t <> Some code \/ task_status t = Some "DONE" ->
          dict_get k (tasks data') = Some t)
    /\ (forall k, dict_get k (tasks (stored w)) = None -> dict_get k (tasks data') = None)
    /\ dict_get code (sprints data') = Some (set_sprint_closed true sprint)
    /\ sprint_closed (set_sprint_closed true sprint) = true
    /\ (forall k, k <> code -> dict_get k (sprints data') = dict_get k (sprints (stored w))).
Proof.
  intros Hget Hopen.
  exists {| tasks := fst (close_loop code (tasks (stored w)) 0);
            sprints := dict_set code (set_sprint_closed true sprint) (sprints (stored w)) |}.
  split.
  { eexists. split; [apply (sprint_close_run _ _ _ Hget Hopen)|].
    simpl. rewrite close_loop_moved. simpl. rewrite <- app_assoc. auto. }
  simpl. rewrite close_loop_tasks.
  split; [apply (dict_keys_map (close_task code))|].
  split.
  { intros k t Hk Hs Hd.
    rewrite (dict_get_map (close_task code)), Hk.
    simpl. unfold close_task.
    now rewrite (proj2 (unfinished_in_true code t) (conj Hs Hd)). }
  split.
  { intros k t Hk Hor.
    rewrite (dict_get_map (close_task code)), Hk.
    simpl. unfold close_task. destruct (unfinished_in code t) eqn:E; [|reflexivity].
    apply unfinished_in_true in E. destruct E as [E1 E2]. destruct Hor; contradiction. }
  split.
  { intros k Hk.
    rewrite (dict_get_map (close_task code)), Hk.
    reflexivity. }
  split; [apply dict_get_set_eq|].
  split; [reflexivity|].
  intros k Hk. now apply dict_get_set_neq.
Qed.

(* ------------------------------------------------------------------ *)
(** ** Properties of the world that a command keeps *)
(* ------------------------------------------------------------------ *)

Section Preserves.

Variable Inv : World -> Prop.
Hypothesis Inv_printed : forall s w, Inv w -> Inv (printed s w).

Lemma preserves_ret {A : Type} (a : A) : preserves Inv (ret a).
Proof. intros w H. exact H. Qed.

Lemma preserves_return {A : Type} : preserves Inv (@return_ A).
Proof. intros w H. exact H. Qed.

Lemma preserves_raise {A : Type} (e : string) : preserves Inv (@raise A e).
Proof. intros w H. exact H. Qed.

Lemma preserves_print (s : string) : preserves Inv (print s).
Proof. intros w H. now apply Inv_printed. Qed.

Lemma preserves_load : preserves Inv load_data.
Proof. intros w H. exact H. Qed.

Lemma preserves_bind {A B : Type} (m : Cmd A) (f : A -> Cmd B) :
  preserves Inv m -> (forall a, preserves Inv (f a)) -> preserves Inv (bind m f).
Proof.
  intros Hm Hf w Hw. unfold bind. specialize (Hm w Hw).
  destruct (m w) as [[a| |e] w']; simpl in *; auto. now apply Hf.
Qed.

Lemma preserves_check (m : Cmd bool) : preserves Inv m -> preserves Inv (check m).
Proof.
  intros Hm. apply preserves_bind; auto.
  intros [|]; [apply preserves_ret | apply preserves_return].
Qed.

Lemma preserves_for_each {A : Type} (l : list A) (body : A -> Cmd unit) :
  (forall x, preserves Inv (body x)) -> preserves Inv (for_each l body).
Proof.
  intros Hb. induction l as [|x l IH]; simpl.
  - apply preserves_ret.
  - apply preserves_bind; auto.
Qed.

Lemma preserves_if_truthy {A : Type} (x : option string)
    (body : string -> Cmd A) (otherwise : Cmd A) :
  (forall s, preserves Inv (body s)) -> preserves Inv otherwise ->
  preserves Inv (if_truthy x body otherwise).
Proof.
  intros Hb Ho. unfold if_truthy. destruct x as [s|]; auto.
  destruct (s =? ""); auto.
Qed.

Lemma preserves_getitem {V : Type} (k : string) (d : dict V) :
  preserves Inv (dict_getitem k d).
Proof.
  unfold dict_getitem. destruct (dict_get k d);
    [apply preserves_ret | apply preserves_raise].
Qed.

Lemma preserves_validate_status (x : option string) : preserves Inv (validate_status x).
Proof.
  unfold validate_status.
  destruct (negb (match x with Some s => in_STATUSES s | None => false end)).
  - apply preserves_bind; [apply preserves_print | intros; apply preserves_ret].
  - apply preserves_ret.
Qed.

Lemma preserves_validate_date (x : option string) : preserves Inv (validate_date x).
Proof.
  unfold validate_date. destruct x as [s|]; [|apply preserves_ret].
  destruct (strptime_Ymd s); [apply preserves_ret|].
  apply preserves_bind; [apply preserves_print | intros; apply preserves_ret].
Qed.

Lemma preserves_validate_time_value (x : option string) :
  preserves Inv (validate_time_value x).
Proof. destruct x; apply preserves_ret. Qed.

Lemma preserves_group_tasks (ts : list Task) (g : dict (list Task)) :
  preserves Inv (group_tasks ts g).
Proof.
  revert g. induction ts as [|t ts IH]; intros g; simpl.
  - apply preserves_ret.
  - destruct (task_status t); [|apply preserves_raise].
    apply preserves_bind; [apply preserves_getitem | intros; apply IH].
Qed.

Lemma preserves_save (d : Store) :
  (forall w, Inv w -> Inv (saved d w)) -> preserves Inv (save_data d).
Proof. intros H w Hw. now apply H. Qed.

Lemma preserves_edit_step (p : bool) (v : Cmd bool) (a : Task -> Task)
    (st : Task * bool) :
  preserves Inv v -> preserves Inv (edit_step p v a st).
Proof.
  intros Hv. unfold edit_step. destruct p; [|apply preserves_ret].
  apply preserves_bind; [now apply preserves_check | intros; apply preserves_ret].
Qed.

End Preserves.

(** A step of a proof that a command keeps a property: take the command
    apart along its binds and branches. *)
Ltac preserves_step :=
  first
    [ apply preserves_ret | apply preserves_return | apply preserves_raise
    | apply preserves_print
    | apply preserves_load
    | apply preserves_getitem
    | apply preserves_validate_status
    | apply preserves_validate_date
    | apply preserves_validate_time_value
    | apply preserves_group_tasks
    | apply preserves_save
    | apply preserves_edit_step
    | apply preserves_check
    | apply preserves_for_each
    | apply preserves_if_truthy
    | apply preserves_bind ];
  try assumption;
  repeat match goal with |- forall _, _ => intro end.

Ltac preserves_tac :=
  repeat first
    [ match goal with H : forall _, preserves _ _ |- _ => apply H end
    | preserves_step
    | match goal with
      | |- preserves _ (match ?x with _ => _ end) => destruct x
      | |- preserves _ (if ?x then _ else _) => destruct x
      | |- preserves _ (let (_, _) := ?x in _) => destruct x
      end ].

(* ------------------------------------------------------------------ *)
(** ** board *)
(* ------------------------------------------------------------------ *)

Lemma same_file_printed (w0 : World) (s : string) (w : World) :
  same_file w0 w -> same_file w0 (printed s w).
Proof. intros [H1 H2]. split; assumption. Qed.

Lemma board_scope_read_only (w0 : World) (args : board_args) (data : Store) :
  preserves (same_file w0) (board_scope args data).
Proof.
  pose proof (same_file_printed w0) as Hp.
  unfold board_scope. preserves_tac.
Qed.

Lemma board_tasks_read_only (w0 : World) (args : board_args) :
  preserves (same_file w0) (board_tasks args).
Proof.
  pose proof (same_file_printed w0) as Hp.
  pose proof (board_scope_read_only w0 args) as Hs.
  unfold board_tasks. preserves_tac.
Qed.

Lemma prints_nil (w : World) : prints [] w = w.
Proof. destruct w. unfold prints. simpl. now rewrite app_nil_r. Qed.

Lemma prints_printed (l : list string) (s : string) (w : World) :
  printed s (prints l w) = prints (l ++ [s]) w.
Proof. unfold printed, prints. simpl. now rewrite app_assoc. Qed.

Lemma prints_prints (l1 l2 : list string) (w : World) :
  prints l2 (prints l1 w) = prints (l1 ++ l2) w.
Proof. unfold prints. simpl. now rewrite app_assoc. Qed.

Lemma printed_prints (s : string) (w : World) : printed s w = prints [s] w.
Proof. reflexivity. Qed.

Lemma for_each_print {A : Type} (f : A -> string) (l : list A) (w : World) :
  for_each l (fun x => print (f x)) w = (Value tt, prints (map f l) w).
Proof.
  revert w. induction l as [|x l IH]; intros w; simpl.
  - now rewrite prints_nil.
  - unfold bind. simpl. rewrite IH. now rewrite printed_prints, prints_prints.
Qed.

Lemma dict_get_in_keys {V : Type} (k : string) (d : dict V) :
  In k (dict_keys d) -> exists v, dict_get k d = Some v.
Proof.
  induction d as [|[k' v] d IH]; simpl; [contradiction|].
  intros [H|H].
  - subst. rewrite String.eqb_refl. eauto.
  - destruct (k' =? k); eauto.
Qed.

(** The grouping loop, on tasks whose statuses are in the enum, ends
    without a [KeyError] and adds to every bucket the tasks of its status,
    in their order. *)
Lemma group_tasks_spec (ts : list Task) :
  valid_statuses ts ->
  forall (g : dict (list Task)) (w : World),
    dict_keys g = STATUS_ORDER ->
    exists g',
      group_tasks ts g w = (Value g', w)
      /\ dict_keys g' = STATUS_ORDER
      /\ forall s, dict_get s g'
           = option_map (fun b => b ++ filter (fun t => eq_str (task_status t) s) ts)%list
               (dict_get s g).
Proof.
  induction 1 as [|t ts [s0 [Hst Hin]] Hts IH]; intros g w Hk.
  - exists g. simpl. repeat split; auto.
    intros s. destruct (dict_get s g); simpl; [now rewrite app_nil_r | reflexivity].
  - simpl. rewrite Hst.
    destruct (dict_get_in_keys s0 g) as [b Hb]; [now rewrite Hk|].
    unfold bind, dict_getitem. rewrite Hb. simpl.
    destruct (IH (dict_set s0 (b ++ [t])%list g) w) as [g' [Hrun [Hk' Hg']]].
    { rewrite (dict_keys_set_present _ _ b); auto. }
    exists g'. repeat split; auto.
    intros s. rewrite Hg'. destruct (String.eqb_spec s0 s) as [->|Hne].
    + rewrite dict_get_set_eq, Hb. simpl. now rewrite <- app_assoc.
    + now rewrite dict_get_set_neq by assumption.
Qed.

(** The body of the loop over [STATUS_ORDER] in [board_tasks], for a
    status whose bucket holds the tasks of that status. *)
Lemma board_bucket_run (status : string) (ts : list Task)
    (g : dict (list Task)) (w : World) :
  dict_get status g = Some (filter (fun t => eq_str (task_status t) status) ts) ->
  (print status ;;
   print (str_mul "-" (py_len status)) ;;
   bucket <- dict_getitem status g ;;
   match bucket with
   | [] => print "(no tasks)"
   | _ => for_each bucket (fun t => print (board_line t))
   end ;;
   print "") w
  = (Value tt, prints (bucket_lines status ts) w).
Proof.
  intros Hg. unfold bind, dict_getitem, bucket_lines. rewrite Hg. simpl.
  destruct (filter (fun t => eq_str (task_status t) status) ts) as [|t b].
  - unfold print, printed, prints. simpl. now rewrite <- !app_assoc.
  - rewrite for_each_print. unfold print, printed, prints. simpl.
    now rewrite <- !app_assoc.
Qed.

(** The scopes that select tasks without a condition on the sprints:
    every task when neither --current nor --sprint is given, the tasks of
    a sprint of the store when it is named. *)
Lemma board_scope_all (args : board_args) (data : Store) (w : World) :
  board_current args = false -> truthy (board_sprint args) = false ->
  board_scope args data w = (Value (None, dict_values (tasks data)), w).
Proof.
  intros Hc Hs. unfold board_scope, if_truthy. rewrite Hc.
  destruct (board_sprint args) as [name|]; [|reflexivity].
  simpl in Hs. apply negb_false_iff in Hs. now rewrite Hs.
Qed.

Lemma board_scope_sprint (args : board_args) (data : Store) (w : World)
    (name : string) (sprint : Sprint) :
  board_current args = false -> board_sprint args = Some name -> name <> "" ->
  dict_get name (sprints data) = Some sprint ->
  board_scope args data w
  = (Value (Some sprint,
            filter (fun t => eq_str (task_sprint_code t) name)
              (dict_values (tasks data))), w).
Proof.
  intros Hc Hs Hne Hget. unfold board_scope, if_truthy. rewrite Hc, Hs.
  apply String.eqb_neq in Hne. now rewrite Hne, Hget.
Qed.

Lemma board_tasks_run (w : World) (args : board_args)
    (sprint : option Sprint) (ts : list Task) :
  board_scope args (stored w) w = (Value (sprint, ts), w) ->
  valid_statuses ts ->
  board_tasks args w
  = (Value tt,
     prints (board_head sprint
             ++ bucket_lines "TODO" ts ++ bucket_lines "IN_PROGRESS" ts
             ++ bucket_lines "REVIEW" ts ++ bucket_lines "TESTING_DEPLOYMENT" ts
             ++ bucket_lines "DONE" ts) w).
Proof.
  intros Hscope Hvalid.
  unfold board_tasks. unfold bind at 1. unfold load_data.
  unfold bind at 1. rewrite Hscope.
  destruct (group_tasks_spec ts Hvalid (map (fun s => (s, [])) STATUS_ORDER) w eq_refl)
    as [g [Hrun [_ Hg]]].
  unfold bind at 1. rewrite Hrun.
  assert (Hb : forall s, In s STATUS_ORDER ->
            dict_get s g = Some (filter (fun t => eq_str (task_status t) s) ts)).
  { intros s Hin. rewrite Hg.
    simpl in Hin.
    destruct Hin as [<-|[<-|[<-|[<-|[<-|[]]]]]]; reflexivity. }
  unfold bind at 1. unfold print at 1.
  unfold bind at 1. unfold print at 1.
  unfold bind at 1. unfold print at 1.
  rewrite !printed_prints, !prints_prints.
  unfold STATUS_ORDER at 1. unfold for_each.
  unfold bind at 1. rewrite (board_bucket_run "TODO" ts); [|apply Hb; simpl; tauto].
  unfold bind at 1. rewrite (board_bucket_run "IN_PROGRESS" ts); [|apply Hb; simpl; tauto].
  unfold bind at 1. rewrite (board_bucket_run "REVIEW" ts); [|apply Hb; simpl; tauto].
  unfold bind at 1.
  rewrite (board_bucket_run "TESTING_DEPLOYMENT" ts); [|apply Hb; simpl; tauto].
  unfold bind at 1. rewrite (board_bucket_run "DONE" ts); [|apply Hb; simpl; tauto].
  unfold ret. rewrite !prints_prints. unfold board_head.
  rewrite <- !app_assoc. reflexivity.
Qed.

(** C8: the board never writes the file, whatever the store and the
    scope.  When the scope selects the tasks [ts] (their statuses in the
    enum, as the data model has them), the board prints its head and then
    the five buckets TODO, IN_PROGRESS, REVIEW, TESTING_DEPLOYMENT, DONE in
    that order, each with the selected tasks of that status; a bucket
    with no task, and so every bucket of an empty selection, shows
    "(no tasks)". *)
Theorem board_tasks_projection (w : World) (args : board_args) :
  same_file w (snd (board_tasks args w))
  /\ (forall sprint ts,
        board_scope args (stored w) w = (Value (sprint, ts), w) ->
        valid_statuses ts ->
        exists w',
          board_tasks args w = (Value tt, w')
          /\ stdout w'
             = (stdout w ++ board_head sprint
                ++ bucket_lines "TODO" ts ++ bucket_lines "IN_PROGRESS" ts
                ++ bucket_lines "REVIEW" ts ++ bucket_lines "TESTING_DEPLOYMENT" ts
                ++ bucket_lines "DONE" ts)%list)
  /\ (forall status ts,
        filter (fun t => eq_str (task_status t) status) ts = [] ->
        bucket_lines status ts
        = [status; str_mul "-" (py_len status); "(no tasks)"; ""])
  /\ (forall status t ts,
        In t ts -> task_status t = Some status ->
        In (board_line t) (bucket_lines status ts)).
Proof.
  split; [|split; [|split]].
  - apply board_tasks_read_only. split; reflexivity.
  - intros sprint ts Hscope Hvalid. eexists. split.
    + apply (board_tasks_run _ _ _ _ Hscope Hvalid).
    + reflexivity.
  - intros status ts Hnone. unfold bucket_lines. now rewrite Hnone.
  - intros status t ts Hin Hst. unfold bucket_lines.
    assert (Hf : In t (filter (fun t => eq_str (task_status t) status) ts)).
    { apply filter_In. split; auto. now apply eq_str_true. }
    apply in_or_app. right. apply in_or_app. left.
    destruct (filter (fun t => eq_str (task_status t) status) ts) as [|t0 b];
      [contradiction|].
    exact (in_map board_line _ _ Hf).
Qed.

(** C9: the [current] scope wants exactly one open sprint.  With none the
    board prints "No active sprint found" and returns, with two or more
    it prints "More than one active sprint found" and returns; the two
    reports differ and the file is not written.  With exactly one, the
    scope is that sprint and the tasks whose [sprint_code] is its code. *)
Theorem board_current_scope (w : World) (args : board_args) :
  board_current args = true ->
  (List.length (get_open_sprints (stored w)) = 0 ->
     fails_with (board_tasks args) w "No active sprint found")
  /\ (2 <= List.length (get_open_sprints (stored w)) ->
     fails_with (board_tasks args) w "More than one active sprint found")
  /\ (forall sprint, get_open_sprints (stored w) = [sprint] ->
     board_scope args (stored w) w
     = (Value (Some sprint,
               filter (fun t => eq_str (task_sprint_code t) (sprint_code sprint))
                 (dict_values (tasks (stored w)))), w))
  /\ "No active sprint found" <> "More than one active sprint found".
Proof.
  intros Hcur. repeat split.
  - intros Hlen. unfold fails_with, board_tasks, bind, load_data, board_scope.
    rewrite Hcur. destruct (get_open_sprints (stored w)); [|discriminate].
    simpl. eexists. split; [reflexivity|]. simpl. auto.
  - intros Hlen. unfold fails_with, board_tasks, bind, load_data, board_scope.
    rewrite Hcur. destruct (get_open_sprints (stored w)) as [|s1 [|s2 rest]];
      simpl in Hlen; try lia.
    simpl. eexists. split; [reflexivity|]. simpl. auto.
  - intros sprint Hone. unfold board_scope. rewrite Hcur, Hone. reflexivity.
  - discriminate.
Qed.

(* ------------------------------------------------------------------ *)
(** ** task vi *)
(* ------------------------------------------------------------------ *)

(** One guarded check of [task_edit_vi]. *)
Lemma vi_check_run (x : option string) (v : Cmd bool) (bad : bool) (msg : string)
    (w : World) :
  (truthy x = true ->
   v w = if bad then (Value false, printed msg w) else (Value true, w)) ->
  (if truthy x then check v else ret tt) w
  = if truthy x && bad then (Returned, printed msg w) else (Value tt, w).
Proof.
  intros Hv. destruct (truthy x); [|reflexivity].
  specialize (Hv eq_refl). unfold check, bind. rewrite Hv. now destruct bad.
Qed.

(** What [task_edit_vi] does for an existing task, as one equation: the
    first failing check reports and returns, otherwise the edited record
    is saved. *)
Lemma task_edit_vi_run (w : World) (code : string) (task : Task) :
  dict_get code (tasks (stored w)) = Some task ->
  task_edit_vi code w =
    match vi_reject_msg (updates (vi_read task)) (stored w) with
    | Some msg => (Returned, printed msg w)
    | None =>
        (Value tt,
         printed ("Task '" ++ code ++ "' updated via editor")
           (saved (with_task code (vi_result task) (stored w)) w))
    end.
Proof.
  intros Hget. unfold task_edit_vi. unfold bind at 1. unfold load_data.
  rewrite Hget. cbv zeta. fold (vi_read task).
  set (u := updates (vi_read task)). unfold vi_reject_msg.
  unfold bind at 1.
  rewrite (vi_check_run _ _ (bad_status (updates_get "status" u)) invalid_status_msg)
    by apply validate_status_run.
  destruct (bad_status (updates_get "status" u)) eqn:Est.
  { unfold bad_status in Est. apply andb_prop in Est. destruct Est as [Et _].
    now rewrite Et. }
  rewrite andb_false_r.
  unfold bind at 1. unfold for_each at 1.
  unfold bind at 1.
  rewrite (vi_check_run _ _ (bad_date (updates_get "start_date" u))
             (date_msg (updates_get "start_date" u)))
    by (intros _; apply validate_date_run).
  fold (vi_bad_date (updates_get "start_date" u)).
  destruct (vi_bad_date (updates_get "start_date" u)); [reflexivity|].
  unfold bind at 1.
  rewrite (vi_check_run _ _ (bad_date (updates_get "review_date" u))
             (date_msg (updates_get "review_date" u)))
    by (intros _; apply validate_date_run).
  fold (vi_bad_date (updates_get "review_date" u)).
  destruct (vi_bad_date (updates_get "review_date" u)); [reflexivity|].
  unfold bind at 1.
  rewrite (vi_check_run _ _ (bad_date (updates_get "end_date" u))
             (date_msg (updates_get "end_date" u)))
    by (intros _; apply validate_date_run).
  fold (vi_bad_date (updates_get "end_date" u)).
  destruct (vi_bad_date (updates_get "end_date" u)); [reflexivity|].
  unfold ret at 1.
  unfold bind at 1. unfold for_each at 1.
  unfold bind at 1.
  rewrite (vi_check_run _ _ false "") by (intros _; apply validate_time_value_run).
  rewrite andb_false_r.
  unfold bind at 1.
  rewrite (vi_check_run _ _ false "") by (intros _; apply validate_time_value_run).
  rewrite andb_false_r.
  unfold ret at 1.
  unfold bind at 1. unfold when_truthy, if_truthy, truthy, py_or.
  destruct (updates_get "sprint" u) as [name|]; [|reflexivity].
  destruct (name =? ""); [reflexivity|]. simpl negb. cbv iota.
  destruct (dict_get name (sprints (stored w))) as [sprint|]; [|reflexivity].
  destruct (sprint_closed sprint); reflexivity.
Qed.

(** Without a marker line the scan never enters the comment section. *)
Lemma vi_scan_no_marker (lines : list string) (st : vi_scan) :
  ~ In COMMENT_MARKER (map rstrip_nl lines) ->
  in_comment st = false -> comment_lines st = [] ->
  in_comment (fold_left vi_scan_line lines st) = false
  /\ comment_lines (fold_left vi_scan_line lines st) = [].
Proof.
  revert st. induction lines as [|line lines IH]; intros st Hno Hin Hcl; simpl.
  - auto.
  - simpl in Hno. apply IH.
    + tauto.
    + unfold vi_scan_line.
      destruct (String.eqb_spec (rstrip_nl line) COMMENT_MARKER) as [E|_];
        [exfalso; apply Hno; left; exact E|].
      rewrite Hin.
      destruct ((rstrip_nl line =? "") || startswith "#" (rstrip_nl line)); auto.
      destruct (split_once "=" (rstrip_nl line)) as [[k v]|]; auto.
    + unfold vi_scan_line.
      destruct (String.eqb_spec (rstrip_nl line) COMMENT_MARKER) as [E|_];
        [exfalso; apply Hno; left; exact E|].
      rewrite Hin.
      destruct ((rstrip_nl line =? "") || startswith "#" (rstrip_nl line)); auto.
      destruct (split_once "=" (rstrip_nl line)) as [[k v]|]; auto.
Qed.

Lemma vi_result_no_marker (task : Task) :
  no_marker_line (editor (vi_template task)) ->
  task_comment (vi_result task) = None.
Proof.
  intros Hno. unfold vi_result, vi_read, vi_scan_lines.
  destruct (vi_scan_no_marker _ (mkScan [] [] false) Hno eq_refl eq_refl) as [_ Hcl].
  rewrite Hcl. reflexivity.
Qed.

(** C10, as the script has it: when the file the editor left has no line
    "---COMMENT---" and its values pass the checks of [task_edit_vi], the
    record that is saved has no comment ([None]), whatever comment the
    task had; when a check fails, the command reports and returns, and
    the stored task keeps its comment with everything else. *)
Theorem vi_no_marker_clears_comment (w : World) (code : string) (task : Task) :
  dict_get code (tasks (stored w)) = Some task ->
  no_marker_line (editor (vi_template task)) ->
  (vi_reject_msg (updates (vi_read task)) (stored w) = None ->
     saves_as (task_edit_vi code) w (with_task code (vi_result task) (stored w))
       ["Task '" ++ code ++ "' updated via editor"]
     /\ dict_get code (tasks (with_task code (vi_result task) (stored w)))
        = Some (vi_result task)
     /\ task_comment (vi_result task) = None)
  /\ (forall msg,
       vi_reject_msg (updates (vi_read task)) (stored w) = Some msg ->
       fails_with (task_edit_vi code) w msg
       /\ dict_get code (tasks (stored (snd (task_edit_vi code w)))) = Some task).
Proof.
  intros Hget Hno. split.
  - intros Hok. split; [|split].
    + eexists. rewrite (task_edit_vi_run _ _ _ Hget), Hok.
      split; [reflexivity|]. simpl. auto.
    + simpl. apply dict_get_set_eq.
    + now apply vi_result_no_marker.
  - intros msg Hbad. unfold fails_with.
    rewrite (task_edit_vi_run _ _ _ Hget), Hbad. split.
    + eexists. split; [reflexivity|]. simpl. auto.
    + exact Hget.
Qed.

(** C2 on the code: for the file "status=" / "name=NewName" the record
    that is saved has the new name and the status [None]; the empty
    value clears the status, it does not keep it. *)
Theorem vi_empty_status_is_stored (w : World) (code : string) (task : Task) :
  dict_get code (tasks (stored w)) = Some task ->
  editor (vi_template task) = "status=" ++ nl ++ "name=NewName" ++ nl ->
  saves_as (task_edit_vi code) w
    (with_task code
       (set_task_comment None
          (set_task_name (Some "NewName") (set_task_status None task)))
       (stored w))
    ["Task '" ++ code ++ "' updated via editor"]
  /\ task_status
       (set_task_comment None
          (set_task_name (Some "NewName") (set_task_status None task))) = None.
Proof.
  intros Hget Hed.
  assert (Hscan : vi_read task
                  = mkScan [("status", None); ("name", Some "NewName")] [] false).
  { unfold vi_read. rewrite Hed. reflexivity. }
  split; [|reflexivity].
  eexists. rewrite (task_edit_vi_run _ _ _ Hget).
  unfold vi_reject_msg, vi_result. rewrite Hscan.
  split; [reflexivity|]. simpl. auto.
Qed.

(** C4 on the code: the keys "code" and "sprint_code" are keys of the task
    dictionary, so their lines are assigned like the others: for the file
    "code=X" / "sprint_code=NOPE" the record that is saved under the old
    code says its code is X and its sprint is NOPE, a sprint nobody looked
    up. *)
Theorem vi_code_and_sprint_code_are_assigned (w : World) (code : string) (task : Task) :
  dict_get code (tasks (stored w)) = Some task ->
  editor (vi_template task) = "code=X" ++ nl ++ "sprint_code=NOPE" ++ nl ->
  saves_as (task_edit_vi code) w
    (with_task code
       (set_task_comment None
          (set_task_sprint_code (Some "NOPE") (set_task_code (Some "X") task)))
       (stored w))
    ["Task '" ++ code ++ "' updated via editor"]
  /\ task_code
       (set_task_comment None
          (set_task_sprint_code (Some "NOPE") (set_task_code (Some "X") task)))
     = Some "X"
  /\ task_sprint_code
       (set_task_comment None
          (set_task_sprint_code (Some "NOPE") (set_task_code (Some "X") task)))
     = Some "NOPE".
Proof.
  intros Hget Hed.
  assert (Hscan : vi_read task
                  = mkScan [("code", Some "X"); ("sprint_code", Some "NOPE")] [] false).
  { unfold vi_read. rewrite Hed. reflexivity. }
  split; [|split; reflexivity].
  eexists. rewrite (task_edit_vi_run _ _ _ Hget).
  unfold vi_reject_msg, vi_result. rewrite Hscan.
  split; [reflexivity|]. simpl. auto.
Qed.

(* ------------------------------------------------------------------ *)
(** ** The closed flag of a sprint *)
(* ------------------------------------------------------------------ *)

Lemma same_sprints_printed (w0 : World) (s : string) (w : World) :
  same_sprints w0 w -> same_sprints w0 (printed s w).
Proof. intros H. exact H. Qed.

Lemma same_file_same_sprints (w0 w : World) : same_file w0 w -> same_sprints w0 w.
Proof. intros [H _]. unfold same_sprints, stored. now rewrite H. Qed.

(** Start a proof that a command run from [w0] keeps a property [Inv]
    that holds of [w0]: the command has loaded its data from [w0], the
    rest of it keeps [Inv]. *)
Ltac from_load Inv w0 :=
  unfold bind at 1; unfold load_data; cbv zeta;
  match goal with
  | |- context [snd (?m w0)] =>
      let H := fresh "H" in
      assert (H : preserves Inv m);
      [ preserves_tac | apply (H w0) ]
  end.

Lemma list_tasks_read_only (w0 : World) (args : list_args) :
  same_file w0 (snd (list_tasks args w0)).
Proof.
  pose proof (same_file_printed w0) as Hp.
  unfold list_tasks. from_load (same_file w0) w0. split; reflexivity.
Qed.

Lemma task_show_read_only (w0 : World) (code : string) :
  same_file w0 (snd (task_show code w0)).
Proof.
  pose proof (same_file_printed w0) as Hp.
  unfold task_show. from_load (same_file w0) w0. split; reflexivity.
Qed.

Lemma sprint_list_read_only (w0 : World) :
  same_file w0 (snd (sprint_list w0)).
Proof.
  pose proof (same_file_printed w0) as Hp.
  unfold sprint_list. from_load (same_file w0) w0. split; reflexivity.
Qed.

Lemma add_task_same_sprints (w0 : World) (args : add_args) :
  same_sprints w0 (snd (add_task args w0)).
Proof.
  pose proof (same_sprints_printed w0) as Hp.
  unfold add_task, when_truthy. from_load (same_sprints w0) w0; reflexivity.
Qed.

Lemma move_task_same_sprints (w0 : World) (code status : string) :
  same_sprints w0 (snd (move_task code status w0)).
Proof.
  pose proof (same_sprints_printed w0) as Hp.
  unfold move_task. from_load (same_sprints w0) w0; reflexivity.
Qed.

Lemma task_edit_same_sprints (w0 : World) (args : edit_args) :
  same_sprints w0 (snd (task_edit args w0)).
Proof.
  pose proof (same_sprints_printed w0) as Hp.
  unfold task_edit. from_load (same_sprints w0) w0; reflexivity.
Qed.

Lemma task_edit_vi_same_sprints (w0 : World) (code : string) :
  same_sprints w0 (snd (task_edit_vi code w0)).
Proof.
  pose proof (same_sprints_printed w0) as Hp.
  unfold task_edit_vi, when_truthy. from_load (same_sprints w0) w0; reflexivity.
Qed.

Lemma edit_task_comment_same_sprints (w0 : World) (code : string) :
  same_sprints w0 (snd (edit_task_comment code w0)).
Proof.
  pose proof (same_sprints_printed w0) as Hp.
  unfold edit_task_comment. from_load (same_sprints w0) w0; reflexivity.
Qed.

Lemma sprint_add_run (w : World) (args : sprint_add_args) :
  sprint_add args w =
    match dict_get (sadd_code args) (sprints (stored w)) with
    | Some _ => (Returned, printed "Sprint already exists" w)
    | None =>
        (Value tt,
         printed ("Sprint '" ++ sadd_code args ++ "' created")
           (saved (with_sprint (sadd_code args)
                     (mkSprint (sadd_code args) (sadd_name args)
                        (sadd_start_date args) (sadd_end_date args) false)
                     (stored w)) w))
    end.
Proof.
  unfold sprint_add, bind, load_data, dict_mem.
  destruct (dict_get (sadd_code args) (sprints (stored w))); reflexivity.
Qed.

Lemma sprint_close_absent (w : World) (code : string) :
  dict_get code (sprints (stored w)) = None ->
  sprint_close code w = (Returned, printed "Sprint not found" w).
Proof.
  intros H. unfold sprint_close, bind, load_data. now rewrite H.
Qed.

Lemma sprint_close_closed (w : World) (code : string) (sprint : Sprint) :
  dict_get code (sprints (stored w)) = Some sprint ->
  sprint_closed sprint = true ->
  sprint_close code w = (Returned, printed "Sprint already closed" w).
Proof.
  intros H Hc. unfold sprint_close, bind, load_data. now rewrite H, Hc.
Qed.

Lemma same_sprints_closed_step (c : Command) (w w' : World) (k : string) (s : Sprint) :
  same_sprints w w' ->
  dict_get k (sprints (stored w)) = Some s ->
  exists s', dict_get k (sprints (stored w')) = Some s' /\ closed_step c k s s'.
Proof.
  intros Hsame Hget. exists s. split.
  - unfold same_sprints in Hsame. now rewrite Hsame.
  - now left.
Qed.

(** Whatever the command, a sprint of the store is still there after
    it, and its closed flag is what it was unless the command closed
    it. *)
Lemma main_closed_step (c : Command) (w : World) (k : string) (s : Sprint) :
  dict_get k (sprints (stored w)) = Some s ->
  exists s',
    dict_get k (sprints (stored (snd (main c w)))) = Some s'
    /\ closed_step c k s s'.
Proof.
  intros Hget. destruct c as [a|a|code status|a|a|code|code|code|a| |code]; simpl main.
  - apply (same_sprints_closed_step _ w); auto. apply add_task_same_sprints.
  - apply (same_sprints_closed_step _ w); auto.
    apply same_file_same_sprints, list_tasks_read_only.
  - apply (same_sprints_closed_step _ w); auto. apply move_task_same_sprints.
  - apply (same_sprints_closed_step _ w); auto.
    apply same_file_same_sprints, board_tasks_read_only. split; reflexivity.
  - apply (same_sprints_closed_step _ w); auto. apply task_edit_same_sprints.
  - apply (same_sprints_closed_step _ w); auto. apply task_edit_vi_same_sprints.
  - apply (same_sprints_closed_step _ w); auto. apply edit_task_comment_same_sprints.
  - apply (same_sprints_closed_step _ w); auto.
    apply same_file_same_sprints, task_show_read_only.
  - rewrite sprint_add_run.
    destruct (dict_get (sadd_code a) (sprints (stored w))) eqn:E.
    + apply (same_sprints_closed_step _ w); auto. reflexivity.
    + exists s. split; [|now left]. simpl.
      rewrite dict_get_set_neq; [exact Hget|].
      intros Heq. rewrite Heq in E. congruence.
  - apply (same_sprints_closed_step _ w); auto.
    apply same_file_same_sprints, sprint_list_read_only.
  - destruct (dict_get code (sprints (stored w))) as [sp|] eqn:E.
    + destruct (sprint_closed sp) eqn:Ec.
      * rewrite (sprint_close_closed _ _ _ E Ec).
        apply (same_sprints_closed_step _ w); auto. reflexivity.
      * rewrite (sprint_close_run _ _ _ E Ec). simpl.
        destruct (String.eqb_spec code k) as [->|Hne].
        -- exists (set_sprint_closed true sp). split; [apply dict_get_set_eq|].
           right. repeat split. congruence.
        -- exists s. split; [|now left]. now rewrite dict_get_set_neq.
    + rewrite (sprint_close_absent _ _ E).
      apply (same_sprints_closed_step _ w); auto. reflexivity.
Qed.

(** C6: the closed flag of a sprint only goes from false to true.
    - [sprint_add] on a free code stores the new sprint with
      [closed = false], and on a taken code it stores nothing;
    - no command changes the flag of a sprint of the store, except
      [sprint_close] of that sprint, which finds it open and leaves it
      closed; so a closed sprint stays closed;
    - [sprint_close] on a closed sprint prints "Sprint already closed"
      and returns: the file is not written, the store is what it was. *)
Theorem sprint_closed_monotonic :
  (forall w args,
      dict_get (sadd_code args) (sprints (stored w)) = None ->
      exists data' s,
        saves_as (sprint_add args) w data' ["Sprint '" ++ sadd_code args ++ "' created"]
        /\ dict_get (sadd_code args) (sprints data') = Some s
        /\ sprint_closed s = false)
  /\ (forall w args s,
      dict_get (sadd_code args) (sprints (stored w)) = Some s ->
      fails_with (sprint_add args) w "Sprint already exists")
  /\ (forall c w k s,
      dict_get k (sprints (stored w)) = Some s ->
      exists s',
        dict_get k (sprints (stored (snd (main c w)))) = Some s'
        /\ closed_step c k s s')
  /\ (forall c w k s,
      dict_get k (sprints (stored w)) = Some s ->
      sprint_closed s = true ->
      exists s',
        dict_get k (sprints (stored (snd (main c w)))) = Some s'
        /\ sprint_closed s' = true)
  /\ (forall w code s,
      dict_get code (sprints (stored w)) = Some s ->
      sprint_closed s = true ->
      fails_with (sprint_close code) w "Sprint already closed"
      /\ stored (snd (sprint_close code w)) = stored w).
Proof.
  split; [|split; [|split; [|split]]].
  - intros w args Hfree. eexists. eexists. split; [|split].
    + eexists. rewrite sprint_add_run, Hfree. split; [reflexivity|]. simpl. auto.
    + simpl. apply dict_get_set_eq.
    + reflexivity.
  - intros w args s Htaken. unfold fails_with. eexists.
    rewrite sprint_add_run, Htaken.
    split; [reflexivity|]. simpl. auto.
  - apply main_closed_step.
  - intros c w k s Hget Hc.
    destruct (main_closed_step c w k s Hget) as [s' [Hget' [Heq|[_ [Hopen _]]]]].
    + exists s'. split; auto. congruence.
    + congruence.
  - intros w code s Hget Hc. unfold fails_with.
    rewrite (sprint_close_closed _ _ _ Hget Hc). split.
    + eexists. split; [reflexivity|]. simpl. auto.
    + reflexivity.
Qed.

(** A line whose key is neither "sprint" nor a key of the task dictionary
    changes nothing in the record. *)
Lemma vi_apply_unknown_key (u : dict (option string)) (k : string)
    (v : option string) (task : Task) :
  k <> "sprint" -> task_has_key k = false ->
  vi_apply (u ++ [(k, v)])%list task = vi_apply u task.
Proof.
  intros Hs Hk. unfold vi_apply. rewrite fold_left_app. simpl.
  apply String.eqb_neq in Hs. now rewrite Hs, Hk.
Qed.

(* ------------------------------------------------------------------ *)
(** ** add, the whole command *)
(* ------------------------------------------------------------------ *)

Lemma check_run (v : Cmd bool) (bad : bool) (msg : string) (w : World) :
  v w = (if bad then (Value false, printed msg w) else (Value true, w)) ->
  check v w = if bad then (Returned, printed msg w) else (Value tt, w).
Proof. intros H. unfold check, bind. rewrite H. now destruct bad. Qed.

Lemma sprint_guard_run (x : option string) (data : Store) (w : World) :
  when_truthy x (fun name =>
    match dict_get name (sprints data) with
    | None => print "Sprint not found" ;; return_
    | Some sprint =>
        if sprint_closed sprint then print "Sprint is closed" ;; return_
        else ret tt
    end) w
  = match sprint_reject_msg x data with
    | Some msg => (Returned, printed msg w)
    | None => (Value tt, w)
    end.
Proof.
  unfold when_truthy, if_truthy, sprint_reject_msg, truthy, py_or.
  destruct x as [name|]; [|reflexivity].
  destruct (name =? ""); [reflexivity|]. simpl negb. cbv iota.
  destruct (dict_get name (sprints data)) as [sprint|]; [|reflexivity].
  destruct (sprint_closed sprint); reflexivity.
Qed.

(** What [add_task] does, as one equation: the first failing check
    reports and returns, otherwise the new record is saved. *)
Lemma add_task_run (w : World) (args : add_args) :
  add_task args w =
    match add_reject_msg args (stored w) with
    | Some msg => (Returned, printed msg w)
    | None =>
        (Value tt,
         printed ("Task '" ++ add_code args ++ "' created")
           (saved (with_task (add_code args) (new_task args) (stored w)) w))
    end.
Proof.
  unfold add_task. unfold bind at 1. unfold load_data. unfold add_reject_msg.
  unfold bind at 1.
  destruct (dict_mem (add_code args) (tasks (stored w))); [reflexivity|].
  unfold ret at 1.
  unfold bind at 1.
  rewrite (check_run _ (negb (in_STATUSES (add_status args))) invalid_status_msg)
    by (unfold validate_status; destruct (in_STATUSES (add_status args)); reflexivity).
  destruct (negb (in_STATUSES (add_status args))); [reflexivity|].
  unfold bind at 1. rewrite (check_run _ false "") by apply validate_time_value_run.
  unfold bind at 1. unfold for_each.
  unfold bind at 1.
  rewrite (check_run _ (bad_date (add_start_date args)) (date_msg (add_start_date args)))
    by apply validate_date_run.
  destruct (bad_date (add_start_date args)); [reflexivity|].
  unfold bind at 1.
  rewrite (check_run _ (bad_date (add_review_date args)) (date_msg (add_review_date args)))
    by apply validate_date_run.
  destruct (bad_date (add_review_date args)); [reflexivity|].
  unfold bind at 1.
  rewrite (check_run _ (bad_date (add_end_date args)) (date_msg (add_end_date args)))
    by apply validate_date_run.
  destruct (bad_date (add_end_date args)); [reflexivity|].
  unfold ret at 1.
  unfold bind at 1. rewrite sprint_guard_run.
  destruct (sprint_reject_msg (add_sprint args) (stored w)); reflexivity.
Qed.

Lemma dict_keys_set_absent {V : Type} (k : string) (v : V) (d : dict V) :
  dict_get k d = None -> dict_keys (dict_set k v d) = (dict_keys d ++ [k])%list.
Proof.
  induction d as [|[k' v'] d IH]; simpl; [reflexivity|].
  destruct (k' =? k); [discriminate|].
  intros H. simpl. now rewrite IH.
Qed.

Lemma dict_mem_false {V : Type} (k : string) (d : dict V) :
  dict_mem k d = false <-> dict_get k d = None.
Proof.
  unfold dict_mem. destruct (dict_get k d); split; congruence.
Qed.

Lemma sprint_reject_msg_open (x : option string) (data : Store) :
  truthy x = false
  \/ (exists name sprint,
        x = Some name /\ dict_get name (sprints data) = Some sprint
        /\ sprint_closed sprint = false) ->
  sprint_reject_msg x data = None.
Proof.
  unfold sprint_reject_msg. intros [H|[name [sprint [-> [Hget Hopen]]]]].
  - now rewrite H.
  - simpl. destruct (name =? ""); simpl; [reflexivity|]. now rewrite Hget, Hopen.
Qed.

Lemma sprint_reject_msg_bad (name : string) (data : Store) :
  name <> "" ->
  dict_get name (sprints data) = None
  \/ (exists sprint, dict_get name (sprints data) = Some sprint
                     /\ sprint_closed sprint = true) ->
  exists msg, sprint_reject_msg (Some name) data = Some msg.
Proof.
  intros Hne H. apply String.eqb_neq in Hne.
  unfold sprint_reject_msg. simpl. rewrite Hne. simpl.
  destruct H as [H|[sprint [H Hc]]]; rewrite H; [eauto|]. rewrite Hc. eauto.
Qed.

Lemma returned_gives_up (m : Cmd unit) (w : World) (msg : string) :
  m w = (Returned, printed msg w) -> gives_up m w.
Proof.
  intros H. unfold gives_up. rewrite H. repeat split.
Qed.

Lemma returned_fails_with (m : Cmd unit) (w : World) (msg : string) :
  m w = (Returned, printed msg w) -> fails_with m w msg.
Proof.
  intros H. exists (printed msg w). rewrite H. repeat split.
Qed.

Lemma saved_saves_as (m : Cmd unit) (w : World) (data : Store) (msg : string) :
  m w = (Value tt, printed msg (saved data w)) -> saves_as m w data [msg].
Proof.
  intros H. exists (printed msg (saved data w)). rewrite H. repeat split.
Qed.

(** X1: [add_task] with a free code, a status of the enum, dates that
    parse (or none) and either no sprint or an open sprint of the store
    saves the store with the new record filed last under its code; the
    record has the arguments as given, no comment and no actual time;
    the other tasks and the sprints are what they were. *)
Theorem add_task_creates (w : World) (args : add_args) :
  dict_get (add_code args) (tasks (stored w)) = None ->
  In (add_status args) STATUS_ORDER ->
  (forall d, In d [add_start_date args; add_review_date args; add_end_date args] ->
             bad_date d = false) ->
  (truthy (add_sprint args) = false
   \/ exists name sprint,
        add_sprint args = Some name
        /\ dict_get name (sprints (stored w)) = Some sprint
        /\ sprint_closed sprint = false) ->
  exists data',
    saves_as (add_task args) w data' ["Task '" ++ add_code args ++ "' created"]
    /\ dict_get (add_code args) (tasks data') = Some (new_task args)
    /\ task_comment (new_task args) = None
    /\ task_actual_time (new_task args) = None
    /\ (forall k, k <> add_code args ->
          dict_get k (tasks data') = dict_get k (tasks (stored w)))
    /\ dict_keys (tasks data') = (dict_keys (tasks (stored w)) ++ [add_code args])%list
    /\ sprints data' = sprints (stored w).
Proof.
  intros Hfree Hst Hdates Hsprint.
  exists (with_task (add_code args) (new_task args) (stored w)).
  split; [|repeat split].
  - apply saved_saves_as. rewrite add_task_run. unfold add_reject_msg.
    rewrite (proj2 (dict_mem_false _ _) Hfree).
    rewrite (proj2 (in_STATUSES_In _) Hst). simpl negb. cbv iota.
    rewrite !Hdates by (simpl; tauto).
    now rewrite (sprint_reject_msg_open _ _ Hsprint).
  - simpl. apply dict_get_set_eq.
  - intros k Hk. simpl. apply dict_get_set_neq. congruence.
  - simpl. now apply dict_keys_set_absent.
Qed.

(** X2: [add_task] never files a task in a sprint that is closed or that
    the store does not have: when --sprint names such a sprint the
    command returns without writing the file, whatever the other
    arguments are. *)
Theorem add_task_sprint_guard (w : World) (args : add_args) (name : string) :
  add_sprint args = Some name -> name <> "" ->
  dict_get name (sprints (stored w)) = None
  \/ (exists sprint, dict_get name (sprints (stored w)) = Some sprint
                     /\ sprint_closed sprint = true) ->
  gives_up (add_task args) w.
Proof.
  intros Hs Hne Hbad.
  destruct (sprint_reject_msg_bad name (stored w) Hne Hbad) as [msg Hmsg].
  assert (H : exists m, add_reject_msg args (stored w) = Some m).
  { unfold add_reject_msg. rewrite Hs, Hmsg.
    repeat match goal with |- context [if ?b then _ else _] => destruct b end; eauto. }
  destruct H as [m Hm].
  apply (returned_gives_up _ _ m). now rewrite add_task_run, Hm.
Qed.

(** X3: [add_task] with a free code checks the status first and the
    dates next: a status outside the enum gives the status report, and
    with a valid status a date that does not parse makes the command
    return; in both cases the file is not written. *)
Theorem add_task_validates (w : World) (args : add_args) :
  dict_get (add_code args) (tasks (stored w)) = None ->
  (~ In (add_status args) STATUS_ORDER ->
     fails_with (add_task args) w invalid_status_msg)
  /\ (In (add_status args) STATUS_ORDER ->
      forall d, In d [add_start_date args; add_review_date args; add_end_date args] ->
                bad_date d = true ->
      gives_up (add_task args) w).
Proof.
  intros Hfree. split.
  - intros Hst. apply returned_fails_with. rewrite add_task_run. unfold add_reject_msg.
    rewrite (proj2 (dict_mem_false _ _) Hfree).
    now rewrite (proj2 (in_STATUSES_not_In _) Hst).
  - intros Hst d Hin Hbad.
    assert (H : exists m, add_reject_msg args (stored w) = Some m).
    { unfold add_reject_msg.
      rewrite (proj2 (dict_mem_false _ _) Hfree).
      rewrite (proj2 (in_STATUSES_In _) Hst). simpl negb. cbv iota.
      simpl in Hin. destruct Hin as [<-|[<-|[<-|[]]]].
      + rewrite Hbad. eauto.
      + destruct (bad_date (add_start_date args)); [eauto|]. rewrite Hbad. eauto.
      + destruct (bad_date (add_start_date args)); [eauto|].
        destruct (bad_date (add_review_date args)); [eauto|]. rewrite Hbad. eauto. }
    destruct H as [m Hm].
    apply (returned_gives_up _ _ m). now rewrite add_task_run, Hm.
Qed.

(* ------------------------------------------------------------------ *)
(** ** task edit, the whole command *)
(* ------------------------------------------------------------------ *)

(** What [task_edit] does for an existing task, as one equation. *)
Lemma task_edit_run (w : World) (args : edit_args) (task : Task) :
  dict_get (edit_code args) (tasks (stored w)) = Some task ->
  task_edit args w =
    if has_invalid_field args
    then (Returned, printed (first_invalid_msg args) w)
    else if provided_any args
    then (Value tt,
          printed ("Task '" ++ edit_code args ++ "' updated")
            (saved (with_task (edit_code args) (edit_result args task) (stored w)) w))
    else (Returned, printed "No changes provided" w).
Proof.
  intros Hget.
  unfold task_edit. unfold bind at 1. unfold load_data. rewrite Hget.
  unfold has_invalid_field, first_invalid_msg.
  edit_block false "". rewrite andb_false_r.
  edit_block (bad_status (edit_status args)) invalid_status_msg.
  destruct (bad_status (edit_status args)) eqn:Est.
  { unfold bad_status in Est. apply andb_prop in Est. destruct Est as [Et _].
    rewrite Et. reflexivity. }
  rewrite andb_false_r.
  edit_block false "". rewrite andb_false_r.
  edit_block false "". rewrite andb_false_r.
  edit_block (bad_date (edit_start_date args)) (date_msg (edit_start_date args)).
  destruct (bad_date (edit_start_date args)) eqn:Es.
  { destruct (edit_start_date args); [reflexivity | discriminate]. }
  rewrite andb_false_r.
  edit_block (bad_date (edit_review_date args)) (date_msg (edit_review_date args)).
  destruct (bad_date (edit_review_date args)) eqn:Er.
  { destruct (edit_review_date args); [reflexivity | discriminate]. }
  rewrite andb_false_r.
  edit_block (bad_date (edit_end_date args)) (date_msg (edit_end_date args)).
  destruct (bad_date (edit_end_date args)) eqn:Ee.
  { destruct (edit_end_date args); [reflexivity | discriminate]. }
  rewrite andb_false_r. simpl orb. cbv iota.
  unfold provided_any, edit_result.
  destruct (truthy (edit_name args)), (truthy (edit_status args)),
    (is_some (edit_estimate args)), (is_some (edit_actual args)),
    (is_some (edit_start_date args)), (is_some (edit_review_date args)),
    (is_some (edit_end_date args)); reflexivity.
Qed.

(** X4: [task_edit] on an existing task with no field given (an empty
    --name or --status counts as not given) prints "No changes provided"
    and returns; the file is not written. *)
Theorem task_edit_no_changes (w : World) (args : edit_args) (task : Task) :
  dict_get (edit_code args) (tasks (stored w)) = Some task ->
  provided_any args = false ->
  fails_with (task_edit args) w "No changes provided".
Proof.
  intros Hget Hnone. apply returned_fails_with.
  rewrite (task_edit_run _ _ _ Hget), Hnone.
  unfold provided_any in Hnone.
  repeat (apply orb_false_elim in Hnone; destruct Hnone as [Hnone ?]).
  unfold has_invalid_field, bad_status, bad_date. rewrite H4.
  destruct (edit_start_date args); [discriminate|].
  destruct (edit_review_date args); [discriminate|].
  destruct (edit_end_date args); [discriminate|].
  reflexivity.
Qed.

(** X5: [task_edit] on an existing task with at least one field given
    and none invalid saves the record with every given field set to its
    argument and every other field as it was; the code, the sprint and
    the comment of the task are never touched, nor are the other tasks
    and the sprints. *)
Theorem task_edit_applies (w : World) (args : edit_args) (task : Task) :
  dict_get (edit_code args) (tasks (stored w)) = Some task ->
  has_invalid_field args = false ->
  provided_any args = true ->
  exists task' data',
    saves_as (task_edit args) w data' ["Task '" ++ edit_code args ++ "' updated"]
    /\ dict_get (edit_code args) (tasks data') = Some task'
    /\ (forall k, k <> edit_code args ->
          dict_get k (tasks data') = dict_get k (tasks (stored w)))
    /\ sprints data' = sprints (stored w)
    /\ task_name task'
       = (if truthy (edit_name args) then edit_name args else task_name task)
    /\ task_status task'
       = (if truthy (edit_status args) then edit_status args else task_status task)
    /\ task_estimated_time task'
       = (if is_some (edit_estimate args) then edit_estimate args
          else task_estimated_time task)
    /\ task_actual_time task'
       = (if is_some (edit_actual args) then edit_actual args
          else task_actual_time task)
    /\ task_start_date task'
       = (if is_some (edit_start_date args) then edit_start_date args
          else task_start_date task)
    /\ task_review_date task'
       = (if is_some (edit_review_date args) then edit_review_date args
          else task_review_date task)
    /\ task_end_date task'
       = (if is_some (edit_end_date args) then edit_end_date args
          else task_end_date task)
    /\ task_code task' = task_code task
    /\ task_sprint_code task' = task_sprint_code task
    /\ task_comment task' = task_comment task.
Proof.
  intros Hget Hvalid Hsome.
  exists (edit_result args task),
         (with_task (edit_code args) (edit_result args task) (stored w)).
  split; [|split; [|split; [|split]]].
  - apply saved_saves_as. now rewrite (task_edit_run _ _ _ Hget), Hvalid, Hsome.
  - simpl. apply dict_get_set_eq.
  - intros k Hk. simpl. apply dict_get_set_neq. congruence.
  - reflexivity.
  - unfold edit_result.
    destruct (truthy (edit_name args)), (truthy (edit_status args)),
      (is_some (edit_estimate args)), (is_some (edit_actual args)),
      (is_some (edit_start_date args)), (is_some (edit_review_date args)),
      (is_some (edit_end_date args)); repeat split.
Qed.

(* ------------------------------------------------------------------ *)
(** ** Codes that the store does not have *)
(* ------------------------------------------------------------------ *)

(** X6: the five commands that work on one task print "Task not found"
    and return when the store has no task under the code; none of them
    writes the file. *)
Theorem task_not_found (w : World) (code : string) :
  dict_get code (tasks (stored w)) = None ->
  (forall status, fails_with (move_task code status) w "Task not found")
  /\ (forall args, edit_code args = code ->
        fails_with (task_edit args) w "Task not found")
  /\ fails_with (task_edit_vi code) w "Task not found"
  /\ fails_with (edit_task_comment code) w "Task not found"
  /\ fails_with (task_show code) w "Task not found".
Proof.
  intros Hget. repeat split.
  - intros status. apply returned_fails_with.
    unfold move_task, bind, load_data. now rewrite Hget.
  - intros args <-. apply returned_fails_with.
    unfold task_edit, bind, load_data. now rewrite Hget.
  - apply returned_fails_with. unfold task_edit_vi, bind, load_data. now rewrite Hget.
  - apply returned_fails_with. unfold edit_task_comment, bind, load_data.
    now rewrite Hget.
  - apply returned_fails_with. unfold task_show, bind, load_data. now rewrite Hget.
Qed.

(** X7: a sprint code that the store does not have makes [sprint_close],
    the board with --sprint (and without --current) and the list with
    --sprint (and a status filter that is absent or valid) print
    "Sprint not found" and return, rather than show an empty result. *)
Theorem sprint_not_found (w : World) (name : string) :
  name <> "" ->
  dict_get name (sprints (stored w)) = None ->
  fails_with (sprint_close name) w "Sprint not found"
  /\ fails_with (board_tasks (mkBoardArgs (Some name) false)) w "Sprint not found"
  /\ (forall status,
        truthy status = false \/ (exists s, status = Some s /\ In s STATUS_ORDER) ->
        fails_with (list_tasks (mkListArgs status (Some name))) w "Sprint not found").
Proof.
  intros Hne Hget. apply String.eqb_neq in Hne. repeat split.
  - apply returned_fails_with. now apply sprint_close_absent.
  - apply returned_fails_with.
    unfold board_tasks, bind, load_data, board_scope, if_truthy. simpl.
    now rewrite Hne, Hget.
  - intros status Hst. apply returned_fails_with.
    unfold list_tasks. unfold bind at 1. unfold load_data.
    unfold bind at 1.
    assert (Hs : exists ts, if_truthy (list_status (mkListArgs status (Some name)))
                   (fun status0 =>
                      check (validate_status (Some status0)) ;;
                      ret (filter (fun t => eq_str (task_status t) status0)
                             (dict_values (tasks (stored w)))))
                   (ret (dict_values (tasks (stored w)))) w = (Value ts, w)).
    { unfold if_truthy. simpl. destruct Hst as [Hf|[s [-> Hin]]].
      - destruct status as [s|]; [|eexists; reflexivity]. simpl in Hf.
        apply negb_false_iff in Hf. rewrite Hf. eexists; reflexivity.
      - destruct (s =? ""); [eexists; reflexivity|].
        unfold bind, check. unfold bind. rewrite (validate_status_valid _ _ Hin).
        eexists; reflexivity. }
    destruct Hs as [ts Hs]. rewrite Hs.
    unfold bind, if_truthy, dict_mem. simpl. now rewrite Hne, Hget.
Qed.

(* ------------------------------------------------------------------ *)
(** ** move, there and back *)
(* ------------------------------------------------------------------ *)

Lemma dict_set_set {V : Type} (k : string) (v v' : V) (d : dict V) :
  dict_set k v (dict_set k v' d) = dict_set k v d.
Proof.
  induction d as [|[k0 v0] d IH]; simpl.
  - now rewrite String.eqb_refl.
  - destruct (k0 =? k) eqn:E; simpl; rewrite E; [reflexivity | now rewrite IH].
Qed.

Lemma dict_set_same {V : Type} (k : string) (v : V) (d : dict V) :
  dict_get k d = Some v -> dict_set k v d = d.
Proof.
  induction d as [|[k0 v0] d IH]; simpl; [discriminate|].
  destruct (k0 =? k) eqn:E.
  - intros H. injection H as ->. reflexivity.
  - intros H. now rewrite IH.
Qed.

Lemma stored_saved (msg : string) (data : Store) (w : World) :
  stored (printed msg (saved data w)) = data.
Proof. reflexivity. Qed.

Lemma stored_printed (msg : string) (w : World) : stored (printed msg w) = stored w.
Proof. reflexivity. Qed.

Lemma with_task_again (code : string) (t t' : Task) (data : Store) :
  with_task code t (with_task code t' data) = with_task code t data.
Proof. unfold with_task. simpl. now rewrite dict_set_set. Qed.

Lemma with_task_same (code : string) (t : Task) (data : Store) :
  dict_get code (tasks data) = Some t -> with_task code t data = data.
Proof.
  intros H. unfold with_task. rewrite (dict_set_same _ _ _ H). now destruct data.
Qed.

Lemma move_task_run (w : World) (code status : string) (task : Task) :
  dict_get code (tasks (stored w)) = Some task ->
  In status STATUS_ORDER ->
  move_task code status w
  = (Value tt,
     printed ("Task '" ++ code ++ "' moved: " ++ py_fmt (task_status task)
              ++ " → " ++ status)
       (saved (with_task code (set_task_status (Some status) task) (stored w)) w)).
Proof.
  intros Hget Hin. unfold move_task, bind, load_data, check. rewrite Hget.
  unfold bind. now rewrite (validate_status_valid _ _ Hin).
Qed.

(** X8: moving a task to another status and then back to the status it
    had gives back the store exactly as it was: the task, the other
    tasks, the sprints and the order of the records. *)
Theorem move_task_there_and_back (w : World) (code old new : string) (task : Task) :
  dict_get code (tasks (stored w)) = Some task ->
  task_status task = Some old ->
  In old STATUS_ORDER -> In new STATUS_ORDER ->
  stored (snd (move_task code old (snd (move_task code new w)))) = stored w.
Proof.
  intros Hget Hold Hin_old Hin_new.
  rewrite (move_task_run _ _ _ _ Hget Hin_new). cbn [snd].
  rewrite (move_task_run _ code old (set_task_status (Some new) task)).
  - cbn [snd]. rewrite !stored_saved, with_task_again.
    apply with_task_same. rewrite Hget. f_equal.
    destruct task. simpl in *. now subst.
  - rewrite stored_saved. simpl. apply dict_get_set_eq.
  - exact Hin_old.
Qed.

(* ------------------------------------------------------------------ *)
(** ** task comment *)
(* ------------------------------------------------------------------ *)

Lemma rstrip_nl_idempotent (s : string) : rstrip_nl (rstrip_nl s) = rstrip_nl s.
Proof.
  induction s as [|a s IH]; simpl; [reflexivity|].
  destruct ((rstrip_nl s =? "") && Ascii.eqb a nl_char) eqn:E; simpl; [reflexivity|].
  now rewrite IH, E.
Qed.

Lemma comment_or_None_tidy (content : string) :
  rstrip_nl content = content -> tidy_comment (comment_or_None content).
Proof.
  intros H. unfold comment_or_None.
  destruct (py_strip content =? "") eqn:E; simpl; [exact I|].
  split; [now apply String.eqb_neq | exact H].
Qed.

Lemma edit_task_comment_run (w : World) (code : string) (task : Task) :
  dict_get code (tasks (stored w)) = Some task ->
  edit_task_comment code w
  = (Value tt,
     printed ("Comment updated for task '" ++ code ++ "'")
       (saved (with_task code
                 (set_task_comment
                    (comment_or_None (rstrip_nl (editor (py_or (task_comment task) ""))))
                    task)
                 (stored w)) w)).
Proof.
  intros Hget. unfold edit_task_comment, bind, load_data. now rewrite Hget.
Qed.

(** X9: [edit_task_comment] on an existing task saves the task with a new
    comment and nothing else changed.  The comment is the text the editor
    left without its trailing newlines, or [None] when that text is
    blank; so the stored comment is never an empty or blank string and
    never ends in a newline. *)
Theorem edit_task_comment_stores (w : World) (code : string) (task : Task) :
  dict_get code (tasks (stored w)) = Some task ->
  exists c data',
    saves_as (edit_task_comment code) w data'
      ["Comment updated for task '" ++ code ++ "'"]
    /\ dict_get code (tasks data') = Some (set_task_comment c task)
    /\ (forall k, k <> code -> dict_get k (tasks data') = dict_get k (tasks (stored w)))
    /\ sprints data' = sprints (stored w)
    /\ tidy_comment c
    /\ (py_strip (rstrip_nl (editor (py_or (task_comment task) ""))) = "" -> c = None)
    /\ (py_strip (rstrip_nl (editor (py_or (task_comment task) ""))) <> "" ->
        c = Some (rstrip_nl (editor (py_or (task_comment task) "")))).
Proof.
  intros Hget.
  exists (comment_or_None (rstrip_nl (editor (py_or (task_comment task) "")))).
  eexists. split; [|split; [|split; [|split; [|split; [|split]]]]].
  - apply saved_saves_as. apply (edit_task_comment_run _ _ _ Hget).
  - simpl. apply dict_get_set_eq.
  - intros k Hk. simpl. apply dict_get_set_neq. congruence.
  - reflexivity.
  - apply comment_or_None_tidy, rstrip_nl_idempotent.
  - intros H. unfold comment_or_None. now rewrite H.
  - intros H. unfold comment_or_None. apply String.eqb_neq in H. now rewrite H.
Qed.

Lemma py_strip_empty : py_strip "" = "".
Proof. reflexivity. Qed.



(* ------------------------------------------------------------------ *)
(** ** list and sprint list *)
(* ------------------------------------------------------------------ *)

Lemma filter_all {A : Type} (l : list A) : filter (fun _ => true) l = l.
Proof. induction l as [|x l IH]; simpl; [reflexivity | now rewrite IH]. Qed.

Lemma filter_twice {A : Type} (f g : A -> bool) (l : list A) :
  filter g (filter f l) = filter (fun x => f x && g x) l.
Proof.
  induction l as [|x l IH]; simpl; [reflexivity|].
  destruct (f x); simpl; [destruct (g x)|]; now rewrite IH.
Qed.

(** One filter of [list_tasks]: when its guard lets the command go on,
    the tasks that are left are those that pass the filter. *)
Lemma list_filter_run (x : option string) (field : Task -> option string)
    (guard : string -> Cmd unit) (ts : list Task) (w : World) :
  (forall s, x = Some s -> s <> "" -> guard s w = (Value tt, w)) ->
  if_truthy x
    (fun s => guard s ;; ret (filter (fun t => eq_str (field t) s) ts))
    (ret ts) w
  = (Value (filter (fun t => passes x (field t)) ts), w).
Proof.
  intros Hguard. unfold if_truthy, passes.
  destruct x as [s|]; simpl.
  - destruct (s =? "") eqn:E; simpl.
    + now rewrite filter_all.
    + unfold bind. rewrite (Hguard s eq_refl) by now apply String.eqb_neq.
      reflexivity.
  - now rewrite filter_all.
Qed.

Lemma list_tasks_run (w : World) (args : list_args) :
  (truthy (list_status args) = false
   \/ exists s, list_status args = Some s /\ In s STATUS_ORDER) ->
  (truthy (list_sprint args) = false
   \/ exists name sprint, list_sprint args = Some name
                          /\ dict_get name (sprints (stored w)) = Some sprint) ->
  list_tasks args w
  = match list_selection args (stored w) with
    | [] => (Returned, printed "No tasks found" w)
    | _ => (Value tt, prints (map list_line (list_selection args (stored w))) w)
    end.
Proof.
  intros Hst Hsp. unfold list_tasks. unfold bind at 1. unfold load_data.
  unfold bind at 1.
  rewrite (list_filter_run (list_status args) task_status
             (fun status => check (validate_status (Some status)))).
  2:{ intros s Hs Hne. destruct Hst as [Hf|[s' [Hs' Hin]]].
      - rewrite Hs in Hf. simpl in Hf. apply negb_false_iff, String.eqb_eq in Hf.
        contradiction.
      - rewrite Hs in Hs'. injection Hs' as <-. unfold check, bind.
        now rewrite (validate_status_valid _ _ Hin). }
  unfold bind at 1.
  rewrite (list_filter_run (list_sprint args) task_sprint_code
             (fun name =>
                if negb (dict_mem name (sprints (stored w)))
                then print "Sprint not found" ;; return_
                else ret tt)).
  2:{ intros s Hs Hne. destruct Hsp as [Hf|[name [sprint [Hname Hget]]]].
      - rewrite Hs in Hf. simpl in Hf. apply negb_false_iff, String.eqb_eq in Hf.
        contradiction.
      - rewrite Hs in Hname. injection Hname as <-. unfold dict_mem.
        now rewrite Hget. }
  rewrite filter_twice. fold (list_selection args (stored w)).
  destruct (list_selection args (stored w)) as [|t ts] eqn:E; [reflexivity|].
  apply (for_each_print list_line).
Qed.

Lemma passes_spec (x v : option string) :
  passes x v = true <-> (forall s, x = Some s -> s <> "" -> v = Some s).
Proof.
  unfold passes. destruct x as [s|]; simpl.
  - destruct (String.eqb_spec s "") as [->|Hne]; simpl.
    + split; [intros _ s Hs Hne; now injection Hs as <- | reflexivity].
    + rewrite eq_str_true. split.
      * intros -> s' Hs _. now injection Hs as <-.
      * intros H. now apply H.
  - split; [intros _ s Hs; discriminate | reflexivity].
Qed.

(** X11: [list_tasks], with filters that are absent or name a status
    of the enum and a sprint of the store, prints one line per task that
    passes both filters, in the order of the store, and "No tasks found"
    when no task does; it does not write the file.  A task passes when
    its status is the one asked for (if one is asked for) and its sprint
    is the one asked for (if one is asked for). *)
Theorem list_tasks_output (w : World) (args : list_args) :
  (truthy (list_status args) = false
   \/ exists s, list_status args = Some s /\ In s STATUS_ORDER) ->
  (truthy (list_sprint args) = false
   \/ exists name sprint, list_sprint args = Some name
                          /\ dict_get name (sprints (stored w)) = Some sprint) ->
  (list_selection args (stored w) = [] ->
     fails_with (list_tasks args) w "No tasks found")
  /\ (list_selection args (stored w) <> [] ->
      exists w', list_tasks args w = (Value tt, w')
        /\ same_file w w'
        /\ stdout w' = (stdout w ++ map list_line (list_selection args (stored w)))%list)
  /\ (forall t,
        In t (list_selection args (stored w)) <->
        In t (dict_values (tasks (stored w)))
        /\ (forall s, list_status args = Some s -> s <> "" -> task_status t = Some s)
        /\ (forall s, list_sprint args = Some s -> s <> "" ->
                      task_sprint_code t = Some s)).
Proof.
  intros Hst Hsp. pose proof (list_tasks_run w args Hst Hsp) as Hrun.
  split; [|split].
  - intros Hnone. apply returned_fails_with. now rewrite Hrun, Hnone.
  - intros Hsome.
    exists (prints (map list_line (list_selection args (stored w))) w).
    split; [|split].
    + rewrite Hrun. destruct (list_selection args (stored w)); [contradiction|].
      reflexivity.
    + split; reflexivity.
    + reflexivity.
  - intros t. unfold list_selection. rewrite filter_In, andb_true_iff, !passes_spec.
    tauto.
Qed.

(** X12: [sprint_list] prints one line per sprint in the order of the
    store, with OPEN or CLOSED as the sprint is, and "No sprints found"
    for a store without sprints; it does not write the file. *)
Theorem sprint_list_output (w : World) :
  (sprints (stored w) = [] -> fails_with sprint_list w "No sprints found")
  /\ (sprints (stored w) <> [] ->
      exists w', sprint_list w = (Value tt, w')
        /\ same_file w w'
        /\ stdout w' = (stdout w ++ map sprint_line (dict_values (sprints (stored w))))%list).
Proof.
  split.
  - intros Hnone. apply returned_fails_with.
    unfold sprint_list, bind, load_data. now rewrite Hnone.
  - intros Hsome.
    exists (prints (map sprint_line (dict_values (sprints (stored w)))) w).
    split; [|split].
    + unfold sprint_list. unfold bind at 1. unfold load_data.
      destruct (sprints (stored w)) as [|s l] eqn:E; [contradiction|].
      apply (for_each_print sprint_line).
    + split; reflexivity.
    + reflexivity.
Qed.

(* ------------------------------------------------------------------ *)
(** ** Every command: what it can do to the file *)
(* ------------------------------------------------------------------ *)

Lemma query_read_only (c : Command) (w : World) :
  is_query c = true -> same_file w (snd (main c w)).
Proof.
  destruct c; simpl; try discriminate; intros _.
  - apply list_tasks_read_only.
  - apply board_tasks_read_only. split; reflexivity.
  - apply task_show_read_only.
  - apply sprint_list_read_only.
Qed.

Lemma same_file_stored (w w' : World) : same_file w w' -> stored w' = stored w.
Proof. intros [H _]. unfold stored. now rewrite H. Qed.

(** A run that ends with a report changes nothing in the file; a run
    that saves [data'] and prints one or two lines has written once. *)
Lemma outcome_returned (m : Cmd unit) (w : World) (msg : string) (c : Command)
    (P : Store -> Prop) :
  m w = (Returned, printed msg w) ->
  same_file w (snd (m w))
  \/ (fst (m w) = Value tt /\ saves (snd (m w)) = S (saves w)
      /\ exists data', disk (snd (m w)) = Some data' /\ P data').
Proof. intros H. left. rewrite H. split; reflexivity. Qed.

Lemma outcome_saved (m : Cmd unit) (w w' : World) (data' : Store)
    (P : Store -> Prop) :
  m w = (Value tt, w') -> disk w' = Some data' -> saves w' = S (saves w) ->
  P data' ->
  same_file w (snd (m w))
  \/ (fst (m w) = Value tt /\ saves (snd (m w)) = S (saves w)
      /\ exists data', disk (snd (m w)) = Some data' /\ P data').
Proof. intros H Hd Hs HP. right. rewrite H. simpl. eauto. Qed.

(** Every command either leaves the file as it found it, or runs to its
    end after writing the file once, with the store its rule of
    [effect] gives. *)
Lemma main_effect (c : Command) (w : World) :
  same_file w (snd (main c w))
  \/ (fst (main c w) = Value tt
      /\ saves (snd (main c w)) = S (saves w)
      /\ exists data', disk (snd (main c w)) = Some data'
                       /\ effect c (stored w) data').
Proof.
  destruct c as [a|a|code status|a|a|code|code|code|a| |code];
    try (left; now apply query_read_only); simpl main.
  - destruct (add_reject_msg a (stored w)) as [msg|] eqn:E.
    + apply (outcome_returned _ _ msg (CmdAdd a)). now rewrite add_task_run, E.
    + eapply outcome_saved; [rewrite add_task_run, E; reflexivity | reflexivity
                            | reflexivity | now constructor].
  - destruct (dict_get code (tasks (stored w))) as [task|] eqn:E.
    + destruct (in_STATUSES status) eqn:Es.
      * apply in_STATUSES_In in Es.
        eapply outcome_saved; [apply (move_task_run _ _ _ _ E Es) | reflexivity
                              | reflexivity | now constructor].
      * apply in_STATUSES_not_In in Es.
        apply (outcome_returned _ _ invalid_status_msg (CmdMove code status)).
        unfold move_task, bind, load_data, check. rewrite E. unfold bind.
        now rewrite (validate_status_invalid _ _ Es).
    + apply (outcome_returned _ _ "Task not found" (CmdMove code status)).
      unfold move_task, bind, load_data. now rewrite E.
  - destruct (dict_get (edit_code a) (tasks (stored w))) as [task|] eqn:E.
    + destruct (has_invalid_field a) eqn:Ei; [|destruct (provided_any a) eqn:Ep].
      * apply (outcome_returned _ _ (first_invalid_msg a) (CmdTaskEdit a)).
        now rewrite (task_edit_run _ _ _ E), Ei.
      * eapply outcome_saved; [rewrite (task_edit_run _ _ _ E), Ei, Ep; reflexivity
                              | reflexivity | reflexivity | now constructor].
      * apply (outcome_returned _ _ "No changes provided" (CmdTaskEdit a)).
        now rewrite (task_edit_run _ _ _ E), Ei, Ep.
    + apply (outcome_returned _ _ "Task not found" (CmdTaskEdit a)).
      unfold task_edit, bind, load_data. now rewrite E.
  - destruct (dict_get code (tasks (stored w))) as [task|] eqn:E.
    + destruct (vi_reject_msg (updates (vi_read task)) (stored w)) as [msg|] eqn:Ev.
      * apply (outcome_returned _ _ msg (CmdTaskVi code)).
        now rewrite (task_edit_vi_run _ _ _ E), Ev.
      * eapply outcome_saved; [rewrite (task_edit_vi_run _ _ _ E), Ev; reflexivity
                              | reflexivity | reflexivity | now constructor].
    + apply (outcome_returned _ _ "Task not found" (CmdTaskVi code)).
      unfold task_edit_vi, bind, load_data. now rewrite E.
  - destruct (dict_get code (tasks (stored w))) as [task|] eqn:E.
    + eapply outcome_saved; [apply (edit_task_comment_run _ _ _ E) | reflexivity
                            | reflexivity | now constructor].
    + apply (outcome_returned _ _ "Task not found" (CmdTaskComment code)).
      unfold edit_task_comment, bind, load_data. now rewrite E.
  - destruct (dict_get (sadd_code a) (sprints (stored w))) as [s|] eqn:E.
    + apply (outcome_returned _ _ "Sprint already exists" (CmdSprintAdd a)).
      now rewrite sprint_add_run, E.
    + eapply outcome_saved; [rewrite sprint_add_run, E; reflexivity | reflexivity
                            | reflexivity | now constructor].
  - destruct (dict_get code (sprints (stored w))) as [sp|] eqn:E.
    + destruct (sprint_closed sp) eqn:Ec.
      * apply (outcome_returned _ _ "Sprint already closed" (CmdSprintClose code)).
        apply (sprint_close_closed _ _ _ E Ec).
      * eapply outcome_saved; [apply (sprint_close_run _ _ _ E Ec) | reflexivity
                              | reflexivity |].
        rewrite close_loop_tasks. now constructor.
    + apply (outcome_returned _ _ "Sprint not found" (CmdSprintClose code)).
      now apply sprint_close_absent.
Qed.

(** X13: a command never writes the file unless it runs to its end, and
    then it has written it exactly once: after any command, either the
    file is the file it found and no save was made, or the command ended
    normally after one save.  A command that reports a failure, and the
    four commands that only show something, leave the file alone. *)
Theorem commands_are_atomic (c : Command) (w : World) :
  (same_file w (snd (main c w))
   \/ (fst (main c w) = Value tt
       /\ saves (snd (main c w)) = S (saves w)
       /\ exists data', disk (snd (main c w)) = Some data'))
  /\ (fst (main c w) <> Value tt -> same_file w (snd (main c w)))
  /\ (is_query c = true -> same_file w (snd (main c w))).
Proof.
  split; [|split].
  - destruct (main_effect c w) as [H|[H1 [H2 [d [H3 _]]]]]; [now left|].
    right. eauto.
  - intros Hne. destruct (main_effect c w) as [H|[H1 _]]; [exact H | contradiction].
  - apply query_read_only.
Qed.

(** The store after a command: the store before it, or one that the
    command's rule of [effect] gives. *)
Lemma main_stored (c : Command) (w : World) :
  stored (snd (main c w)) = stored w
  \/ effect c (stored w) (stored (snd (main c w))).
Proof.
  destruct (main_effect c w) as [H|[_ [_ [d [Hd He]]]]].
  - left. now apply same_file_stored.
  - right. unfold stored at 2. now rewrite Hd.
Qed.

(** X14: no command removes a record or changes the order of the
    records: after any command the codes of the tasks are the codes
    before it, in the same order, followed by the code of the task that
    [add_task] created if it did, and likewise for the sprints and
    [sprint_add]. *)
Theorem records_are_kept (c : Command) (w : World) :
  exists new_tasks new_sprints,
    dict_keys (tasks (stored (snd (main c w))))
    = (dict_keys (tasks (stored w)) ++ new_tasks)%list
    /\ dict_keys (sprints (stored (snd (main c w))))
       = (dict_keys (sprints (stored w)) ++ new_sprints)%list
    /\ (new_tasks = []
        \/ exists args, c = CmdAdd args /\ new_tasks = [add_code args])
    /\ (new_sprints = []
        \/ exists args, c = CmdSprintAdd args /\ new_sprints = [sadd_code args]).
Proof.
  destruct (main_stored c w) as [H|H].
  - exists [], []. rewrite H, !app_nil_r. tauto.
  - remember (stored (snd (main c w))) as d' eqn:E'. clear E'.
    remember (stored w) as d0 eqn:E0. clear E0.
    destruct H as [a d Hok|code st t d Hget Hin|a t d Hget Hv Hp|code t d Hget Hv
                  |code t d Hget|a d Hfree|code sp d Hget Hopen]; simpl.
    + exists [add_code a], []. rewrite app_nil_r. split; [|split; [reflexivity|]].
      * apply dict_keys_set_absent. apply dict_mem_false.
        unfold add_reject_msg in Hok.
        destruct (dict_mem (add_code a) (tasks d)); [discriminate|reflexivity].
      * split; [right; eauto | now left].
    + exists [], []. rewrite !app_nil_r, (dict_keys_set_present _ _ _ _ Hget). tauto.
    + exists [], []. rewrite !app_nil_r, (dict_keys_set_present _ _ _ _ Hget). tauto.
    + exists [], []. rewrite !app_nil_r, (dict_keys_set_present _ _ _ _ Hget). tauto.
    + exists [], []. rewrite !app_nil_r, (dict_keys_set_present _ _ _ _ Hget). tauto.
    + exists [], [sadd_code a]. rewrite app_nil_r. split; [reflexivity|].
      split; [now apply dict_keys_set_absent|]. split; [now left | right; eauto].
    + exists [], []. rewrite !app_nil_r, (dict_keys_map (close_task code)).
      rewrite (dict_keys_set_present _ _ _ _ Hget). tauto.
Qed.

(* ------------------------------------------------------------------ *)
(** ** Two conditions on the store, and the commands that keep them *)
(* ------------------------------------------------------------------ *)

Lemma Forall_values_set {V : Type} (P : V -> Prop) (k : string) (v : V) (d : dict V) :
  Forall P (dict_values d) -> P v -> Forall P (dict_values (dict_set k v d)).
Proof.
  intros Hd Hv. induction d as [|[k' v'] d IH]; simpl.
  - constructor; [exact Hv | constructor].
  - inversion Hd; subst. destruct (k' =? k); simpl; constructor; auto.
Qed.

Lemma Forall_values_get {V : Type} (P : V -> Prop) (k : string) (v : V) (d : dict V) :
  Forall P (dict_values d) -> dict_get k d = Some v -> P v.
Proof.
  intros Hd. induction d as [|[k' v'] d IH]; simpl; [discriminate|].
  inversion Hd; subst. destruct (k' =? k).
  - intros H. now injection H as <-.
  - auto.
Qed.

Lemma Forall_values_map {V : Type} (P : V -> Prop) (f : V -> V) (d : dict V) :
  Forall P (dict_values d) -> (forall v, P v -> P (f v)) ->
  Forall P (dict_values (map (fun kv => (fst kv, f (snd kv))) d)).
Proof.
  intros Hd Hf. induction d as [|[k v] d IH]; simpl; [constructor|].
  inversion Hd; subst. constructor; auto.
Qed.

Lemma edit_result_status (args : edit_args) (task : Task) :
  task_status (edit_result args task)
  = if truthy (edit_status args) then edit_status args else task_status task.
Proof.
  unfold edit_result.
  destruct (truthy (edit_name args)), (truthy (edit_status args)),
    (is_some (edit_estimate args)), (is_some (edit_actual args)),
    (is_some (edit_start_date args)), (is_some (edit_review_date args)),
    (is_some (edit_end_date args)); reflexivity.
Qed.

Lemma edit_result_sprint_code (args : edit_args) (task : Task) :
  task_sprint_code (edit_result args task) = task_sprint_code task.
Proof.
  unfold edit_result.
  destruct (truthy (edit_name args)), (truthy (edit_status args)),
    (is_some (edit_estimate args)), (is_some (edit_actual args)),
    (is_some (edit_start_date args)), (is_some (edit_review_date args)),
    (is_some (edit_end_date args)); reflexivity.
Qed.

Lemma close_task_status (code : string) (t : Task) :
  task_status (close_task code t) = task_status t.
Proof. unfold close_task. now destruct (unfinished_in code t). Qed.

(** X15: when every task of the store has a status of the enum, every
    command other than the edit through the editor leaves a store in
    which every task has a status of the enum: [add_task], [move_task]
    and [task_edit] store only statuses they have validated, and the
    other commands store no status. *)
Theorem statuses_stay_valid (c : Command) (w : World) :
  (forall code, c <> CmdTaskVi code) ->
  statuses_ok (stored w) ->
  statuses_ok (stored (snd (main c w))).
Proof.
  intros Hnot Hok. destruct (main_stored c w) as [H|H]; [now rewrite H|].
  unfold statuses_ok, valid_statuses in *.
  remember (stored (snd (main c w))) as d' eqn:E'. clear E'.
  remember (stored w) as d0 eqn:E0. clear E0.
  destruct H as [a d Hadd|code st t d Hget Hin|a t d Hget Hv Hp|code t d Hget Hv
                |code t d Hget|a d Hfree|code sp d Hget Hopen]; simpl.
  - apply Forall_values_set; [exact Hok|]. exists (add_status a). split; [reflexivity|].
    apply in_STATUSES_In. unfold add_reject_msg in Hadd.
    destruct (dict_mem (add_code a) (tasks d)); [discriminate|].
    destruct (in_STATUSES (add_status a)); [reflexivity | discriminate].
  - apply Forall_values_set; [exact Hok|]. exists st. split; [reflexivity | exact Hin].
  - apply Forall_values_set; [exact Hok|]. rewrite edit_result_status.
    destruct (truthy (edit_status a)) eqn:Et.
    + unfold has_invalid_field in Hv.
      repeat (apply orb_false_elim in Hv; destruct Hv as [Hv ?]).
      unfold bad_status in Hv. rewrite Et in Hv. simpl in Hv.
      apply negb_false_iff in Hv.
      destruct (edit_status a) as [s|]; [|discriminate].
      exists s. split; [reflexivity | now apply in_STATUSES_In].
    + exact (Forall_values_get _ _ _ _ Hok Hget).
  - exfalso. now apply (Hnot code).
  - apply Forall_values_set; [exact Hok|].
    exact (Forall_values_get _ _ _ _ Hok Hget).
  - exact Hok.
  - apply (Forall_values_map _ (close_task code)); [exact Hok|].
    intros v Hv. now rewrite close_task_status.
Qed.

Lemma dict_mem_set_mono {V : Type} (k k' : string) (v : V) (d : dict V) :
  dict_mem k d = true -> dict_mem k (dict_set k' v d) = true.
Proof.
  unfold dict_mem. destruct (String.eqb_spec k' k) as [->|Hne].
  - now rewrite dict_get_set_eq.
  - now rewrite dict_get_set_neq.
Qed.

(** X16: when every task that names a sprint names a sprint of the
    store, every command other than the edit through the editor leaves a
    store with that property: [add_task] has looked the sprint up, the
    other commands never give a task a sprint, and no command removes a
    sprint. *)
Theorem sprint_refs_stay_valid (c : Command) (w : World) :
  (forall code, c <> CmdTaskVi code) ->
  sprint_refs_ok (stored w) ->
  sprint_refs_ok (stored (snd (main c w))).
Proof.
  intros Hnot Hok. destruct (main_stored c w) as [H|H]; [now rewrite H|].
  unfold sprint_refs_ok in *.
  remember (stored (snd (main c w))) as d' eqn:E'. clear E'.
  remember (stored w) as d0 eqn:E0. clear E0.
  destruct H as [a d Hadd|code st t d Hget Hin|a t d Hget Hv Hp|code t d Hget Hv
                |code t d Hget|a d Hfree|code sp d Hget Hopen]; simpl.
  - apply Forall_values_set; [exact Hok|]. simpl. intros name Hname Hne.
    unfold add_reject_msg in Hadd.
    repeat match type of Hadd with
           | (if ?b then _ else _) = None => destruct b; [discriminate|]
           end.
    unfold sprint_reject_msg in Hadd. rewrite Hname in Hadd. simpl in Hadd.
    apply String.eqb_neq in Hne. rewrite Hne in Hadd. simpl in Hadd.
    unfold dict_mem. destruct (dict_get name (sprints d)); [reflexivity|discriminate].
  - apply Forall_values_set; [exact Hok|].
    exact (Forall_values_get _ _ _ _ Hok Hget).
  - apply Forall_values_set; [exact Hok|]. rewrite edit_result_sprint_code.
    exact (Forall_values_get _ _ _ _ Hok Hget).
  - exfalso. now apply (Hnot code).
  - apply Forall_values_set; [exact Hok|].
    exact (Forall_values_get _ _ _ _ Hok Hget).
  - eapply Forall_impl; [|exact Hok]. simpl. intros t Ht name Hname Hne.
    apply dict_mem_set_mono. now apply Ht.
  - apply (Forall_values_map _ (close_task code)).
    + eapply Forall_impl; [|exact Hok]. simpl. intros t Ht name Hname Hne.
      apply dict_mem_set_mono. now apply Ht.
    + intros t Ht name Hname Hne. unfold close_task in Hname.
      destruct (unfinished_in code t); [discriminate|]. now apply Ht.
Qed.

(* ------------------------------------------------------------------ *)
(** ** The board and the statuses *)
(* ------------------------------------------------------------------ *)

Lemma board_scope_cases (args : board_args) (data : Store) (w : World) :
  (exists msg, board_scope args data w = (Returned, printed msg w))
  \/ (exists sprint ts,
        board_scope args data w = (Value (sprint, ts), w)
        /\ incl ts (dict_values (tasks data))).
Proof.
  unfold board_scope. destruct (board_current args).
  - destruct (get_open_sprints data) as [|s [|s' l]].
    + left. eexists. reflexivity.
    + right. eexists. eexists. split; [reflexivity|]. apply incl_filter.
    + left. eexists. reflexivity.
  - unfold if_truthy. destruct (board_sprint args) as [name|].
    + destruct (name =? "").
      * right. eexists. eexists. split; [reflexivity|]. apply incl_refl.
      * destruct (dict_get name (sprints data)).
        -- right. eexists. eexists. split; [reflexivity|]. apply incl_filter.
        -- left. eexists. reflexivity.
    + right. eexists. eexists. split; [reflexivity|]. apply incl_refl.
Qed.

(** X17: on a store in which every task has a status of the enum the
    board never ends with an exception, whatever its arguments: it
    prints the board, or reports that its scope has no answer. *)
Theorem board_never_raises (w : World) (args : board_args) :
  statuses_ok (stored w) ->
  fst (board_tasks args w) = Value tt \/ fst (board_tasks args w) = Returned.
Proof.
  intros Hok.
  destruct (board_scope_cases args (stored w) w) as [[msg H]|[sprint [ts [H Hincl]]]].
  - right. unfold board_tasks. unfold bind at 1. unfold load_data.
    unfold bind at 1. now rewrite H.
  - left. rewrite (board_tasks_run _ _ _ _ H); [reflexivity|].
    unfold statuses_ok, valid_statuses in *. rewrite Forall_forall in *.
    intros t Ht. apply Hok, Hincl, Ht.
Qed.

Lemma dict_get_not_in_keys {V : Type} (k : string) (d : dict V) :
  ~ In k (dict_keys d) -> dict_get k d = None.
Proof.
  induction d as [|[k' v] d IH]; simpl; [reflexivity|].
  intros H. destruct (String.eqb_spec k' k) as [->|Hne].
  - exfalso. apply H. now left.
  - apply IH. intros Hin. apply H. now right.
Qed.

(** The grouping loop stops with a [KeyError] at the first task whose
    status is not a key of the buckets. *)
Lemma group_tasks_raises (ts : list Task) :
  ~ valid_statuses ts ->
  forall (g : dict (list Task)) (w : World),
    dict_keys g = STATUS_ORDER ->
    group_tasks ts g w = (Raised "KeyError", w).
Proof.
  induction ts as [|t ts IH]; intros Hbad g w Hk.
  - exfalso. apply Hbad. constructor.
  - simpl. destruct (task_status t) as [s|] eqn:Est; [|reflexivity].
    unfold bind, dict_getitem.
    destruct (in_STATUSES s) eqn:Es.
    + apply in_STATUSES_In in Es.
      destruct (dict_get_in_keys s g) as [b Hb]; [now rewrite Hk|].
      rewrite Hb. simpl. apply IH.
      * intros Hts. apply Hbad. constructor; [eauto | exact Hts].
      * now rewrite (dict_keys_set_present _ _ b).
    + apply in_STATUSES_not_In in Es.
      rewrite dict_get_not_in_keys; [reflexivity | now rewrite Hk].
Qed.

(** X18: when the tasks the board has to show include one whose status
    is not in the enum ([None] after an edit through the editor that
    emptied it, say), the board ends with a [KeyError] before it prints
    anything. *)
Theorem board_key_error (w : World) (args : board_args)
    (sprint : option Sprint) (ts : list Task) :
  board_scope args (stored w) w = (Value (sprint, ts), w) ->
  ~ valid_statuses ts ->
  board_tasks args w = (Raised "KeyError", w).
Proof.
  intros Hscope Hbad. unfold board_tasks. unfold bind at 1. unfold load_data.
  unfold bind at 1. rewrite Hscope. unfold bind at 1.
  now rewrite (group_tasks_raises ts Hbad (map (fun s => (s, [])) STATUS_ORDER) w eq_refl).
Qed.

(* ------------------------------------------------------------------ *)
(** ** Sprints, open and closed *)
(* ------------------------------------------------------------------ *)

Lemma dict_get_map_inv {V : Type} (f : V -> V) (k : string) (d : dict V) (v' : V) :
  dict_get k (map (fun kv => (fst kv, f (snd kv))) d) = Some v' ->
  exists v, dict_get k d = Some v /\ v' = f v.
Proof.
  rewrite (dict_get_map f). destruct (dict_get k d) as [v|]; simpl; [|discriminate].
  intros H. injection H as <-. eauto.
Qed.

(** X19: after [sprint_close] has closed a sprint, every task that still
    names that sprint is done. *)
Theorem sprint_close_leaves_done (w : World) (code : string) (sprint : Sprint) :
  dict_get code (sprints (stored w)) = Some sprint ->
  sprint_closed sprint = false ->
  forall k t,
    dict_get k (tasks (stored (snd (sprint_close code w)))) = Some t ->
    task_sprint_code t = Some code ->
    task_status t = Some "DONE".
Proof.
  intros Hget Hopen k t Hk Hs.
  rewrite (sprint_close_run _ _ _ Hget Hopen) in Hk. cbn [snd] in Hk.
  rewrite stored_printed, stored_saved in Hk. simpl in Hk.
  rewrite close_loop_tasks in Hk.
  destruct (dict_get_map_inv (close_task code) _ _ _ Hk) as [t0 [_ ->]].
  unfold close_task in *. destruct (unfinished_in code t0) eqn:E.
  - discriminate.
  - unfold unfinished_in in E. rewrite (proj2 (eq_str_true _ _) Hs) in E. simpl in E.
    apply negb_false_iff in E. now apply eq_str_true.
Qed.

Lemma open_count_close (k : string) (s : Sprint) (d : dict Sprint) :
  dict_get k d = Some s -> sprint_closed s = false ->
  S (List.length (filter (fun s => negb (sprint_closed s))
                    (dict_values (dict_set k (set_sprint_closed true s) d))))
  = List.length (filter (fun s => negb (sprint_closed s)) (dict_values d)).
Proof.
  intros Hget Hopen. induction d as [|[k' s'] d IH]; simpl in *; [discriminate|].
  destruct (k' =? k).
  - injection Hget as ->. simpl. now rewrite Hopen.
  - simpl. destruct (sprint_closed s'); simpl; now rewrite <- (IH Hget).
Qed.

Lemma open_count_add (k : string) (s : Sprint) (d : dict Sprint) :
  dict_get k d = None -> sprint_closed s = false ->
  List.length (filter (fun s => negb (sprint_closed s))
                 (dict_values (dict_set k s d)))
  = S (List.length (filter (fun s => negb (sprint_closed s)) (dict_values d))).
Proof.
  intros Hget Hopen. induction d as [|[k' s'] d IH]; simpl in *.
  - now rewrite Hopen.
  - destruct (k' =? k); [discriminate|]. simpl.
    destruct (sprint_closed s'); simpl; now rewrite (IH Hget).
Qed.

Lemma board_current_none (w : World) (args : board_args) :
  board_current args = true ->
  List.length (get_open_sprints (stored w)) = 0 ->
  board_tasks args w = (Returned, printed "No active sprint found" w).
Proof.
  intros Hcur Hlen. unfold board_tasks, bind, load_data, board_scope.
  rewrite Hcur. now destruct (get_open_sprints (stored w)).
Qed.

Lemma board_current_many (w : World) (args : board_args) :
  board_current args = true ->
  2 <= List.length (get_open_sprints (stored w)) ->
  board_tasks args w = (Returned, printed "More than one active sprint found" w).
Proof.
  intros Hcur Hlen. unfold board_tasks, bind, load_data, board_scope.
  rewrite Hcur. destruct (get_open_sprints (stored w)) as [|s1 [|s2 l]];
    simpl in Hlen; try lia. reflexivity.
Qed.

(** X20: closing an open sprint takes exactly one sprint off the open
    sprints of the store; so after the only open sprint was closed, the
    board of the current sprint reports "No active sprint found". *)
Theorem sprint_close_open_count (w : World) (code : string) (sprint : Sprint) :
  dict_get code (sprints (stored w)) = Some sprint ->
  sprint_closed sprint = false ->
  S (List.length (get_open_sprints (stored (snd (sprint_close code w)))))
  = List.length (get_open_sprints (stored w))
  /\ (List.length (get_open_sprints (stored w)) = 1 ->
      forall args, board_current args = true ->
        fails_with (board_tasks args) (snd (sprint_close code w))
          "No active sprint found").
Proof.
  intros Hget Hopen.
  assert (Hcount : S (List.length (get_open_sprints (stored (snd (sprint_close code w)))))
                   = List.length (get_open_sprints (stored w))).
  { rewrite (sprint_close_run _ _ _ Hget Hopen). cbn [snd].
    rewrite stored_printed, stored_saved. unfold get_open_sprints. simpl.
    now apply open_count_close. }
  split; [exact Hcount|].
  intros Hone args Hcur. apply returned_fails_with.
  apply board_current_none; [exact Hcur | lia].
Qed.

(** X21: [sprint_add] does not look at the sprints that are open: a new
    sprint on a free code is one more open sprint, and when the store had
    an open sprint already, the board of the current sprint then reports
    "More than one active sprint found". *)
Theorem sprint_add_open_count (w : World) (args : sprint_add_args) :
  dict_get (sadd_code args) (sprints (stored w)) = None ->
  List.length (get_open_sprints (stored (snd (sprint_add args w))))
  = S (List.length (get_open_sprints (stored w)))
  /\ (1 <= List.length (get_open_sprints (stored w)) ->
      forall bargs, board_current bargs = true ->
        fails_with (board_tasks bargs) (snd (sprint_add args w))
          "More than one active sprint found").
Proof.
  intros Hfree.
  assert (Hcount : List.length (get_open_sprints (stored (snd (sprint_add args w))))
                   = S (List.length (get_open_sprints (stored w)))).
  { rewrite sprint_add_run, Hfree. cbn [snd]. rewrite stored_saved.
    unfold get_open_sprints. simpl. now apply open_count_add. }
  split; [exact Hcount|].
  intros Hone bargs Hcur. apply returned_fails_with.
  apply board_current_many; [exact Hcur | lia].
Qed.

(* ------------------------------------------------------------------ *)
(** ** The scan of the edited file *)
(* ------------------------------------------------------------------ *)

Lemma vi_scan_in_comment (lines : list string) (st : vi_scan) :
  in_comment st = true ->
  fold_left vi_scan_line lines st
  = mkScan (updates st) (comment_lines st ++ kept_comment_lines lines) true.
Proof.
  revert st. induction lines as [|line lines IH]; intros st Hin; simpl.
  - unfold kept_comment_lines. simpl. rewrite app_nil_r. destruct st. simpl in *.
    now subst.
  - rewrite IH.
    + unfold vi_scan_line, kept_comment_lines. simpl.
      destruct (rstrip_nl line =? COMMENT_MARKER); simpl; [reflexivity|].
      rewrite Hin. simpl. now rewrite <- app_assoc.
    + unfold vi_scan_line.
      destruct (rstrip_nl line =? COMMENT_MARKER); simpl; [reflexivity|].
      now rewrite Hin.
Qed.

Lemma vi_scan_outside (lines : list string) (st : vi_scan) :
  ~ In COMMENT_MARKER (map rstrip_nl lines) ->
  in_comment st = false -> comment_lines st = [] ->
  fold_left vi_scan_line lines st
  = mkScan (updates (fold_left vi_scan_line lines st)) [] false.
Proof.
  revert st. induction lines as [|line lines IH]; intros st Hno Hin Hcl; simpl.
  - destruct st. simpl in *. now subst.
  - simpl in Hno.
    assert (Hnm : (rstrip_nl line =? COMMENT_MARKER) = false).
    { apply String.eqb_neq. intros E. apply Hno. now left. }
    apply IH.
    + intros H. apply Hno. now right.
    + unfold vi_scan_line. rewrite Hnm, Hin.
      destruct ((rstrip_nl line =? "") || startswith "#" (rstrip_nl line)); auto.
      destruct (split_once "=" (rstrip_nl line)) as [[k v]|]; auto.
    + unfold vi_scan_line. rewrite Hnm, Hin.
      destruct ((rstrip_nl line =? "") || startswith "#" (rstrip_nl line)); auto.
      destruct (split_once "=" (rstrip_nl line)) as [[k v]|]; auto.
Qed.

Lemma vi_scan_fields_only (lines : list string) :
  ~ In COMMENT_MARKER (map rstrip_nl lines) ->
  vi_scan_lines lines = mkScan (updates (vi_scan_lines lines)) [] false.
Proof.
  intros Hno. unfold vi_scan_lines. now apply vi_scan_outside.
Qed.

Lemma vi_scan_at_marker (before after : list string) (marker : string) :
  ~ In COMMENT_MARKER (map rstrip_nl before) ->
  rstrip_nl marker = COMMENT_MARKER ->
  vi_scan_lines (before ++ marker :: after)
  = mkScan (updates (vi_scan_lines before)) (kept_comment_lines after) true.
Proof.
  intros Hno Hm. unfold vi_scan_lines at 1. rewrite fold_left_app.
  fold (vi_scan_lines before). rewrite (vi_scan_fields_only before Hno). simpl.
  unfold vi_scan_line at 2. rewrite Hm. simpl. now rewrite vi_scan_in_comment.
Qed.

(** X22: the scan of the edited file splits it at the first line that is
    "---COMMENT---": the fields come from the lines before it and from
    no other line, the comment is made of the lines after it, in their
    order and without their newlines, and a later line that is the
    marker again is dropped from the comment. *)
Theorem vi_marker_splits (before after : list string) (marker : string) :
  ~ In COMMENT_MARKER (map rstrip_nl before) ->
  rstrip_nl marker = COMMENT_MARKER ->
  updates (vi_scan_lines (before ++ marker :: after)) = updates (vi_scan_lines before)
  /\ comment_lines (vi_scan_lines (before ++ marker :: after))
     = kept_comment_lines after
  /\ (forall line, In line (kept_comment_lines after) <->
                   In line (map rstrip_nl after) /\ line <> COMMENT_MARKER).
Proof.
  intros Hno Hm. rewrite (vi_scan_at_marker _ _ _ Hno Hm). simpl.
  split; [reflexivity|]. split; [reflexivity|].
  intros line. unfold kept_comment_lines. rewrite filter_In, negb_true_iff.
  now rewrite String.eqb_neq.
Qed.

(** X23: in the field section an empty line, a line that starts with "#"
    and a line without "=" count for nothing: the scan of the file is
    the scan of the file without that line. *)
Theorem vi_noise_is_skipped (before rest : list string) (line : string) :
  ~ In COMMENT_MARKER (map rstrip_nl before) ->
  rstrip_nl line <> COMMENT_MARKER ->
  noise_line line ->
  vi_scan_lines (before ++ line :: rest) = vi_scan_lines (before ++ rest).
Proof.
  intros Hno Hnm Hnoise. unfold vi_scan_lines. rewrite !fold_left_app. simpl.
  f_equal. fold (vi_scan_lines before). rewrite (vi_scan_fields_only before Hno).
  unfold vi_scan_line. apply String.eqb_neq in Hnm. rewrite Hnm. simpl.
  destruct Hnoise as [H|[H|H]].
  - now rewrite H.
  - rewrite H. now rewrite orb_true_r.
  - rewrite H. now destruct ((rstrip_nl line =? "") || startswith "#" (rstrip_nl line)).
Qed.

Lemma updates_get_truthy (u : dict (option string)) (k s : string) :
  updates_get k u = Some s -> s <> "" -> truthy (updates_get k u) = true.
Proof.
  intros H Hne. rewrite H. simpl. apply negb_true_iff. now apply String.eqb_neq.
Qed.

(** X24: the edit through the editor checks before it assigns: a
    status value that is not empty and not in the enum gives the status
    report, and a value of the key "sprint" that names no sprint of the
    store, or a closed one, makes the command return; in both cases the
    file is not written. *)
Theorem vi_checks_first (w : World) (code : string) (task : Task) :
  dict_get code (tasks (stored w)) = Some task ->
  (forall s, updates_get "status" (updates (vi_read task)) = Some s ->
             s <> "" -> ~ In s STATUS_ORDER ->
             fails_with (task_edit_vi code) w invalid_status_msg)
  /\ (forall name, updates_get "sprint" (updates (vi_read task)) = Some name ->
             name <> "" ->
             dict_get name (sprints (stored w)) = None
             \/ (exists sprint, dict_get name (sprints (stored w)) = Some sprint
                                /\ sprint_closed sprint = true) ->
             gives_up (task_edit_vi code) w).
Proof.
  intros Hget. split.
  - intros s Hs Hne Hbad. apply returned_fails_with.
    rewrite (task_edit_vi_run _ _ _ Hget). unfold vi_reject_msg, bad_status.
    rewrite (updates_get_truthy _ _ _ Hs Hne), Hs.
    now rewrite (proj2 (in_STATUSES_not_In _) Hbad).
  - intros name Hs Hne Hbad.
    assert (H : exists m, vi_reject_msg (updates (vi_read task)) (stored w) = Some m).
    { unfold vi_reject_msg.
      repeat match goal with
             | |- exists m, (if ?b then Some _ else _) = Some m =>
                 destruct b; [eexists; reflexivity|]
             end.
      rewrite (updates_get_truthy _ _ _ Hs Hne), Hs. simpl.
      apply String.eqb_neq in Hne. rewrite Hne.
      destruct Hbad as [H|[sprint [H Hc]]]; rewrite H; [eexists; reflexivity|].
      rewrite Hc. eexists; reflexivity. }
    destruct H as [m Hm]. apply (returned_gives_up _ _ m).
    now rewrite (task_edit_vi_run _ _ _ Hget), Hm.
Qed.

(* ------------------------------------------------------------------ *)
(** ** The template, written and read back *)
(* ------------------------------------------------------------------ *)
































(* ------------------------------------------------------------------ *)
(** ** What the edited file assigns *)
(* ------------------------------------------------------------------ *)

Lemma dict_keys_set_NoDup {V : Type} (k : string) (v : V) (d : dict V) :
  NoDup (dict_keys d) -> NoDup (dict_keys (dict_set k v d)).
Proof.
  intros Hd. destruct (dict_get k d) as [v0|] eqn:E.
  - now rewrite (dict_keys_set_present _ _ _ _ E).
  - rewrite (dict_keys_set_absent _ _ _ E). apply NoDup_app; [exact Hd | | ].
    + constructor; [intros [] | constructor].
    + intros x Hx [<-|[]]. destruct (dict_get_in_keys _ _ Hx) as [v' Hv']. congruence.
Qed.

Lemma vi_scan_line_NoDup (st : vi_scan) (line : string) :
  NoDup (dict_keys (updates st)) -> NoDup (dict_keys (updates (vi_scan_line st line))).
Proof.
  intros H. unfold vi_scan_line.
  destruct (rstrip_nl line =? COMMENT_MARKER); [exact H|].
  destruct (in_comment st); [exact H|].
  destruct ((rstrip_nl line =? "") || startswith "#" (rstrip_nl line)); [exact H|].
  destruct (split_once "=" (rstrip_nl line)) as [[k v]|]; [|exact H].
  simpl. now apply dict_keys_set_NoDup.
Qed.

(** The scan holds every key once. *)
Lemma vi_scan_NoDup (lines : list string) :
  NoDup (dict_keys (updates (vi_scan_lines lines))).
Proof.
  unfold vi_scan_lines.
  assert (H : forall st, NoDup (dict_keys (updates st)) ->
                         NoDup (dict_keys (updates (fold_left vi_scan_line lines st)))).
  { induction lines as [|l lines IH]; intros st Hst; simpl; [exact Hst|].
    apply IH. now apply vi_scan_line_NoDup. }
  apply H. constructor.
Qed.

Lemma vi_apply_fold (u : dict (option string)) (task : Task) :
  vi_apply u task = fold_left vi_assign u task.
Proof. reflexivity. Qed.

Lemma plain_field_assign (k : string) (p : Task -> option string)
    (task : Task) (kv : string * option string) :
  In (k, p) plain_fields ->
  p (vi_assign task kv) = if fst kv =? k then snd kv else p task.
Proof.
  intros Hin. destruct kv as [k' v]. unfold vi_assign. cbn [fst snd].
  simpl in Hin.
  destruct Hin as [H|[H|[H|[H|[H|[H|[H|[H|[]]]]]]]]]; injection H as <- <-;
    unfold task_has_key, task_keys, task_setitem; cbn [existsb];
    repeat match goal with
           | |- context [?a =? ?b] =>
               lazymatch a with
               | k' => destruct (String.eqb_spec a b) as [->|?]
               end
           end;
    try reflexivity; try (exfalso; congruence).
Qed.

Lemma plain_field_apply (k : string) (p : Task -> option string)
    (u : dict (option string)) (task : Task) :
  In (k, p) plain_fields ->
  NoDup (dict_keys u) ->
  p (vi_apply u task)
  = match dict_get k u with
    | Some v => v
    | None => p task
    end.
Proof.
  intros Hin. rewrite vi_apply_fold. revert task.
  induction u as [|[k' v] u IH]; intros task Hnd; simpl; [reflexivity|].
  inversion Hnd as [|x l Hnotin Hnd']; subst.
  rewrite (IH _ Hnd'). rewrite (plain_field_assign k p task (k', v) Hin). cbn [fst snd].
  destruct (String.eqb_spec k' k) as [->|Hne].
  - now rewrite (dict_get_not_in_keys k u Hnotin).
  - reflexivity.
Qed.

Lemma plain_field_comment (k : string) (p : Task -> option string)
    (c : option string) (task : Task) :
  In (k, p) plain_fields -> p (set_task_comment c task) = p task.
Proof.
  simpl. intros [H|[H|[H|[H|[H|[H|[H|[H|[]]]]]]]]]; injection H as <- <-; reflexivity.
Qed.

(** X26: an edit through the editor that passes the checks stores, for
    each of the keys code, name, start_date, review_date, end_date,
    status, estimated_time and actual_time, what the last line of the
    field section with that key says: its value after [strip], [None]
    when that is empty; a field whose key has no line is kept. *)
Theorem vi_assigns_fields (w : World) (code : string) (task : Task) :
  dict_get code (tasks (stored w)) = Some task ->
  vi_reject_msg (updates (vi_read task)) (stored w) = None ->
  exists task',
    dict_get code (tasks (stored (snd (task_edit_vi code w)))) = Some task'
    /\ forall k p, In (k, p) plain_fields ->
         p task' = match dict_get k (updates (vi_read task)) with
                   | Some v => v
                   | None => p task
                   end.
Proof.
  intros Hget Hok. exists (vi_result task). split.
  - rewrite (task_edit_vi_run _ _ _ Hget), Hok. cbn [snd]. rewrite stored_saved.
    simpl. apply dict_get_set_eq.
  - intros k p Hin. unfold vi_result. rewrite (plain_field_comment k p _ _ Hin).
    apply (plain_field_apply k p _ _ Hin). apply vi_scan_NoDup.
Qed.

Lemma scan_field_any (st : vi_scan) (line k v : string) :
  in_comment st = false ->
  rstrip_nl line <> COMMENT_MARKER ->
  rstrip_nl line <> "" ->
  startswith "#" (rstrip_nl line) = false ->
  split_once "=" (rstrip_nl line) = Some (k, v) ->
  vi_scan_line st line
  = mkScan (dict_set k (scanned_value v) (updates st)) (comment_lines st) false.
Proof.
  intros Hin Hm He Hh Hs. unfold vi_scan_line.
  apply String.eqb_neq in Hm. apply String.eqb_neq in He.
  rewrite Hm, Hin, He, Hh, Hs. reflexivity.
Qed.

(** X27: in the field section a later line overrides an earlier line
    with the same key and touches no other key: after one more line
    "k=v" the scan holds for [k] the value of that line and for every
    other key what it held before. *)
Theorem vi_last_line_wins (before : list string) (line k v : string) :
  ~ In COMMENT_MARKER (map rstrip_nl before) ->
  rstrip_nl line <> COMMENT_MARKER ->
  rstrip_nl line <> "" ->
  startswith "#" (rstrip_nl line) = false ->
  split_once "=" (rstrip_nl line) = Some (k, v) ->
  updates_get k (updates (vi_scan_lines (before ++ [line]))) = scanned_value v
  /\ forall k', k' <> k ->
       updates_get k' (updates (vi_scan_lines (before ++ [line])))
       = updates_get k' (updates (vi_scan_lines before)).
Proof.
  intros Hno Hm He Hh Hs.
  assert (Hin : in_comment (vi_scan_lines before) = false)
    by (rewrite (vi_scan_fields_only before Hno); reflexivity).
  assert (Hstep : vi_scan_lines (before ++ [line])
                  = vi_scan_line (vi_scan_lines before) line)
    by (unfold vi_scan_lines; rewrite fold_left_app; reflexivity).
  rewrite Hstep, (scan_field_any _ line k v Hin Hm He Hh Hs). cbn [updates].
  unfold updates_get. split.
  - now rewrite dict_get_set_eq.
  - intros k' Hne. rewrite dict_get_set_neq; [reflexivity | congruence].
Qed.

End Kanban.

(* ------------------------------------------------------------------ *)
(** ** The theorems at work on the small store *)
(* ------------------------------------------------------------------ *)

(** C5 on the small store: T1 moves from REVIEW to DONE; there is no T9;
    BOGUS is no status. *)
Lemma move_task_spec_witness :
  saves_as (move_task "T1" "DONE") demo_world
    (with_task "T1" (demo_task "T1" "DONE" (Some "S1") (Some "keep me")) demo_store)
    ["Task 'T1' moved: REVIEW → DONE"]
  /\ fails_with (move_task "T9" "DONE") demo_world "Task not found"
  /\ fails_with (move_task "T1" "BOGUS") demo_world invalid_status_msg.
Proof.
  split; [|split].
  - refine (proj1 (proj1 (move_task_spec demo_world "T1" "DONE") _ eq_refl _)).
    simpl. tauto.
  - exact (proj1 (proj2 (move_task_spec demo_world "T9" "DONE")) eq_refl).
  - refine (proj2 (proj2 (move_task_spec demo_world "T1" "BOGUS")) _ eq_refl _).
    simpl. intros [H|[H|[H|[H|[H|[]]]]]]; discriminate H.
Defined.

(** C7 on the small store: a second T1 is refused and T1 is what it
    was. *)
Lemma add_task_duplicate_witness :
  fails_with
    (add_task strptime_Ymd_ascii
       (mkAddArgs "T1" "Another" "TODO" None None None None None))
    demo_world "Task already exists"
  /\ dict_get "T1"
       (tasks (stored (snd (add_task strptime_Ymd_ascii
                              (mkAddArgs "T1" "Another" "TODO" None None None None None)
                              demo_world))))
     = Some (demo_task "T1" "REVIEW" (Some "S1") (Some "keep me")).
Proof.
  pose proof (add_task_duplicate strptime_Ymd_ascii demo_world
                (mkAddArgs "T1" "Another" "TODO" None None None None None)
                (demo_task "T1" "REVIEW" (Some "S1") (Some "keep me")) eq_refl)
    as [H1 [_ H3]].
  split; assumption.
Defined.

(** C3 on the small store: a new name and a valid status come with the
    30th of February; nothing is stored. *)
Lemma task_edit_all_or_nothing_witness :
  has_invalid_field strptime_Ymd_ascii
    (mkEditArgs "T1" (Some "Renamed") (Some "DONE") None None (Some "2024-02-30") None None)
  = true
  /\ fails_with
       (task_edit strptime_Ymd_ascii
          (mkEditArgs "T1" (Some "Renamed") (Some "DONE") None None
             (Some "2024-02-30") None None))
       demo_world "Invalid date format: 2024-02-30 (expected YYYY-MM-DD)"
  /\ stored (snd (task_edit strptime_Ymd_ascii
                    (mkEditArgs "T1" (Some "Renamed") (Some "DONE") None None
                       (Some "2024-02-30") None None) demo_world))
     = demo_store.
Proof.
  split; [reflexivity|].
  pose proof (task_edit_all_or_nothing strptime_Ymd_ascii demo_world
                (mkEditArgs "T1" (Some "Renamed") (Some "DONE") None None
                   (Some "2024-02-30") None None)
                (demo_task "T1" "REVIEW" (Some "S1") (Some "keep me"))
                eq_refl eq_refl) as [H1 [H2 _]].
  split; assumption.
Defined.

(** C1 on the small store: closing S1 sends T1 (in review) back to the
    backlog, keeps T2 (done) in S1, leaves T3 alone, and reports one
    task. *)
Lemma sprint_close_cascade_witness :
  exists data',
    saves_as (sprint_close "S1") demo_world data'
      ["Sprint 'S1' closed"; "1 unfinished tasks moved back to backlog"]
    /\ dict_get "T1" (tasks data')
       = Some (demo_task "T1" "REVIEW" None (Some "keep me"))
    /\ dict_get "T2" (tasks data') = Some (demo_task "T2" "DONE" (Some "S1") None)
    /\ dict_get "T3" (tasks data') = Some (demo_task "T3" "TODO" None None)
    /\ dict_get "S1" (sprints data') = Some (demo_sprint "S1" true).
Proof.
  destruct (sprint_close_cascade demo_world "S1" (demo_sprint "S1" false) eq_refl eq_refl)
    as [data' [Hrun [_ [Hback [Hkeep [_ [Hsprint _]]]]]]].
  exists data'. split; [exact Hrun|]. split; [|split; [|split]].
  - apply (Hback "T1" _ eq_refl eq_refl). discriminate.
  - apply (Hkeep "T2" _ eq_refl). right. reflexivity.
  - apply (Hkeep "T3" _ eq_refl). left. discriminate.
  - exact Hsprint.
Defined.

Lemma demo_statuses_valid : valid_statuses (dict_values (tasks demo_store)).
Proof.
  repeat constructor.
  - exists "REVIEW". simpl. tauto.
  - exists "DONE". simpl. tauto.
  - exists "TODO". simpl. tauto.
Qed.

(** C8 on the small store and on the empty one: the whole board, five
    buckets in order, and the file as it was. *)
Lemma board_tasks_projection_witness :
  (exists w',
     board_tasks (mkBoardArgs None false) demo_world = (Value tt, w')
     /\ same_file demo_world w'
     /\ stdout w'
        = ["KANBAN BOARD"; "============"; "";
           "TODO"; "----"; "T3  Task T3 "; "";
           "IN_PROGRESS"; "-----------"; "(no tasks)"; "";
           "REVIEW"; "------"; "T1  Task T1 💬"; "";
           "TESTING_DEPLOYMENT"; "------------------"; "(no tasks)"; "";
           "DONE"; "----"; "T2  Task T2 "; ""])
  /\ (exists w',
     board_tasks (mkBoardArgs None false) (world_of empty_store) = (Value tt, w')
     /\ same_file (world_of empty_store) w'
     /\ stdout w'
        = ["KANBAN BOARD"; "============"; "";
           "TODO"; "----"; "(no tasks)"; "";
           "IN_PROGRESS"; "-----------"; "(no tasks)"; "";
           "REVIEW"; "------"; "(no tasks)"; "";
           "TESTING_DEPLOYMENT"; "------------------"; "(no tasks)"; "";
           "DONE"; "----"; "(no tasks)"; ""]).
Proof.
  split.
  - destruct (board_tasks_projection demo_world (mkBoardArgs None false))
      as [Hfile [Hrun _]].
    destruct (Hrun None (dict_values (tasks demo_store)) eq_refl demo_statuses_valid)
      as [w' [Heq Hout]].
    exists w'. split; [exact Heq|]. split.
    + rewrite Heq in Hfile. exact Hfile.
    + rewrite Hout. reflexivity.
  - destruct (board_tasks_projection (world_of empty_store) (mkBoardArgs None false))
      as [Hfile [Hrun _]].
    destruct (Hrun None [] eq_refl (Forall_nil _)) as [w' [Heq Hout]].
    exists w'. split; [exact Heq|]. split.
    + rewrite Heq in Hfile. exact Hfile.
    + rewrite Hout. reflexivity.
Defined.

(** C9 on three stores: no open sprint, two open sprints, and the one
    open sprint S1 of the small store with its tasks T1 and T2. *)
Lemma board_current_scope_witness :
  fails_with (board_tasks (mkBoardArgs None true)) (world_of no_open_store)
    "No active sprint found"
  /\ fails_with (board_tasks (mkBoardArgs None true)) (world_of two_open_store)
       "More than one active sprint found"
  /\ board_scope (mkBoardArgs None true) demo_store demo_world
     = (Value (Some (demo_sprint "S1" false),
               [demo_task "T1" "REVIEW" (Some "S1") (Some "keep me");
                demo_task "T2" "DONE" (Some "S1") None]), demo_world).
Proof.
  split; [|split].
  - exact (proj1 (board_current_scope (world_of no_open_store)
                    (mkBoardArgs None true) eq_refl) eq_refl).
  - refine (proj1 (proj2 (board_current_scope (world_of two_open_store)
                            (mkBoardArgs None true) eq_refl)) _).
    simpl. apply le_n.
  - exact (proj1 (proj2 (proj2 (board_current_scope demo_world
                                  (mkBoardArgs None true) eq_refl)))
             (demo_sprint "S1" false) eq_refl).
Defined.

(** C6 on the small store: S2 is created open, S0 is closed and cannot
    be closed again, closing S1 closes S1 and not S0, and moving a task
    leaves S1 open. *)
Lemma sprint_closed_monotonic_witness :
  (exists data' s,
     saves_as
       (sprint_add (mkSprintAddArgs "S2" "Sprint S2" "2024-01-15" "2024-01-28"))
       demo_world data' ["Sprint 'S2' created"]
     /\ dict_get "S2" (sprints data') = Some s /\ sprint_closed s = false)
  /\ fails_with (sprint_close "S0") demo_world "Sprint already closed"
  /\ stored (snd (sprint_close "S0" demo_world)) = demo_store
  /\ (exists s',
     dict_get "S1"
       (sprints (stored (snd (main strptime_Ymd_ascii editor_quits
                                (CmdSprintClose "S1") demo_world))))
     = Some s'
     /\ closed_step (CmdSprintClose "S1") "S1" (demo_sprint "S1" false) s')
  /\ (exists s',
     dict_get "S0"
       (sprints (stored (snd (main strptime_Ymd_ascii editor_quits
                                (CmdSprintClose "S1") demo_world))))
     = Some s'
     /\ sprint_closed s' = true).
Proof.
  destruct (sprint_closed_monotonic strptime_Ymd_ascii editor_quits)
    as [Hadd [_ [Hstep [Hmono Htwice]]]].
  split; [|split; [|split; [|split]]].
  - exact (Hadd demo_world
             (mkSprintAddArgs "S2" "Sprint S2" "2024-01-15" "2024-01-28") eq_refl).
  - exact (proj1 (Htwice demo_world "S0" (demo_sprint "S0" true) eq_refl eq_refl)).
  - exact (proj2 (Htwice demo_world "S0" (demo_sprint "S0" true) eq_refl eq_refl)).
  - exact (Hstep (CmdSprintClose "S1") demo_world "S1" (demo_sprint "S1" false) eq_refl).
  - exact (Hmono (CmdSprintClose "S1") demo_world "S0" (demo_sprint "S0" true)
             eq_refl eq_refl).
Defined.

(** C10 as claimed fails: the file "status=BOGUS" has no marker line, the
    edit of T1 is refused, and T1 keeps its comment. *)
Lemma vi_no_marker_comment_survives :
  dict_get "T1" (tasks (stored demo_world))
  = Some (demo_task "T1" "REVIEW" (Some "S1") (Some "keep me"))
  /\ no_marker_line ("status=BOGUS" ++ nl)
  /\ task_edit_vi strptime_Ymd_ascii (editor_leaves ("status=BOGUS" ++ nl)) "T1" demo_world
     = (Returned, printed invalid_status_msg demo_world)
  /\ option_map task_comment
       (dict_get "T1"
          (tasks (stored (snd (task_edit_vi strptime_Ymd_ascii
                                 (editor_leaves ("status=BOGUS" ++ nl)) "T1"
                                 demo_world)))))
     = Some (Some "keep me").
Proof.
  split; [reflexivity|]. split; [|split; reflexivity].
  unfold no_marker_line. simpl. intros [H|[]]. discriminate H.
Qed.

(** C10 as amended, on the small store: the file "name=NewName" has no
    marker line and passes the checks; T1 is renamed and loses its
    comment. *)
Lemma vi_no_marker_clears_comment_witness :
  saves_as (task_edit_vi strptime_Ymd_ascii (editor_leaves ("name=NewName" ++ nl)) "T1")
    demo_world
    (with_task "T1"
       (set_task_comment None
          (set_task_name (Some "NewName")
             (demo_task "T1" "REVIEW" (Some "S1") (Some "keep me"))))
       demo_store)
    ["Task 'T1' updated via editor"]
  /\ task_comment
       (vi_result (editor_leaves ("name=NewName" ++ nl))
          (demo_task "T1" "REVIEW" (Some "S1") (Some "keep me")))
     = None.
Proof.
  assert (Hno : no_marker_line ("name=NewName" ++ nl)).
  { unfold no_marker_line. simpl. intros [H|[]]. discriminate H. }
  destruct (proj1 (vi_no_marker_clears_comment strptime_Ymd_ascii
                     (editor_leaves ("name=NewName" ++ nl)) demo_world "T1"
                     (demo_task "T1" "REVIEW" (Some "S1") (Some "keep me"))
                     eq_refl Hno) eq_refl)
    as [Hrun [_ Hcomment]].
  split; [exact Hrun | exact Hcomment].
Defined.

(** C2 on the small store: T1 was in review; after the edit its status is
    [None]. *)
Lemma vi_empty_status_is_stored_witness :
  saves_as
    (task_edit_vi strptime_Ymd_ascii
       (editor_leaves ("status=" ++ nl ++ "name=NewName" ++ nl)) "T1")
    demo_world
    (with_task "T1"
       (mkTask (Some "T1") (Some "NewName") None None None None (Some "S1") None
          (Some "1h") None)
       demo_store)
    ["Task 'T1' updated via editor"].
Proof.
  exact (proj1 (vi_empty_status_is_stored strptime_Ymd_ascii
                  (editor_leaves ("status=" ++ nl ++ "name=NewName" ++ nl))
                  demo_world "T1"
                  (demo_task "T1" "REVIEW" (Some "S1") (Some "keep me"))
                  eq_refl eq_refl)).
Defined.

(** C4 on the small store: T2 stays filed under T2, but its record now
    says code X and sprint NOPE, and there is no sprint NOPE. *)
Lemma vi_code_and_sprint_code_are_assigned_witness :
  saves_as
    (task_edit_vi strptime_Ymd_ascii
       (editor_leaves ("code=X" ++ nl ++ "sprint_code=NOPE" ++ nl)) "T2")
    demo_world
    (with_task "T2"
       (mkTask (Some "X") (Some "Task T2") None None None (Some "DONE") (Some "NOPE")
          None (Some "1h") None)
       demo_store)
    ["Task 'T2' updated via editor"]
  /\ dict_get "NOPE" (sprints demo_store) = None.
Proof.
  split; [|reflexivity].
  exact (proj1 (vi_code_and_sprint_code_are_assigned strptime_Ymd_ascii
                  (editor_leaves ("code=X" ++ nl ++ "sprint_code=NOPE" ++ nl))
                  demo_world "T2"
                  (demo_task "T2" "DONE" (Some "S1") None)
                  eq_refl eq_refl)).
Defined.

(** After the edit of C2 the board cannot place T1: its status is
    [None], [grouped[None]] is a [KeyError], and nothing is printed. *)
Example board_after_empty_status :
  board_tasks (mkBoardArgs None false)
    (snd (task_edit_vi strptime_Ymd_ascii
            (editor_leaves ("status=" ++ nl ++ "name=NewName" ++ nl)) "T1"
            demo_world))
  = (Raised "KeyError",
     snd (task_edit_vi strptime_Ymd_ascii
            (editor_leaves ("status=" ++ nl ++ "name=NewName" ++ nl)) "T1"
            demo_world)).
Proof. reflexivity. Qed.

(** An editor that is closed at once changes nothing in T1: the template
    reads back as the record it was written from. *)
Example vi_quit_keeps_task :
  option_map (fun d => dict_get "T1" (tasks d))
    (disk (snd (task_edit_vi strptime_Ymd_ascii editor_quits "T1" demo_world)))
  = Some (Some (demo_task "T1" "REVIEW" (Some "S1") (Some "keep me"))).
Proof. reflexivity. Qed.

(** The spec's scenario: T1 is created in S1, moved to REVIEW, and S1 is
    closed; T1 is back in the backlog and the report counts one task. *)
Example scenario_close_after_move :
  let w0 := world_of {| tasks := []; sprints := [("S1", demo_sprint "S1" false)] |} in
  let w1 := snd (add_task strptime_Ymd_ascii
                   (mkAddArgs "T1" "Task T1" "TODO" (Some "S1") None None None None) w0) in
  let w2 := snd (move_task "T1" "REVIEW" w1) in
  let w3 := snd (sprint_close "S1" w2) in
  option_map task_sprint_code (dict_get "T1" (tasks (stored w3))) = Some None
  /\ stdout w3
     = ["Task 'T1' created"; "Task 'T1' moved: TODO → REVIEW"; "Sprint 'S1' closed";
        "1 unfinished tasks moved back to backlog"].
Proof. split; reflexivity. Qed.

(* ------------------------------------------------------------------ *)
(** ** The rest of the script at work on the small store *)
(* ------------------------------------------------------------------ *)

(** X1 on the small store: T4 is created in the open sprint S1 and filed
    after T3. *)
Lemma add_task_creates_witness :
  exists data',
    saves_as
      (add_task strptime_Ymd_ascii (demo_add "T4" "TODO" (Some "S1") (Some "2024-03-01")))
      demo_world data' ["Task 'T4' created"]
    /\ dict_get "T4" (tasks data')
       = Some (mkTask (Some "T4") (Some "Task T4") (Some "2024-03-01") None None
                 (Some "TODO") (Some "S1") None None None)
    /\ dict_keys (tasks data') = ["T1"; "T2"; "T3"; "T4"].
Proof.
  destruct (add_task_creates strptime_Ymd_ascii demo_world
              (demo_add "T4" "TODO" (Some "S1") (Some "2024-03-01")))
    as [data' [Hrun [Hget [_ [_ [_ [Hkeys _]]]]]]].
  - reflexivity.
  - simpl. tauto.
  - intros d [<-|[<-|[<-|[]]]]; reflexivity.
  - right. exists "S1", (demo_sprint "S1" false). repeat split.
  - exists data'. split; [exact Hrun|]. split; [exact Hget | exact Hkeys].
Defined.

(** X2 on the small store: S0 is closed and there is no S9. *)
Lemma add_task_sprint_guard_witness :
  gives_up (add_task strptime_Ymd_ascii (demo_add "T4" "TODO" (Some "S0") None)) demo_world
  /\ gives_up (add_task strptime_Ymd_ascii (demo_add "T4" "TODO" (Some "S9") None))
       demo_world.
Proof.
  split.
  - apply (add_task_sprint_guard strptime_Ymd_ascii demo_world
             (demo_add "T4" "TODO" (Some "S0") None) "S0" eq_refl).
    + discriminate.
    + right. exists (demo_sprint "S0" true). split; reflexivity.
  - apply (add_task_sprint_guard strptime_Ymd_ascii demo_world
             (demo_add "T4" "TODO" (Some "S9") None) "S9" eq_refl).
    + discriminate.
    + left. reflexivity.
Defined.

(** X3 on the small store: BOGUS is no status, and 2024-02-30 is no
    date. *)
Lemma add_task_validates_witness :
  fails_with (add_task strptime_Ymd_ascii (demo_add "T4" "BOGUS" None None)) demo_world
    invalid_status_msg
  /\ gives_up
       (add_task strptime_Ymd_ascii (demo_add "T4" "TODO" None (Some "2024-02-30")))
       demo_world.
Proof.
  split.
  - apply (proj1 (add_task_validates strptime_Ymd_ascii demo_world
                    (demo_add "T4" "BOGUS" None None) eq_refl)).
    simpl. intros [H|[H|[H|[H|[H|[]]]]]]; discriminate H.
  - apply (proj2 (add_task_validates strptime_Ymd_ascii demo_world
                    (demo_add "T4" "TODO" None (Some "2024-02-30")) eq_refl))
      with (d := Some "2024-02-30").
    + simpl. tauto.
    + simpl. tauto.
    + reflexivity.
Defined.

(** X4 on the small store: an empty --name is no change. *)
Lemma task_edit_no_changes_witness :
  fails_with (task_edit strptime_Ymd_ascii (demo_edit (Some "") None None)) demo_world
    "No changes provided".
Proof.
  exact (task_edit_no_changes strptime_Ymd_ascii demo_world
           (demo_edit (Some "") None None)
           (demo_task "T1" "REVIEW" (Some "S1") (Some "keep me")) eq_refl eq_refl).
Defined.

(** X5 on the small store: T1 gets a name, a status and a start date, and
    keeps its sprint and its comment. *)
Lemma task_edit_applies_witness :
  exists data',
    saves_as
      (task_edit strptime_Ymd_ascii
         (demo_edit (Some "Renamed") (Some "DONE") (Some "2024-03-01")))
      demo_world data' ["Task 'T1' updated"]
    /\ dict_get "T1" (tasks data')
       = Some (mkTask (Some "T1") (Some "Renamed") (Some "2024-03-01") None None
                 (Some "DONE") (Some "S1") (Some "keep me") (Some "1h") None).
Proof.
  destruct (task_edit_applies strptime_Ymd_ascii demo_world
              (demo_edit (Some "Renamed") (Some "DONE") (Some "2024-03-01"))
              (demo_task "T1" "REVIEW" (Some "S1") (Some "keep me"))
              eq_refl eq_refl eq_refl)
    as [task' [data' [Hrun [Hget [_ [_ [H1 [H2 [H3 [H4 [H5 [H6 [H7 [H8 [H9 H10]]]]]]]]]]]]]]].
  exists data'. split; [exact Hrun|]. simpl in Hget. rewrite Hget. f_equal.
  destruct task'. simpl in *. congruence.
Defined.

(** X6 on the small store: there is no T9. *)
Lemma task_not_found_witness :
  fails_with (move_task "T9" "DONE") demo_world "Task not found"
  /\ fails_with (task_edit_vi strptime_Ymd_ascii editor_quits "T9") demo_world
       "Task not found"
  /\ fails_with (task_show "T9") demo_world "Task not found".
Proof.
  destruct (task_not_found strptime_Ymd_ascii editor_quits demo_world "T9" eq_refl)
    as [Hmove [_ [Hvi [_ Hshow]]]].
  split; [apply Hmove | split; [exact Hvi | exact Hshow]].
Defined.

(** X7 on the small store: there is no S9. *)
Lemma sprint_not_found_witness :
  fails_with (sprint_close "S9") demo_world "Sprint not found"
  /\ fails_with (board_tasks (mkBoardArgs (Some "S9") false)) demo_world
       "Sprint not found"
  /\ fails_with (list_tasks (mkListArgs (Some "DONE") (Some "S9"))) demo_world
       "Sprint not found".
Proof.
  assert (Hne : "S9" <> "") by discriminate.
  destruct (sprint_not_found demo_world "S9" Hne eq_refl) as [Hclose [Hboard Hlist]].
  split; [exact Hclose | split; [exact Hboard|]].
  apply Hlist. right. exists "DONE". split; [reflexivity | simpl; tauto].
Defined.

(** X8 on the small store: T1 goes to DONE and back to REVIEW. *)
Lemma move_task_there_and_back_witness :
  stored (snd (move_task "T1" "REVIEW" (snd (move_task "T1" "DONE" demo_world))))
  = demo_store.
Proof.
  apply (move_task_there_and_back demo_world "T1" "REVIEW" "DONE"
           (demo_task "T1" "REVIEW" (Some "S1") (Some "keep me")) eq_refl eq_refl);
    simpl; tauto.
Defined.

(** X9 on the small store: the editor leaves "new note" and two
    newlines; T1 gets the comment "new note". *)
Lemma edit_task_comment_stores_witness :
  exists data',
    saves_as
      (edit_task_comment (editor_leaves ("new note" ++ nl ++ nl)) "T1")
      demo_world data' ["Comment updated for task 'T1'"]
    /\ dict_get "T1" (tasks data')
       = Some (demo_task "T1" "REVIEW" (Some "S1") (Some "new note")).
Proof.
  destruct (edit_task_comment_stores (editor_leaves ("new note" ++ nl ++ nl))
              demo_world "T1"
              (demo_task "T1" "REVIEW" (Some "S1") (Some "keep me")) eq_refl)
    as [c [data' [Hrun [Hget [_ [_ [_ [_ Hsome]]]]]]]].
  exists data'. split; [exact Hrun|]. rewrite Hget, Hsome; [reflexivity|].
  discriminate.
Defined.


(** X11 on the small store: the done tasks of S1. *)
Lemma list_tasks_output_witness :
  exists w',
    list_tasks (mkListArgs (Some "DONE") (Some "S1")) demo_world = (Value tt, w')
    /\ same_file demo_world w'
    /\ stdout w' = ["[DONE] T2 - Task T2  (sprint: S1)"].
Proof.
  destruct (list_tasks_output demo_world (mkListArgs (Some "DONE") (Some "S1")))
    as [_ [Hsome _]].
  - right. exists "DONE". split; [reflexivity | simpl; tauto].
  - right. exists "S1", (demo_sprint "S1" false). split; reflexivity.
  - apply Hsome. discriminate.
Defined.

(** X12 on the small store: its two sprints. *)
Lemma sprint_list_output_witness :
  exists w',
    sprint_list demo_world = (Value tt, w')
    /\ same_file demo_world w'
    /\ stdout w' = ["S0 - Sprint S0 (2024-01-01 → 2024-01-14) [CLOSED]";
                    "S1 - Sprint S1 (2024-01-01 → 2024-01-14) [OPEN]"].
Proof.
  apply (proj2 (sprint_list_output demo_world)). discriminate.
Defined.

(** X13 on the small store: a move to BOGUS writes nothing, a move to
    DONE writes once. *)
Lemma commands_are_atomic_witness :
  same_file demo_world
    (snd (main strptime_Ymd_ascii editor_quits (CmdMove "T1" "BOGUS") demo_world))
  /\ saves (snd (main strptime_Ymd_ascii editor_quits (CmdMove "T1" "DONE") demo_world))
     = 1.
Proof.
  split.
  - apply (proj1 (proj2 (commands_are_atomic strptime_Ymd_ascii editor_quits
                           (CmdMove "T1" "BOGUS") demo_world))).
    discriminate.
  - destruct (proj1 (commands_are_atomic strptime_Ymd_ascii editor_quits
                       (CmdMove "T1" "DONE") demo_world)) as [[_ H]|[_ [H _]]].
    + discriminate H.
    + exact H.
Defined.

(** X14 on the small store: after T4 is added the tasks are T1, T2, T3 and
    T4, and the sprints are S0 and S1. *)
Lemma records_are_kept_witness :
  dict_keys (tasks (stored (snd (main strptime_Ymd_ascii editor_quits
                                   (CmdAdd (demo_add "T4" "TODO" None None))
                                   demo_world))))
  = ["T1"; "T2"; "T3"; "T4"]
  /\ dict_keys (sprints (stored (snd (main strptime_Ymd_ascii editor_quits
                                        (CmdAdd (demo_add "T4" "TODO" None None))
                                        demo_world))))
     = ["S0"; "S1"].
Proof.
  destruct (records_are_kept strptime_Ymd_ascii editor_quits
              (CmdAdd (demo_add "T4" "TODO" None None)) demo_world)
    as [nt [ns [Ht [Hs _]]]].
  split; reflexivity.
Defined.

(** X15 and X16 on the small store: after S1 is closed every task still
    has a status of the enum and a sprint of the store. *)
Lemma statuses_stay_valid_witness :
  statuses_ok
    (stored (snd (main strptime_Ymd_ascii editor_quits (CmdSprintClose "S1") demo_world))).
Proof.
  apply statuses_stay_valid.
  - discriminate.
  - exact demo_statuses_valid.
Defined.

Lemma sprint_refs_stay_valid_witness :
  sprint_refs_ok
    (stored (snd (main strptime_Ymd_ascii editor_quits
                    (CmdAdd (demo_add "T4" "TODO" (Some "S1") None)) demo_world))).
Proof.
  apply sprint_refs_stay_valid.
  - discriminate.
  - unfold sprint_refs_ok. simpl. repeat constructor.
    + intros name H _. now injection H as <-.
    + intros name H _. now injection H as <-.
    + intros name H _. discriminate H.
Defined.

(** X17 on the small store: the board of an unknown sprint and the board of
    everything both end without an exception. *)
Lemma board_never_raises_witness :
  fst (board_tasks (mkBoardArgs (Some "S9") false) demo_world) = Returned
  /\ fst (board_tasks (mkBoardArgs None false) demo_world) = Value tt.
Proof.
  split.
  - destruct (board_never_raises demo_world (mkBoardArgs (Some "S9") false)
                demo_statuses_valid) as [H|H]; [discriminate H | exact H].
  - destruct (board_never_raises demo_world (mkBoardArgs None false)
                demo_statuses_valid) as [H|H]; [exact H | discriminate H].
Defined.

(** X18 on the store in which T1 has lost its status: no board. *)
Lemma board_key_error_witness :
  board_tasks (mkBoardArgs None false) (world_of broken_store)
  = (Raised "KeyError", world_of broken_store).
Proof.
  apply (board_key_error (world_of broken_store) (mkBoardArgs None false) None
           (dict_values (tasks broken_store)) eq_refl).
  intros H. inversion H as [|t l [s [Hs _]] _]. discriminate Hs.
Defined.

(** X19 on the small store: after S1 is closed, T2 is the task that names
    S1, and T2 is done. *)
Lemma sprint_close_leaves_done_witness :
  dict_get "T2" (tasks (stored (snd (sprint_close "S1" demo_world))))
  = Some (demo_task "T2" "DONE" (Some "S1") None)
  /\ task_status (demo_task "T2" "DONE" (Some "S1") None) = Some "DONE".
Proof.
  split; [reflexivity|].
  exact (sprint_close_leaves_done demo_world "S1" (demo_sprint "S1" false)
           eq_refl eq_refl "T2" _ eq_refl eq_refl).
Defined.

(** X20 on the small store: S1 was the only open sprint. *)
Lemma sprint_close_open_count_witness :
  List.length (get_open_sprints (stored (snd (sprint_close "S1" demo_world)))) = 0
  /\ fails_with (board_tasks (mkBoardArgs None true))
       (snd (sprint_close "S1" demo_world)) "No active sprint found".
Proof.
  destruct (sprint_close_open_count demo_world "S1" (demo_sprint "S1" false)
              eq_refl eq_refl) as [Hcount Hboard].
  split.
  - apply eq_add_S. exact Hcount.
  - apply Hboard; reflexivity.
Defined.

(** X21 on the small store: S2 is a second open sprint. *)
Lemma sprint_add_open_count_witness :
  List.length
    (get_open_sprints
       (stored (snd (sprint_add (mkSprintAddArgs "S2" "Sprint S2" "soon" "later")
                       demo_world)))) = 2
  /\ fails_with (board_tasks (mkBoardArgs None true))
       (snd (sprint_add (mkSprintAddArgs "S2" "Sprint S2" "soon" "later") demo_world))
       "More than one active sprint found".
Proof.
  destruct (sprint_add_open_count demo_world
              (mkSprintAddArgs "S2" "Sprint S2" "soon" "later") eq_refl)
    as [Hcount Hboard].
  split.
  - exact Hcount.
  - apply Hboard; [simpl; apply le_n | reflexivity].
Defined.

(** X22 on a file of five lines: one field, the marker, a line of
    comment, the marker again, a line that looks like a field. *)
Lemma vi_marker_splits_witness :
  updates (vi_scan_lines ["name=A" ++ nl; "---COMMENT---" ++ nl; "first" ++ nl;
                          "---COMMENT---" ++ nl; "status=DONE" ++ nl])
  = [("name", Some "A")]
  /\ comment_lines (vi_scan_lines ["name=A" ++ nl; "---COMMENT---" ++ nl;
                                   "first" ++ nl; "---COMMENT---" ++ nl;
                                   "status=DONE" ++ nl])
     = ["first"; "status=DONE"].
Proof.
  destruct (vi_marker_splits ["name=A" ++ nl]
              ["first" ++ nl; "---COMMENT---" ++ nl; "status=DONE" ++ nl]
              ("---COMMENT---" ++ nl)) as [Hu [Hc _]].
  - simpl. intros [H|[]]. discriminate H.
  - reflexivity.
  - split; [exact Hu | exact Hc].
Defined.

(** X23 on a file of three lines: the middle one is a comment. *)
Lemma vi_noise_is_skipped_witness :
  vi_scan_lines ["name=A" ++ nl; "# status=DONE" ++ nl; "status=TODO" ++ nl]
  = vi_scan_lines ["name=A" ++ nl; "status=TODO" ++ nl].
Proof.
  apply (vi_noise_is_skipped ["name=A" ++ nl] ["status=TODO" ++ nl]
           ("# status=DONE" ++ nl)).
  - simpl. intros [H|[]]. discriminate H.
  - discriminate.
  - right. left. reflexivity.
Defined.

(** X24 on the small store: the file asks for the status BOGUS, or for
    the closed sprint S0. *)
Lemma vi_checks_first_witness :
  fails_with
    (task_edit_vi strptime_Ymd_ascii (editor_leaves ("status=BOGUS" ++ nl)) "T1")
    demo_world invalid_status_msg
  /\ gives_up
       (task_edit_vi strptime_Ymd_ascii (editor_leaves ("sprint=S0" ++ nl)) "T1")
       demo_world.
Proof.
  split.
  - apply (proj1 (vi_checks_first strptime_Ymd_ascii
                    (editor_leaves ("status=BOGUS" ++ nl)) demo_world "T1"
                    (demo_task "T1" "REVIEW" (Some "S1") (Some "keep me")) eq_refl)
             "BOGUS" eq_refl).
    + discriminate.
    + simpl. intros [H|[H|[H|[H|[H|[]]]]]]; discriminate H.
  - apply (proj2 (vi_checks_first strptime_Ymd_ascii
                    (editor_leaves ("sprint=S0" ++ nl)) demo_world "T1"
                    (demo_task "T1" "REVIEW" (Some "S1") (Some "keep me")) eq_refl)
             "S0" eq_refl).
    + discriminate.
    + right. exists (demo_sprint "S0" true). split; reflexivity.
Defined.



(** X26 on the small store: the file says "status=" and "code=X"; T1 is
    stored with no status and the code X, and keeps its name. *)
Lemma vi_assigns_fields_witness :
  exists task',
    dict_get "T1"
      (tasks (stored (snd (task_edit_vi strptime_Ymd_ascii
                             (editor_leaves ("status=" ++ nl ++ "code=X" ++ nl))
                             "T1" demo_world))))
    = Some task'
    /\ task_status task' = None
    /\ task_code task' = Some "X"
    /\ task_name task' = Some "Task T1".
Proof.
  destruct (vi_assigns_fields strptime_Ymd_ascii
              (editor_leaves ("status=" ++ nl ++ "code=X" ++ nl)) demo_world "T1"
              (demo_task "T1" "REVIEW" (Some "S1") (Some "keep me"))
              eq_refl eq_refl) as [task' [Hget Hfields]].
  exists task'. split; [exact Hget|]. split; [|split].
  - apply (Hfields "status" task_status). simpl. tauto.
  - apply (Hfields "code" task_code). simpl. tauto.
  - apply (Hfields "name" task_name). simpl. tauto.
Defined.

(** X27 on a file of three lines: the second line for the status
    wins, the name stays. *)
Lemma vi_last_line_wins_witness :
  updates_get "status"
    (updates (vi_scan_lines ["status=TODO" ++ nl; "name=A" ++ nl; "status= DONE " ++ nl]))
  = Some "DONE"
  /\ updates_get "name"
       (updates (vi_scan_lines ["status=TODO" ++ nl; "name=A" ++ nl;
                                "status= DONE " ++ nl]))
     = Some "A".
Proof.
  destruct (vi_last_line_wins ["status=TODO" ++ nl; "name=A" ++ nl]
              ("status= DONE " ++ nl) "status" " DONE ") as [Hk Hother].
  - simpl. intros [H|[H|[]]]; discriminate H.
  - discriminate.
  - discriminate.
  - reflexivity.
  - reflexivity.
  - split.
    + exact Hk.
    + assert (Hne : "name" <> "status") by discriminate.
      exact (eq_trans (Hother "name" Hne) eq_refl).
Defined.
